(** * Wallet-signature authentication of the NexaCred backend

  A shallow embedding of [backend/Backend/controllers/userController.js]
  ([walletAuth], [loginUser]) together with the part of the Mongoose schema
  of [modals/User.js] and of the libraries (ethers, bcryptjs, jsonwebtoken,
  Mongoose) that the handlers call, and the properties of the
  authentication flow proved or refuted on it. *)

From Stdlib Require Import String Ascii List ZArith NArith Bool Lia.
Import ListNotations.
Local Open Scope string_scope.

(** ** JavaScript strings

  A string is its sequence of UTF-8 bytes.  Every value on which
  [walletAuth] calls [toLowerCase], [slice] or a regular expression that
  can succeed is ASCII (hex addresses, placeholders), where bytes and
  UTF-16 code units coincide.  [toLowerCase], [trim] and the [.] of the
  regular expressions below are the functions of JavaScript on ASCII
  strings only (outside ASCII, JavaScript also lowers other capitals,
  trims other white space and excludes other line terminators): where a
  property applies them to a string a client chose, the string is assumed
  to be ASCII ([isAscii]). *)
Module JsString.

Definition code (c : ascii) : nat := nat_of_ascii c.

Definition in_range (lo hi c : ascii) : bool :=
  (code lo <=? code c)%nat && (code c <=? code hi)%nat.

Definition isUpper (c : ascii) : bool := in_range "A" "Z" c.
Definition isDigit (c : ascii) : bool := in_range "0" "9" c.

(** Every byte below 128: the string has ASCII characters only. *)
Definition isAsciiChar (c : ascii) : bool := (code c <? 128)%nat.

(** [c.toLowerCase()] on one ASCII character. *)
Definition lowerChar (c : ascii) : ascii :=
  if isUpper c then ascii_of_nat (code c + 32) else c.

(** [s.toLowerCase()], for an ASCII string [s]. *)
Fixpoint toLowerCase (s : string) : string :=
  match s with
  | EmptyString => EmptyString
  | String c s' => String (lowerChar c) (toLowerCase s')
  end.

(** [s.slice(-k)]: the last [k] characters, the whole string when it is
    shorter. *)
Definition sliceLast (k : nat) (s : string) : string :=
  substring (String.length s - k) k s.

(** The ASCII white space, which is what [String.prototype.trim] removes
    from an ASCII string. *)
Definition isSpace (c : ascii) : bool :=
  let n := code c in
  (n =? 32)%nat || ((9 <=? n)%nat && (n <=? 13)%nat).

Fixpoint trimStart (s : string) : string :=
  match s with
  | String c s' => if isSpace c then trimStart s' else s
  | EmptyString => EmptyString
  end.

Fixpoint trimEnd (s : string) : string :=
  match s with
  | EmptyString => EmptyString
  | String c s' =>
      match trimEnd s' with
      | EmptyString => if isSpace c then EmptyString else String c EmptyString
      | t => String c t
      end
  end.

(** [s.trim()], for an ASCII string [s]. *)
Definition trim (s : string) : string := trimEnd (trimStart s).

Definition isEmpty (s : string) : bool :=
  match s with EmptyString => true | _ => false end.

Fixpoint all (p : ascii -> bool) (s : string) : bool :=
  match s with
  | EmptyString => true
  | String c s' => p c && all p s'
  end.

Definition isAscii (s : string) : bool := all isAsciiChar s.

End JsString.
Import JsString.

(** ** Regular expressions

  The fragment the schema and the controller use: a sequence of character
  classes, each repeated exactly [n] times or one or more times, anchored or
  not at either end.  Matching backtracks over [+] as the JavaScript engine
  does. *)
Module Regex.

Inductive quantifier := Exactly (n : nat) | Plus.

Record atom := Atom { cls : ascii -> bool; quant : quantifier }.

Record regex := Re { anchoredStart : bool; atoms : list atom; anchoredEnd : bool }.

Fixpoint times (p : ascii -> bool) (n : nat) (k : string -> bool) (s : string) : bool :=
  match n with
  | O => k s
  | S n' =>
      match s with
      | String c s' => p c && times p n' k s'
      | EmptyString => false
      end
  end.

Fixpoint plus (p : ascii -> bool) (k : string -> bool) (s : string) : bool :=
  match s with
  | String c s' => p c && (plus p k s' || k s')
  | EmptyString => false
  end.

Fixpoint matchHere (atoms : list atom) (stop : string -> bool) : string -> bool :=
  match atoms with
  | [] => stop
  | a :: rest =>
      match quant a with
      | Exactly n => times (cls a) n (matchHere rest stop)
      | Plus => plus (cls a) (matchHere rest stop)
      end
  end.

Fixpoint search (m : string -> bool) (s : string) : bool :=
  m s || match s with
         | String _ s' => search m s'
         | EmptyString => false
         end.

(** [re.test(s)] *)
Definition test (re : regex) (s : string) : bool :=
  let stop := if anchoredEnd re then isEmpty else (fun _ => true) in
  let m := matchHere (atoms re) stop in
  if anchoredStart re then m s else search m s.

(** Character classes. *)
Definition chr (c : ascii) : ascii -> bool := fun x => Ascii.eqb x c.
Definition range (lo hi : ascii) : ascii -> bool := in_range lo hi.
Definition union (p q : ascii -> bool) : ascii -> bool := fun x => p x || q x.
(** [.]: any character but a line terminator, on ASCII strings (the line
    terminators of ASCII are LF and CR; U+2028 and U+2029 are not ASCII). *)
Definition dot : ascii -> bool :=
  fun x => negb (Ascii.eqb x "010" || Ascii.eqb x "013").

Definition one (p : ascii -> bool) : atom := Atom p (Exactly 1).
Definition rep (p : ascii -> bool) (n : nat) : atom := Atom p (Exactly n).
Definition many (p : ascii -> bool) : atom := Atom p Plus.

End Regex.
Import Regex.

(** [[a-fA-F0-9]] *)
Definition hexDigit : ascii -> bool :=
  union (range "a" "f") (union (range "A" "F") (range "0" "9")).

(** [/^0x[a-fA-F0-9]{40}$/], used by the controller and by the schema. *)
Definition walletAddressPattern : regex :=
  Re true [one (chr "0"); one (chr "x"); rep hexDigit 40] true.

(** ** The user schema ([modals/User.js])

    Dates are milliseconds since the epoch; a field the schema does not
    require is an [option]. *)
Definition Date := Z.
Definition ObjectId := N.

Record UserDoc := {
  (* Account Creation *)
  username : string;
  email : string;
  passwordHash : string;
  (* Web3 Wallet Integration *)
  walletAddress : option string;
  walletConnectedAt : option Date;
  lastWalletActivity : option Date;
  (* Personal Information *)
  firstName : string;
  middleName : option string;
  lastName : string;
  fatherOrSpouseName : option string;
  dateOfBirth : Date;
  phoneNumber : string;
  pan : string;
  aadhaar : string;
  (* Address Information *)
  streetAddress : string;
  areaLocality : string;
  city : string;
  state : string;
  pinCode : string;
  country : string;
  (* Employment & Occupation Details *)
  employmentStatus : string;
  occupationCategory : string;
  companyName : string;
  yearsOfExperience : Z;
  monthlyIncomeRange : string;
  (* Basic Financial Information *)
  hasCreditAccounts : bool;
  creditPurpose : string;
  hasBankAccount : bool;
  primaryBankName : string;
  existingCreditScore : Z;
  (* Legal & Compliance *)
  termsAccepted : bool;
  privacyPolicyAccepted : bool;
  consentCreditBureau : bool;
  ageVerified : bool;
  itrStatus : string;
  (* Optional *)
  educationalQualification : option string;
  languagePreference : option string;
  communicationMethod : option string;
  maritalStatus : option string;
  numberOfDependents : option Z;
  createdAt : option Date
}.

(** A stored document: the fields and the primary key Mongoose gives it. *)
Record User := { _id : ObjectId; doc : UserDoc }.

(** [d] with its account, wallet and creation fields replaced; every profile
    field is kept. *)
Definition rebuild (d : UserDoc) (un em ph : string) (wa : option string)
    (wc la ca : option Date) : UserDoc :=
  {| username := un; email := em; passwordHash := ph;
     walletAddress := wa; walletConnectedAt := wc; lastWalletActivity := la;
     firstName := firstName d; middleName := middleName d; lastName := lastName d;
     fatherOrSpouseName := fatherOrSpouseName d; dateOfBirth := dateOfBirth d;
     phoneNumber := phoneNumber d; pan := pan d; aadhaar := aadhaar d;
     streetAddress := streetAddress d; areaLocality := areaLocality d;
     city := city d; state := state d; pinCode := pinCode d; country := country d;
     employmentStatus := employmentStatus d;
     occupationCategory := occupationCategory d; companyName := companyName d;
     yearsOfExperience := yearsOfExperience d;
     monthlyIncomeRange := monthlyIncomeRange d;
     hasCreditAccounts := hasCreditAccounts d; creditPurpose := creditPurpose d;
     hasBankAccount := hasBankAccount d; primaryBankName := primaryBankName d;
     existingCreditScore := existingCreditScore d;
     termsAccepted := termsAccepted d;
     privacyPolicyAccepted := privacyPolicyAccepted d;
     consentCreditBureau := consentCreditBureau d; ageVerified := ageVerified d;
     itrStatus := itrStatus d;
     educationalQualification := educationalQualification d;
     languagePreference := languagePreference d;
     communicationMethod := communicationMethod d;
     maritalStatus := maritalStatus d;
     numberOfDependents := numberOfDependents d;
     createdAt := ca |}.

Definition set_lastWalletActivity (d : UserDoc) (t : option Date) : UserDoc :=
  rebuild d (username d) (email d) (passwordHash d) (walletAddress d)
    (walletConnectedAt d) t (createdAt d).

Definition set_passwordHash (d : UserDoc) (h : string) : UserDoc :=
  rebuild d (username d) (email d) h (walletAddress d)
    (walletConnectedAt d) (lastWalletActivity d) (createdAt d).

(** The setters of the schema ([trim] on [username], [lowercase] on [email]
    and [walletAddress]), run when a document is built. *)
Definition applySetters (d : UserDoc) : UserDoc :=
  rebuild d (trim (username d)) (toLowerCase (email d)) (passwordHash d)
    (option_map toLowerCase (walletAddress d))
    (walletConnectedAt d) (lastWalletActivity d) (createdAt d).

(** The default of [createdAt] ([Date.now]), taken when the field is absent. *)
Definition applyDefaults (now : Date) (d : UserDoc) : UserDoc :=
  rebuild d (username d) (email d) (passwordHash d) (walletAddress d)
    (walletConnectedAt d) (lastWalletActivity d)
    (match createdAt d with Some t => Some t | None => Some now end).

(** *** Validators *)

(** [/.+@.+\..+/] *)
Definition emailPattern : regex :=
  Re false [many dot; one (chr "@"); many dot; one (chr "."); many dot] false.
(** [/^\+91[0-9]{10}$/] *)
Definition phonePattern : regex :=
  Re true [one (chr "+"); one (chr "9"); one (chr "1"); rep (range "0" "9") 10] true.
(** [/^[A-Z]{5}[0-9]{4}[A-Z]{1}$/] *)
Definition panPattern : regex :=
  Re true [rep (range "A" "Z") 5; rep (range "0" "9") 4; rep (range "A" "Z") 1] true.
(** [/^[0-9]{12}$/] *)
Definition aadhaarPattern : regex := Re true [rep (range "0" "9") 12] true.
(** [/^[0-9]{6}$/] *)
Definition pinCodePattern : regex := Re true [rep (range "0" "9") 6] true.

Definition employmentStatuses : list string :=
  ["Salaried Employee"; "Self-employed Professional"; "Business Owner"; "Farmer";
   "Student"; "Housewife/Homemaker"; "Retired"; "Unemployed"].

Definition occupationCategories : list string :=
  ["Government Employee"; "Private Sector Employee"; "Public Sector Employee";
   "Doctor/Medical Professional"; "Engineer/IT Professional"; "Teacher/Professor";
   "Lawyer/Legal Professional"; "Chartered Accountant/CA"; "Architect";
   "Consultant"; "Trader/Merchant"; "Manufacturer"; "Contractor";
   "Farmer/Agriculture"; "Driver/Transport"; "Shopkeeper/Retailer"; "Freelancer";
   "Other Professional"; "Other"].

Definition monthlyIncomeRanges : list string :=
  ["Below ₹25,000"; "₹25,000 - ₹50,000"; "₹50,000 - ₹1,00,000";
   "₹1,00,000 - ₹2,00,000"; "₹2,00,000 - ₹5,00,000"; "Above ₹5,00,000"].

Definition creditPurposes : list string :=
  ["Personal Loan"; "Credit Card"; "Home Loan"; "Car Loan"; "Education Loan";
   "Business Loan"; "Gold Loan"; "Two-Wheeler Loan"; "Other"].

Definition itrStatuses : list string :=
  ["Yes, regularly file ITR"; "Filed ITR in past 2 years"; "Never filed ITR"].

Definition educationalQualifications : list string :=
  ["Below 10th"; "10th Pass"; "12th Pass"; "Graduate"; "Post Graduate";
   "Professional Degree"; "Doctorate"].

Definition languagePreferences : list string := ["English"; "Hindi"; "Regional"].
Definition communicationMethods : list string := ["SMS"; "Email"; "WhatsApp"].
Definition maritalStatuses : list string :=
  ["Single"; "Married"; "Divorced"; "Widowed"].

(** [required: true] on a string: present and not empty. *)
Definition required (s : string) : bool := negb (isEmpty s).

(** [match: re]: an empty value passes, [required] is what refuses it. *)
Definition matches (re : regex) (s : string) : bool := isEmpty s || test re s.

(** [enum: values] *)
Definition oneOf (values : list string) (s : string) : bool :=
  existsb (String.eqb s) values.

(** A validator on a field that may be absent. *)
Definition whenPresent {A} (v : A -> bool) (o : option A) : bool :=
  match o with Some a => v a | None => true end.

(** [min: 0] *)
Definition minZero (n : Z) : bool := (0 <=? n)%Z.

(** [doc.validate()]: every validator of the schema. *)
Definition validate (d : UserDoc) : bool :=
  required (username d)
  && required (email d) && matches emailPattern (email d)
  && required (passwordHash d)
  && whenPresent (matches walletAddressPattern) (walletAddress d)
  && required (firstName d) && required (lastName d)
  && required (phoneNumber d) && matches phonePattern (phoneNumber d)
  && required (pan d) && matches panPattern (pan d)
  && required (aadhaar d) && matches aadhaarPattern (aadhaar d)
  && required (streetAddress d) && required (areaLocality d)
  && required (city d) && required (state d)
  && required (pinCode d) && matches pinCodePattern (pinCode d)
  && required (country d)
  && required (employmentStatus d) && oneOf employmentStatuses (employmentStatus d)
  && required (occupationCategory d)
  && oneOf occupationCategories (occupationCategory d)
  && required (companyName d)
  && minZero (yearsOfExperience d)
  && required (monthlyIncomeRange d)
  && oneOf monthlyIncomeRanges (monthlyIncomeRange d)
  && required (creditPurpose d) && oneOf creditPurposes (creditPurpose d)
  && required (primaryBankName d)
  && minZero (existingCreditScore d)
  && required (itrStatus d) && oneOf itrStatuses (itrStatus d)
  && whenPresent (oneOf educationalQualifications) (educationalQualification d)
  && whenPresent (oneOf languagePreferences) (languagePreference d)
  && whenPresent (oneOf communicationMethods) (communicationMethod d)
  && whenPresent (oneOf maritalStatuses) (maritalStatus d)
  && whenPresent minZero (numberOfDependents d).

(** ** The world of a handler

    The [users] collection in insertion order (the order [findOne] scans),
    the generator of primary keys, how many times the clock and the random
    source were read, and the calls made to the verifier, the store and the
    token signer, most recent first. *)
Inductive Event :=
| EvVerifyMessage (message signature : string)
| EvWarn
| EvError
| EvFindOne
| EvCreate
| EvSave (id : ObjectId)
| EvJwtSign (userId : ObjectId).

Record World := {
  users : list User;
  nextId : ObjectId;
  dateReads : nat;
  randomReads : nat;
  log : list Event
}.

Definition logged (e : Event) (w : World) : World :=
  {| users := users w; nextId := nextId w; dateReads := dateReads w;
     randomReads := randomReads w; log := e :: log w |}.

Definition tickDate (w : World) : World :=
  {| users := users w; nextId := nextId w; dateReads := S (dateReads w);
     randomReads := randomReads w; log := log w |}.

Definition tickRandom (w : World) : World :=
  {| users := users w; nextId := nextId w; dateReads := dateReads w;
     randomReads := S (randomReads w); log := log w |}.

Definition tickId (w : World) : World :=
  {| users := users w; nextId := N.succ (nextId w); dateReads := dateReads w;
     randomReads := randomReads w; log := log w |}.

Definition withUsers (us : list User) (w : World) : World :=
  {| users := us; nextId := nextId w; dateReads := dateReads w;
     randomReads := randomReads w; log := log w |}.

(** What the handlers take from outside: the libraries whose results are
    cryptographic or random, the clock and the configuration.
    [verifyMessage] is [None] when ethers throws (a signature that is not a
    well-formed 65-byte signature); [randomPassword n] is the value of
    [Math.random().toString(36).substring(7)] at the [n]-th draw. *)
Record Env := {
  verifyMessage : string -> string -> option string;
  clock : nat -> Date;
  randomPassword : nat -> string;
  genSalt : nat -> string;
  bcryptHash : string -> string -> string;
  bcryptCompare : string -> string -> bool;
  JWT_SECRET : option string
}.

(** *** The store (Mongoose over MongoDB) *)

Definition optEqb (a b : option string) : bool :=
  match a, b with
  | Some x, Some y => String.eqb x y
  | _, _ => false
  end.

(** [User.findOne({ walletAddress: a })]: the first document, in natural
    order, whose field equals the filter after the schema's setter. *)
Definition findOneByWallet (a : string) (us : list User) : option User :=
  find (fun u => optEqb (walletAddress (doc u)) (Some (toLowerCase a))) us.

(** [User.findOne({ username: n })] *)
Definition findOneByUsername (n : string) (us : list User) : option User :=
  find (fun u => String.eqb (username (doc u)) (trim n)) us.

(** The unique indexes: [username], [email], and [walletAddress], which is
    sparse (documents without the field are not indexed). *)
Definition clashes (d : UserDoc) (u : User) : bool :=
  String.eqb (username (doc u)) (username d)
  || String.eqb (email (doc u)) (email d)
  || optEqb (walletAddress (doc u)) (walletAddress d).

Definition duplicateKey (us : list User) (d : UserDoc) : bool :=
  existsb (clashes d) us.

(** [updateOne({ _id: id }, { $set: { lastWalletActivity: t } })], what
    [user.save()] sends when [lastWalletActivity] is the modified path. *)
Fixpoint setActivity (id : ObjectId) (t : option Date) (us : list User) : option (list User) :=
  match us with
  | [] => None
  | u :: rest =>
      if N.eqb (_id u) id
      then Some ({| _id := _id u; doc := set_lastWalletActivity (doc u) t |} :: rest)
      else option_map (cons u) (setActivity id t rest)
  end.

(** *** Session tokens (jsonwebtoken)

    A token is its claims, the two timestamps in seconds and the key of its
    HMAC signature. *)
Record Token := {
  tokUserId : ObjectId;
  tokUsername : string;
  tokEmail : string;
  tokWalletAddress : option string;
  iat : Z;
  exp : Z;
  signedWith : string
}.

Record Claims := {
  userId : ObjectId;
  claimUsername : string;
  claimEmail : string;
  claimWalletAddress : option string
}.

Fixpoint digits (acc : Z) (s : string) : Z * string :=
  match s with
  | String c s' =>
      if isDigit c then digits (10 * acc + Z.of_nat (code c - code "0")) s'
      else (acc, s)
  | EmptyString => (acc, s)
  end.

(** [ms(span)] of the [ms] package on a number followed by a short unit;
    [None] where it returns [undefined]. *)
Definition ms (span : string) : option Z :=
  match span with
  | EmptyString => None
  | String c _ =>
      if isDigit c then
        let (n, unit) := digits 0 span in
        if isEmpty unit || String.eqb unit "ms" then Some n
        else if String.eqb unit "s" then Some (n * 1000)
        else if String.eqb unit "m" then Some (n * 60000)
        else if String.eqb unit "h" then Some (n * 3600000)
        else if String.eqb unit "d" then Some (n * 86400000)
        else if String.eqb unit "w" then Some (n * 604800000)
        else if String.eqb unit "y" then Some (n * 31557600000)
        else None
      else None
  end%Z.

(** ** Handlers as programs

    A handler is a tree of calls; a call returns or throws, and the code up
    to the next call runs without interruption, as on the event loop. *)
Inductive JsError :=
| SignatureError
| ValidationError
| DuplicateKeyError
| DocumentNotFoundError
| JsonWebTokenError.

Inductive outcome (X : Type) : Type :=
| Returns (x : X)
| Throws (e : JsError).
Arguments Returns {X} x.
Arguments Throws {X} e.

Inductive call : Type -> Type :=
| EthersVerifyMessage (message signature : string) : call string
| ConsoleWarn : call unit
| ConsoleError : call unit
| NewDate : call Date
| MathRandomPassword : call string
| BcryptGenSalt (rounds : nat) : call string
| BcryptHash (password salt : string) : call string
| BcryptCompare (password hash : string) : call bool
| UserFindOneByWallet (a : string) : call (option User)
| UserFindOneByUsername (n : string) : call (option User)
| UserCreate (d : UserDoc) : call User
| UserSave (u : User) : call unit
| JwtSign (c : Claims) (expiresIn : string) : call Token.

Inductive Prog (A : Type) : Type :=
| Ret (a : A)
| Throw (e : JsError)
| Do {X : Type} (c : call X) (k : outcome X -> Prog A).
Arguments Ret {A} a.
Arguments Throw {A} e.
Arguments Do {A X} c k.

Fixpoint bind {A B} (p : Prog A) (f : A -> Prog B) : Prog B :=
  match p with
  | Ret a => f a
  | Throw e => Throw e
  | Do c k => Do c (fun o => bind (k o) f)
  end.

(** [try { p } catch (e) { h e }] *)
Fixpoint tryCatch {A} (p : Prog A) (h : JsError -> Prog A) : Prog A :=
  match p with
  | Ret a => Ret a
  | Throw e => h e
  | Do c k => Do c (fun o => tryCatch (k o) h)
  end.

Definition invoke {X} (c : call X) : Prog X :=
  Do c (fun o => match o with Returns x => Ret x | Throws e => Throw e end).

Declare Scope prog_scope.
Delimit Scope prog_scope with prog.
Notation "x <- p ;; q" := (bind p (fun x => q))
  (at level 100, p at next level, right associativity) : prog_scope.
Notation "p ;; q" := (bind p (fun _ => q))
  (at level 100, right associativity) : prog_scope.
Local Open Scope prog_scope.

(** One call against the world. *)
Definition perform (E : Env) {X} (c : call X) (w : World) : outcome X * World :=
  match c in call X return outcome X * World with
  | EthersVerifyMessage m s =>
      (match verifyMessage E m s with
       | Some a => Returns a
       | None => Throws SignatureError
       end, logged (EvVerifyMessage m s) w)
  | ConsoleWarn => (Returns tt, logged EvWarn w)
  | ConsoleError => (Returns tt, logged EvError w)
  | NewDate => (Returns (clock E (dateReads w)), tickDate w)
  | MathRandomPassword => (Returns (randomPassword E (randomReads w)), tickRandom w)
  | BcryptGenSalt _ => (Returns (genSalt E (randomReads w)), tickRandom w)
  | BcryptHash p s => (Returns (bcryptHash E p s), w)
  | BcryptCompare p h => (Returns (bcryptCompare E p h), w)
  | UserFindOneByWallet a => (Returns (findOneByWallet a (users w)), logged EvFindOne w)
  | UserFindOneByUsername n =>
      (Returns (findOneByUsername n (users w)), logged EvFindOne w)
  | UserCreate d =>
      (* new User(d): primary key, setters, defaults; then validate; then insert *)
      let w1 := logged EvCreate (tickId w) in
      let w2 := match createdAt d with None => tickDate w1 | Some _ => w1 end in
      let d' := applyDefaults (clock E (dateReads w)) (applySetters d) in
      if negb (validate d') then (Throws ValidationError, w2)
      else if duplicateKey (users w) d' then (Throws DuplicateKeyError, w2)
      else
        let u := {| _id := nextId w; doc := d' |} in
        (Returns u, withUsers (users w ++ [u]) w2)
  | UserSave u =>
      (* user.save(): validate the document, then update the modified path *)
      if negb (validate (doc u)) then (Throws ValidationError, logged (EvSave (_id u)) w)
      else
        match setActivity (_id u) (lastWalletActivity (doc u)) (users w) with
        | Some us => (Returns tt, logged (EvSave (_id u)) (withUsers us w))
        | None => (Throws DocumentNotFoundError, logged (EvSave (_id u)) w)
        end
  | JwtSign c span =>
      match JWT_SECRET E with
      | None => (Throws JsonWebTokenError, w)
      | Some key =>
          if isEmpty key then (Throws JsonWebTokenError, w)
          else
            match ms span with
            | None => (Throws JsonWebTokenError, w)
            | Some millis =>
                let now := (clock E (dateReads w) / 1000)%Z in
                (Returns {| tokUserId := userId c;
                            tokUsername := claimUsername c;
                            tokEmail := claimEmail c;
                            tokWalletAddress := claimWalletAddress c;
                            iat := now;
                            exp := (now + millis / 1000)%Z;
                            signedWith := key |},
                 logged (EvJwtSign (userId c)) (tickDate w))
            end
      end
  end.

(** A handler run alone, from its first call to its response. *)
Fixpoint run (E : Env) {A} (p : Prog A) (w : World) : outcome A * World :=
  match p with
  | Ret a => (Returns a, w)
  | Throw e => (Throws e, w)
  | Do c k => let (o, w') := perform E c w in run E (k o) w'
  end.

(** An interleaving of handlers: each step of the schedule lets one handler
    make its next call.  The event loop switches handlers only at an awaited
    call (the queries, [bcrypt], [create], [save]); a schedule that switches
    only there is one it can produce. *)
Definition advance (E : Env) {A} (p : Prog A) (w : World) : Prog A * World :=
  match p with
  | Do c k => let (o, w') := perform E c w in (k o, w')
  | _ => (p, w)
  end.

Fixpoint setNth {A} (i : nat) (a : A) (l : list A) : list A :=
  match l, i with
  | [], _ => []
  | _ :: l', O => a :: l'
  | x :: l', S i' => x :: setNth i' a l'
  end.

Fixpoint interleave (E : Env) {A} (schedule : list nat) (tasks : list (Prog A))
    (w : World) : list (Prog A) * World :=
  match schedule with
  | [] => (tasks, w)
  | i :: rest =>
      match nth_error tasks i with
      | Some p =>
          let (p', w') := advance E p w in
          interleave E rest (setNth i p' tasks) w'
      | None => interleave E rest tasks w
      end
  end.

(** ** The controller ([controllers/userController.js]) *)

Record WalletUserView := {
  view_id : ObjectId;
  viewUsername : string;
  viewEmail : string;
  viewWalletAddress : option string;
  viewFirstName : string;
  viewLastName : string;
  viewWalletConnectedAt : option Date
}.

Inductive Body :=
| ErrorBody (error : string)
| WalletAuthBody (token : Token) (user : WalletUserView)
| LoginBody (token : Token) (user : User).

Record Response := { status : nat; body : Body }.

(** [res.status(st).json(b)] *)
Definition json (st : nat) (b : Body) : Response := {| status := st; body := b |}.

(** A field of the JSON body: absent, one of the falsy values [null],
    [false] and [0], or a string.  A truthy value that is not a string is
    outside the interface of the endpoint. *)
Inductive Field := Absent | JsNull | JsFalse | JsZero | Str (s : string).

(** The body of [POST /api/users/wallet-auth]. *)
Record Request := {
  body_walletAddress : Field;
  body_message : Field;
  body_signature : Field
}.

(** [!v] on a field of the body. *)
Definition falsy (v : Field) : bool :=
  match v with
  | Str s => isEmpty s
  | _ => true
  end.

Definition str (v : Field) : string :=
  match v with
  | Str s => s
  | _ => EmptyString
  end.

(** [`wallet_${walletAddress.slice(-8).toLowerCase()}`] *)
Definition walletUsername (walletAddress : string) : string :=
  "wallet_" ++ toLowerCase (sliceLast 8 walletAddress).

(** [`${walletAddress.toLowerCase()}@nexacred.wallet`] *)
Definition walletEmail (walletAddress : string) : string :=
  toLowerCase walletAddress ++ "@nexacred.wallet".

(** The document [walletAuth] passes to [User.create]. *)
Definition newWalletUser (walletAddress passwordHash : string)
    (connectedAt activity : Date) : UserDoc :=
  {| username := walletUsername walletAddress;
     email := walletEmail walletAddress;
     passwordHash := passwordHash;
     walletAddress := Some (toLowerCase walletAddress);
     walletConnectedAt := Some connectedAt;
     lastWalletActivity := Some activity;
     (* Default values for required fields *)
     firstName := "Wallet";
     middleName := None;
     lastName := "User";
     fatherOrSpouseName := None;
     dateOfBirth := 631152000000%Z (* new Date('1990-01-01') *);
     phoneNumber := "+919999999999";
     pan := "AAAAA0000A";
     aadhaar := "999999999999";
     streetAddress := "Web3 Address";
     areaLocality := "Blockchain";
     city := "Crypto";
     state := "Decentralized";
     pinCode := "000000";
     country := "Global";
     employmentStatus := "Self-employed Professional";
     occupationCategory := "Other Professional";
     companyName := "Decentralized Autonomous";
     yearsOfExperience := 1%Z;
     monthlyIncomeRange := "₹50,000 - ₹1,00,000";
     hasCreditAccounts := false;
     creditPurpose := "Personal Loan";
     hasBankAccount := true;
     primaryBankName := "Crypto Bank";
     existingCreditScore := 650%Z;
     termsAccepted := true;
     privacyPolicyAccepted := true;
     consentCreditBureau := true;
     ageVerified := true;
     itrStatus := "Filed ITR in past 2 years";
     educationalQualification := None;
     languagePreference := None;
     communicationMethod := None;
     maritalStatus := None;
     numberOfDependents := None;
     createdAt := None |}.

(** [user.lastWalletActivity = now] on the fetched document. *)
Definition touch (user : User) (now : Date) : User :=
  {| _id := _id user; doc := set_lastWalletActivity (doc user) (Some now) |}.

Definition walletClaims (user : User) : Claims :=
  {| userId := _id user;
     claimUsername := username (doc user);
     claimEmail := email (doc user);
     claimWalletAddress := walletAddress (doc user) |}.

Definition walletView (user : User) : WalletUserView :=
  {| view_id := _id user;
     viewUsername := username (doc user);
     viewEmail := email (doc user);
     viewWalletAddress := walletAddress (doc user);
     viewFirstName := firstName (doc user);
     viewLastName := lastName (doc user);
     viewWalletConnectedAt := walletConnectedAt (doc user) |}.

(** The signature check of [walletAuth]: [Some r] when the inner [try]
    block returns the response [r], [None] when control falls through to the
    lookup (the signature matched, or the [catch] swallowed the error). *)
Definition checkSignature (walletAddress message signature : string)
    : Prog (option Response) :=
  tryCatch
    (recoveredAddress <- invoke (EthersVerifyMessage message signature);;
     if negb (String.eqb (toLowerCase recoveredAddress) (toLowerCase walletAddress))
     then Ret (Some (json 400 (ErrorBody "Invalid signature")))
     else Ret None)
    (fun signatureError =>
       (* Fallback: accept the signature for development (remove in production) *)
       invoke ConsoleWarn;; Ret None).

(** The two branches after the lookup: creation of a wallet account, or the
    activity update of the one found. *)
Definition createOrTouch (walletAddress : string) (found : option User) : Prog User :=
  match found with
  | None =>
      defaultPassword <- invoke MathRandomPassword;;
      salt <- invoke (BcryptGenSalt 10);;
      passwordHash <- invoke (BcryptHash defaultPassword salt);;
      connectedAt <- invoke NewDate;;
      activity <- invoke NewDate;;
      invoke (UserCreate (newWalletUser walletAddress passwordHash connectedAt activity))
  | Some user =>
      now <- invoke NewDate;;
      let user := touch user now in
      invoke (UserSave user);;
      Ret user
  end.

Definition resolveUser (walletAddress : string) : Prog User :=
  found <- invoke (UserFindOneByWallet (toLowerCase walletAddress));;
  createOrTouch walletAddress found.

(** Token and response for a resolved record. *)
Definition respond (user : User) : Prog Response :=
  token <- invoke (JwtSign (walletClaims user) "24h");;
  Ret (json 200 (WalletAuthBody token (walletView user))).

(** The outer [catch]. *)
Definition serverError (err : JsError) : Prog Response :=
  invoke ConsoleError;;
  Ret (json 500 (ErrorBody "Server error during wallet authentication")).

Definition walletAuth (req : Request) : Prog Response :=
  tryCatch
    (if falsy (body_walletAddress req) || falsy (body_message req)
        || falsy (body_signature req)
     then Ret (json 400 (ErrorBody "Wallet address, message, and signature are required"))
     else
       let walletAddress := str (body_walletAddress req) in
       let message := str (body_message req) in
       let signature := str (body_signature req) in
       if negb (test walletAddressPattern walletAddress)
       then Ret (json 400 (ErrorBody "Invalid wallet address format"))
       else
         rejected <- checkSignature walletAddress message signature;;
         match rejected with
         | Some response => Ret response
         | None => user <- resolveUser walletAddress;; respond user
         end)
    serverError.

Record LoginRequest := { body_username : string; body_password : string }.

Definition loginClaims (user : User) : Claims :=
  {| userId := _id user;
     claimUsername := username (doc user);
     claimEmail := email (doc user);
     claimWalletAddress := None |}.

Definition loginUser (req : LoginRequest) : Prog Response :=
  tryCatch
    (found <- invoke (UserFindOneByUsername (body_username req));;
     match found with
     | None => Ret (json 400 (ErrorBody "Invalid credentials"))
     | Some user =>
         isMatch <- invoke (BcryptCompare (body_password req) (passwordHash (doc user)));;
         if negb isMatch then Ret (json 400 (ErrorBody "Invalid credentials"))
         else
           token <- invoke (JwtSign (loginClaims user) "1h");;
           Ret (json 200 (LoginBody token user))
     end)
    (fun err => Ret (json 500 (ErrorBody "Server error"))).

(** ** Vocabulary of the properties *)

(** The addresses [walletAddressPattern] accepts: [0x] and forty hex digits. *)
Definition wellFormedAddress (a : string) : Prop :=
  exists h, a = "0x" ++ h /\ String.length h = 40 /\ all hexDigit h = true.

Definition noSpace (c : ascii) : bool := negb (isSpace c).


(** The part of [walletAuth] after the signature check, under the outer
    [catch]. *)
Definition issue (walletAddress : string) : Prog Response :=
  tryCatch (user <- resolveUser walletAddress;; respond user) serverError.

Definition fail500 : Response :=
  json 500 (ErrorBody "Server error during wallet authentication").

(** What [respond] and the outer [catch] make of a resolved record. *)
Definition finish (E : Env) (user : User) (w : World) : outcome Response * World :=
  match perform E (JwtSign (walletClaims user) "24h") w with
  | (Returns token, w') =>
      (Returns (json 200 (WalletAuthBody token (walletView user))), w')
  | (Throws _, w') => (Returns fail500, logged EvError w')
  end.

(** The token [jwt.sign] builds at time [now] (milliseconds) for a lifetime
    in seconds. *)
Definition sessionToken (c : Claims) (now : Date) (lifetime : Z) (key : string) : Token :=
  {| tokUserId := userId c;
     tokUsername := claimUsername c;
     tokEmail := claimEmail c;
     tokWalletAddress := claimWalletAddress c;
     iat := (now / 1000)%Z;
     exp := (now / 1000 + lifetime)%Z;
     signedWith := key |}.

Definition signable (E : Env) : Prop :=
  exists key, JWT_SECRET E = Some key /\ isEmpty key = false.

(** A world as another one left it for the store: same records, same key
    generator. *)
Definition sameStore (w w' : World) : Prop :=
  users w' = users w /\ nextId w' = nextId w.

(** The stored form of the document of a wallet account. *)
Definition walletRecord (id : ObjectId) (a h : string) (t1 t2 now : Date) : User :=
  {| _id := id; doc := applyDefaults now (newWalletUser a h t1 t2) |}.

(** Primary keys are unique and were all drawn from the generator. *)
Definition storeInvariant (w : World) : Prop :=
  NoDup (map _id (users w)) /\ Forall (fun u => (_id u < nextId w)%N) (users w).

(** A record with its activity timestamp replaced. *)
Definition withActivity (t : option Date) (u : User) : User :=
  {| _id := _id u; doc := set_lastWalletActivity (doc u) t |}.

(** A record up to its activity timestamp. *)
Definition forgetActivity (u : User) : User := withActivity None u.

(** A world that differs from [w] only in its log. *)
Definition sameButLog (w w0 : World) : Prop :=
  users w0 = users w /\ nextId w0 = nextId w
  /\ dateReads w0 = dateReads w /\ randomReads w0 = randomReads w.

(** The body with its three fields present. *)
Definition request (address message signature : string) : Request :=
  {| body_walletAddress := Str address;
     body_message := Str message;
     body_signature := Str signature |}.

(** A field as the handler sees it when the body carries an empty string:
    the same program as when the field is absent. *)
Definition dropEmpty (req : Request) : Request :=
  let absent v := if falsy v then Absent else v in
  {| body_walletAddress := absent (body_walletAddress req);
     body_message := absent (body_message req);
     body_signature := absent (body_signature req) |}.

Definition requiredFields : Response :=
  json 400 (ErrorBody "Wallet address, message, and signature are required").

(** A record up to its credential hash. *)
Definition eraseHash (u : User) : User :=
  {| _id := _id u; doc := set_passwordHash (doc u) EmptyString |}.

(** Two worlds whose records differ at most in their credential hashes, and
    two environments that differ at most in what produces credentials. *)
Definition sameButHashes (w1 w2 : World) : Prop :=
  map eraseHash (users w1) = map eraseHash (users w2)
  /\ nextId w1 = nextId w2 /\ dateReads w1 = dateReads w2.

Definition sameButCredentials (E1 E2 : Env) : Prop :=
  (forall m s, verifyMessage E1 m s = verifyMessage E2 m s)
  /\ (forall n, clock E1 n = clock E2 n)
  /\ JWT_SECRET E1 = JWT_SECRET E2.

(** The profile [walletAuth] gives every wallet account, its account and
    wallet fields left blank. *)
Definition profileOf (d : UserDoc) : UserDoc :=
  rebuild d EmptyString EmptyString EmptyString None None None None.

Definition placeholderProfile : UserDoc :=
  {| username := EmptyString; email := EmptyString; passwordHash := EmptyString;
     walletAddress := None; walletConnectedAt := None; lastWalletActivity := None;
     firstName := "Wallet"; middleName := None; lastName := "User";
     fatherOrSpouseName := None; dateOfBirth := 631152000000%Z;
     phoneNumber := "+919999999999"; pan := "AAAAA0000A"; aadhaar := "999999999999";
     streetAddress := "Web3 Address"; areaLocality := "Blockchain";
     city := "Crypto"; state := "Decentralized"; pinCode := "000000";
     country := "Global";
     employmentStatus := "Self-employed Professional";
     occupationCategory := "Other Professional";
     companyName := "Decentralized Autonomous";
     yearsOfExperience := 1%Z;
     monthlyIncomeRange := "₹50,000 - ₹1,00,000";
     hasCreditAccounts := false; creditPurpose := "Personal Loan";
     hasBankAccount := true; primaryBankName := "Crypto Bank";
     existingCreditScore := 650%Z;
     termsAccepted := true; privacyPolicyAccepted := true;
     consentCreditBureau := true; ageVerified := true;
     itrStatus := "Filed ITR in past 2 years";
     educationalQualification := None; languagePreference := None;
     communicationMethod := None; maritalStatus := None;
     numberOfDependents := None; createdAt := None |}.

(** The response of a handler that ran to its end. *)
Definition answer (x : outcome Response * World) : Response :=
  match fst x with
  | Returns r => r
  | Throws _ => json 500 (ErrorBody "uncaught")
  end.

(** The primary key in the user object of a response. *)
Definition view_id_of (r : Response) : option ObjectId :=
  match body r with
  | WalletAuthBody _ v => Some (view_id v)
  | _ => None
  end.

(** ** Fixtures of the examples

    A stand-in for ethers: it throws on a signature that is not 65 bytes of
    hex after [0x], and otherwise recovers the address written in the first
    20 bytes of the signature.  No cryptography is modelled; the general
    properties hold for every verifier. *)
Module Fixture.

Fixpoint zeros (n : nat) : string :=
  match n with
  | O => EmptyString
  | S n' => String "0" (zeros n')
  end.

Definition verify (message signature : string) : option string :=
  match signature with
  | String "0" (String "x" h) =>
      if (String.length h =? 130)%nat && all hexDigit h
      then Some ("0x" ++ substring 0 40 h)
      else None
  | _ => None
  end.

(** The signature of the holder of [address], for any message. *)
Definition signatureOf (address : string) : string :=
  "0x" ++ substring 2 40 address ++ zeros 90.

Definition env : Env :=
  {| verifyMessage := verify;
     clock := fun n => (1700000000000 + 1000 * Z.of_nat n)%Z;
     randomPassword := fun n => "k3x9qz";
     genSalt := fun n => "$2a$10$N9qo8uLOickgx2ZMRZoMye";
     bcryptHash := fun password salt => salt ++ password;
     bcryptCompare := fun password hash => String.eqb hash ("$2a$10$N9qo8uLOickgx2ZMRZoMye" ++ password);
     JWT_SECRET := Some "nexacred-secret" |}.

Definition emptyWorld : World :=
  {| users := []; nextId := 1%N; dateReads := 0; randomReads := 0; log := [] |}.

Definition alice : string := "0x52908400098527886E0F7030069857D2E4169EE7".
Definition aliceLower : string := "0x52908400098527886e0f7030069857d2e4169ee7".
(** Another wallet with the same last eight digits. *)
Definition carol : string := "0x00000000000000000000000000000000e4169ee7".
Definition bob : string := "0xde709f2102306220921060314715629080e2fb77".

Definition challenge : string := "Sign in to NexaCred".

Definition aliceRequest : Request := request alice challenge (signatureOf alice).
Definition aliceLowerRequest : Request :=
  request aliceLower challenge (signatureOf alice).
Definition carolRequest : Request := request carol challenge (signatureOf carol).
(** Alice's address with a signature that is not a signature at all. *)
Definition forgedRequest : Request := request alice challenge "0xdeadbeef".
(** Alice's address with Bob's signature. *)
Definition stolenRequest : Request := request alice challenge (signatureOf bob).

(** The world after Alice's first authentication, and after Carol's. *)
Definition aliceWorld : World := snd (run env (walletAuth aliceRequest) emptyWorld).
Definition carolWorld : World := snd (run env (walletAuth carolRequest) emptyWorld).


(** The credentials of the account [walletAuth] made for Alice. *)
Definition aliceLogin : LoginRequest :=
  {| body_username := "wallet_e4169ee7"; body_password := "k3x9qz" |}.


(** Another source of credentials, and Alice's world with another hash in
    her record. *)
Definition otherCredentials : Env :=
  {| verifyMessage := verify;
     clock := clock env;
     randomPassword := fun n => "p0o9i8";
     genSalt := fun n => "$2a$10$CwTycUXWue0Thq9StjUM0u";
     bcryptHash := fun password salt => password ++ salt;
     bcryptCompare := fun password hash => false;
     JWT_SECRET := JWT_SECRET env |}.

Definition rehashed (w : World) : World :=
  withUsers
    (map (fun u => {| _id := _id u;
                      doc := set_passwordHash (doc u) "$2a$10$CwTycUXWue0Thq9StjUM0uJ8" |})
       (users w)) w.

(** Two handlers for the same new address: both look the address up before
    either creates the record. *)
Definition raceSchedule : list nat :=
  [0; 0; 1; 1; 0; 0; 0; 0; 0; 0; 0; 1; 1; 1; 1; 1; 1; 1].

End Fixture.

(** ** The other endpoints of the controller

    [registerUser], [getUsers], [getUserById], [updateUser] and [deleteUser]
    in state-passing style over the same world: an action returns a value
    or what was thrown, and the world it leaves. *)
Inductive Thrown :=
| Raised (e : JsError)
| CastError
| IllegalArguments.

Inductive result (A : Type) : Type :=
| Ok (a : A)
| Fail (t : Thrown).
Arguments Ok {A} a.
Arguments Fail {A} t.

Definition Action (A : Type) : Type := World -> result A * World.

Definition done {A} (a : A) : Action A := fun w => (Ok a, w).

Definition raise {A} (t : Thrown) : Action A := fun w => (Fail t, w).

Definition andThen {A B} (m : Action A) (k : A -> Action B) : Action B :=
  fun w =>
    match m w with
    | (Ok a, w') => k a w'
    | (Fail t, w') => (Fail t, w')
    end.

(** [try { m } catch (err) { h err }] *)
Definition attempt {A} (m : Action A) (h : Thrown -> Action A) : Action A :=
  fun w =>
    match m w with
    | (Ok a, w') => (Ok a, w')
    | (Fail t, w') => h t w'
    end.

(** A call of the authentication handlers, as an action. *)
Definition act (E : Env) {X} (c : call X) : Action X :=
  fun w =>
    match perform E c w with
    | (Returns x, w') => (Ok x, w')
    | (Throws e, w') => (Fail (Raised e), w')
    end.

Declare Scope action_scope.
Delimit Scope action_scope with action.
Notation "'let*' x ':=' m 'in' k" := (andThen m (fun x => k))
  (at level 10, x name, m at level 100, k at level 200) : action_scope.

(** *** The queries and updates of these endpoints (Mongoose) *)

(** [User.findOne({ $or: [{ email }, { username }] })], the filter cast by
    the setters of the schema. *)
Definition findOneByEmailOrUsername (e n : string) (us : list User) : option User :=
  find (fun u => String.eqb (email (doc u)) (toLowerCase e)
                 || String.eqb (username (doc u)) (trim n)) us.

(** [User.findById(id)] *)
Definition findById (id : ObjectId) (us : list User) : option User :=
  find (fun u => N.eqb (_id u) id) us.

(** The first document with the key, replaced. *)
Fixpoint replaceById (id : ObjectId) (f : UserDoc -> UserDoc) (us : list User) : list User :=
  match us with
  | [] => []
  | u :: rest =>
      if N.eqb (_id u) id then {| _id := _id u; doc := f (doc u) |} :: rest
      else u :: replaceById id f rest
  end.

(** The first document with the key, removed. *)
Fixpoint removeById (id : ObjectId) (us : list User) : list User :=
  match us with
  | [] => []
  | u :: rest => if N.eqb (_id u) id then rest else u :: removeById id rest
  end.

(** [{ $set: { username, email } }]: a key that is [undefined] is left out
    of the update, the setters of the schema run on the others, and no
    validator runs.  ([aadhaarNumber], which [updateUser] also passes, is
    not a path of the schema and is dropped.) *)
Definition applyUpdate (n e : option string) (d : UserDoc) : UserDoc :=
  rebuild d
    (match n with Some x => trim x | None => username d end)
    (match e with Some x => toLowerCase x | None => email d end)
    (passwordHash d) (walletAddress d) (walletConnectedAt d)
    (lastWalletActivity d) (createdAt d).

(** The unique indexes on an update: a changed [username] or [email] that
    another document holds. *)
Definition updateClashes (u : User) (d' : UserDoc) (us : list User) : bool :=
  existsb (fun v =>
             negb (N.eqb (_id v) (_id u))
             && ((negb (String.eqb (username d') (username (doc u)))
                  && String.eqb (username (doc v)) (username d'))
                 || (negb (String.eqb (email d') (email (doc u)))
                     && String.eqb (email (doc v)) (email d')))) us.

(** [User.findByIdAndUpdate(id, { username, email, aadhaarNumber },
    { new: true })] *)
Definition findByIdAndUpdate (id : ObjectId) (n e : option string) : Action (option User) :=
  fun w =>
    match findById id (users w) with
    | None => (Ok None, w)
    | Some u =>
        let d' := applyUpdate n e (doc u) in
        if updateClashes u d' (users w) then (Fail (Raised DuplicateKeyError), w)
        else (Ok (Some {| _id := _id u; doc := d' |}),
              withUsers (replaceById id (applyUpdate n e) (users w)) w)
    end.

(** [User.findByIdAndDelete(id)] *)
Definition findByIdAndDelete (id : ObjectId) : Action (option User) :=
  fun w =>
    match findById id (users w) with
    | None => (Ok None, w)
    | Some u => (Ok (Some u), withUsers (removeById id (users w)) w)
    end.

(** [.select("-passwordHash")]: the document without its hash (the field of
    the record is left blank; the JSON has no such key). *)
Definition withoutPasswordHash (u : User) : User := eraseHash u.

(** The path parameter [:id] after the cast to an ObjectId; the query
    throws when there is none. *)
Definition castId (id : option ObjectId) : Action ObjectId :=
  match id with
  | Some i => done i
  | None => raise CastError
  end.

(** *** Requests and responses *)

Inductive Payload :=
| PError (error : string)
| PMessage (message : string)
| PRegistered (message : string) (user : User)
| PUserObject (user : User)
| PUser (user : User)
| PUsers (all : list User)
| PUpdated (message : string) (user : User).

Record Reply := { code : nat; payload : Payload }.

Definition reply (c : nat) (p : Payload) : Reply := {| code := c; payload := p |}.

(** The body of [POST /api/users/register]: [username] and [email] are
    strings; [password] is a string or not there ([None]: absent, or not a
    string); any other field may be absent. *)
Record RegisterBody := {
  reg_username : string;
  reg_email : string;
  reg_password : option string;
  reg_firstName : option string;
  reg_middleName : option string;
  reg_lastName : option string;
  reg_fatherOrSpouseName : option string;
  reg_dateOfBirth : option Date;
  reg_phoneNumber : option string;
  reg_pan : option string;
  reg_aadhaar : option string;
  reg_streetAddress : option string;
  reg_areaLocality : option string;
  reg_city : option string;
  reg_state : option string;
  reg_pinCode : option string;
  reg_country : option string;
  reg_employmentStatus : option string;
  reg_occupationCategory : option string;
  reg_companyName : option string;
  reg_yearsOfExperience : option Z;
  reg_monthlyIncomeRange : option string;
  reg_hasCreditAccounts : option bool;
  reg_creditPurpose : option string;
  reg_hasBankAccount : option bool;
  reg_primaryBankName : option string;
  reg_existingCreditScore : option Z;
  reg_termsAccepted : option bool;
  reg_privacyPolicyAccepted : option bool;
  reg_consentCreditBureau : option bool;
  reg_ageVerified : option bool;
  reg_itrStatus : option string;
  reg_educationalQualification : option string;
  reg_languagePreference : option string;
  reg_communicationMethod : option string;
  reg_maritalStatus : option string;
  reg_numberOfDependents : option Z
}.

Definition need {A B} (o : option A) (k : A -> option B) : option B :=
  match o with
  | Some a => k a
  | None => None
  end.

(** The document [registerUser] passes to [User.create], when every path
    the schema requires is there ([country] has a default). *)
Definition documentOf (b : RegisterBody) (hash : string) : option UserDoc :=
  need (reg_firstName b) (fun firstName' =>
  need (reg_lastName b) (fun lastName' =>
  need (reg_dateOfBirth b) (fun dateOfBirth' =>
  need (reg_phoneNumber b) (fun phoneNumber' =>
  need (reg_pan b) (fun pan' =>
  need (reg_aadhaar b) (fun aadhaar' =>
  need (reg_streetAddress b) (fun streetAddress' =>
  need (reg_areaLocality b) (fun areaLocality' =>
  need (reg_city b) (fun city' =>
  need (reg_state b) (fun state' =>
  need (reg_pinCode b) (fun pinCode' =>
  need (reg_employmentStatus b) (fun employmentStatus' =>
  need (reg_occupationCategory b) (fun occupationCategory' =>
  need (reg_companyName b) (fun companyName' =>
  need (reg_yearsOfExperience b) (fun yearsOfExperience' =>
  need (reg_monthlyIncomeRange b) (fun monthlyIncomeRange' =>
  need (reg_hasCreditAccounts b) (fun hasCreditAccounts' =>
  need (reg_creditPurpose b) (fun creditPurpose' =>
  need (reg_hasBankAccount b) (fun hasBankAccount' =>
  need (reg_primaryBankName b) (fun primaryBankName' =>
  need (reg_existingCreditScore b) (fun existingCreditScore' =>
  need (reg_termsAccepted b) (fun termsAccepted' =>
  need (reg_privacyPolicyAccepted b) (fun privacyPolicyAccepted' =>
  need (reg_consentCreditBureau b) (fun consentCreditBureau' =>
  need (reg_ageVerified b) (fun ageVerified' =>
  need (reg_itrStatus b) (fun itrStatus' =>
  Some
    {| username := reg_username b;
       email := reg_email b;
       passwordHash := hash;
       walletAddress := None;
       walletConnectedAt := None;
       lastWalletActivity := None;
       firstName := firstName';
       middleName := reg_middleName b;
       lastName := lastName';
       fatherOrSpouseName := reg_fatherOrSpouseName b;
       dateOfBirth := dateOfBirth';
       phoneNumber := phoneNumber';
       pan := pan';
       aadhaar := aadhaar';
       streetAddress := streetAddress';
       areaLocality := areaLocality';
       city := city';
       state := state';
       pinCode := pinCode';
       country := match reg_country b with Some c => c | None => "India" end;
       employmentStatus := employmentStatus';
       occupationCategory := occupationCategory';
       companyName := companyName';
       yearsOfExperience := yearsOfExperience';
       monthlyIncomeRange := monthlyIncomeRange';
       hasCreditAccounts := hasCreditAccounts';
       creditPurpose := creditPurpose';
       hasBankAccount := hasBankAccount';
       primaryBankName := primaryBankName';
       existingCreditScore := existingCreditScore';
       termsAccepted := termsAccepted';
       privacyPolicyAccepted := privacyPolicyAccepted';
       consentCreditBureau := consentCreditBureau';
       ageVerified := ageVerified';
       itrStatus := itrStatus';
       educationalQualification := reg_educationalQualification b;
       languagePreference := reg_languagePreference b;
       communicationMethod := reg_communicationMethod b;
       maritalStatus := reg_maritalStatus b;
       numberOfDependents := reg_numberOfDependents b;
       createdAt := None |})))))))))))))))))))))))))).

(** [User.create({ username, email, passwordHash, ... })]: a document that
    lacks a required path is built (key and [createdAt] are drawn) and
    refused by the validation. *)
Definition createFromBody (E : Env) (b : RegisterBody) (hash : string) : Action User :=
  match documentOf b hash with
  | Some d => act E (UserCreate d)
  | None => fun w => (Fail (Raised ValidationError), tickDate (logged EvCreate (tickId w)))
  end.

(** [bcrypt.hash(password, salt)]: bcryptjs throws "Illegal arguments" when
    the password is not a string. *)
Definition bcryptHashOf (E : Env) (password : option string) (salt : string) : Action string :=
  match password with
  | Some p => act E (BcryptHash p salt)
  | None => raise IllegalArguments
  end.

Local Open Scope action_scope.

(** 1. Register a new user *)
Definition registerUser (E : Env) (b : RegisterBody) : Action Reply :=
  attempt
    (let* existing := (fun w => (Ok (findOneByEmailOrUsername (reg_email b) (reg_username b)
                                       (users w)), w)) in
     match existing with
     | Some _ => done (reply 400 (PError "Username or Email already exists"))
     | None =>
         let* salt := act E (BcryptGenSalt 10) in
         let* passwordHash := bcryptHashOf E (reg_password b) salt in
         let* user := createFromBody E b passwordHash in
         done (reply 201 (PRegistered "User registered successfully" user))
     end)
    (fun err =>
       let* _ := act E ConsoleError in
       done (reply 500 (PError "Server error"))).

(** 3. Get all users; [username] is the query parameter. *)
Definition getUsers (query_username : option string) : Action Reply :=
  attempt
    (match query_username with
     | Some (String c s as username) =>
         let* user := (fun w => (Ok (findOneByUsername username (users w)), w)) in
         match user with
         | None => done (reply 404 (PError "User not found"))
         | Some user => done (reply 200 (PUserObject (withoutPasswordHash user)))
         end
     | _ =>
         let* all := (fun w => (Ok (users w), w)) in
         done (reply 200 (PUsers (map withoutPasswordHash all)))
     end)
    (fun err => done (reply 500 (PError "Server error"))).

(** 4. Get user by ID *)
Definition getUserById (id : option ObjectId) : Action Reply :=
  attempt
    (let* i := castId id in
     let* user := (fun w => (Ok (findById i (users w)), w)) in
     match user with
     | None => done (reply 404 (PError "User not found"))
     | Some user => done (reply 200 (PUser (withoutPasswordHash user)))
     end)
    (fun err => done (reply 500 (PError "Server error"))).

(** The body of [PUT /api/users/:id], of which [updateUser] reads three
    fields. *)
Record UpdateBody := {
  upd_username : option string;
  upd_email : option string;
  upd_aadhaarNumber : option string
}.

(** 5. Update user *)
Definition updateUser (id : option ObjectId) (b : UpdateBody) : Action Reply :=
  attempt
    (let* i := castId id in
     let* user := findByIdAndUpdate i (upd_username b) (upd_email b) in
     match user with
     | None => done (reply 404 (PError "User not found"))
     | Some user => done (reply 200 (PUpdated "User updated" (withoutPasswordHash user)))
     end)
    (fun err => done (reply 500 (PError "Server error"))).

(** 6. Delete user *)
Definition deleteUser (id : option ObjectId) : Action Reply :=
  attempt
    (let* i := castId id in
     let* user := findByIdAndDelete i in
     match user with
     | None => done (reply 404 (PError "User not found"))
     | Some _ => done (reply 200 (PMessage "User deleted"))
     end)
    (fun err => done (reply 500 (PError "Server error"))).

Local Close Scope action_scope.

(** *** The router ([routers/userRoutes.js]) *)

Inductive ApiRequest :=
| PostRegister (b : RegisterBody)
| PostLogin (b : LoginRequest)
| PostWalletAuth (b : Request)
| GetUsers (query_username : option string)
| GetUserById (id : option ObjectId)
| PutUser (id : option ObjectId) (b : UpdateBody)
| DeleteUser (id : option ObjectId).

(** The world a request leaves. *)
Definition serve (E : Env) (r : ApiRequest) (w : World) : World :=
  match r with
  | PostRegister b => snd (registerUser E b w)
  | PostLogin b => snd (run E (loginUser b) w)
  | PostWalletAuth b => snd (run E (walletAuth b) w)
  | GetUsers q => snd (getUsers q w)
  | GetUserById id => snd (getUserById id w)
  | PutUser id b => snd (updateUser id b w)
  | DeleteUser id => snd (deleteUser id w)
  end.

(** A sequence of requests, one after the other. *)
Definition serveAll (E : Env) (rs : list ApiRequest) (w : World) : World :=
  fold_left (fun w r => serve E r w) rs w.

(** *** Vocabulary of their properties *)

(** The login request of the account a registration made. *)
Definition passwordOf (b : RegisterBody) : string :=
  match reg_password b with Some p => p | None => EmptyString end.

Definition loginOf (b : RegisterBody) : LoginRequest :=
  {| body_username := reg_username b; body_password := passwordOf b |}.

(** The strings of a body that the setters of the schema transform are
    ASCII: there [trim] and [toLowerCase] are those of JavaScript. *)
Definition asciiAccount (b : RegisterBody) : Prop :=
  isAscii (reg_username b) = true /\ isAscii (reg_email b) = true.

Definition asciiUpdate (b : UpdateBody) : Prop :=
  (forall n, upd_username b = Some n -> isAscii n = true)
  /\ (forall e, upd_email b = Some e -> isAscii e = true).

(** The endpoints that only read. *)
Definition readOnly (r : ApiRequest) : bool :=
  match r with
  | PostLogin _ | GetUsers _ | GetUserById _ => true
  | _ => false
  end.

(** The wallet addresses of a collection, in its order. *)
Definition wallets (us : list User) : list string :=
  flat_map (fun u => match walletAddress (doc u) with
                     | Some a => [a]
                     | None => []
                     end) us.

(** What the unique indexes and the handlers keep of a collection: unique
    primary keys, display names, e-mail addresses and wallet addresses;
    wallet addresses well-formed and in lower case; a hash in every record. *)
Definition uniqueNames (us : list User) : Prop :=
  NoDup (map (fun u => username (doc u)) us)
  /\ NoDup (map (fun u => email (doc u)) us)
  /\ NoDup (wallets us).

Definition normalWallet (u : User) : Prop :=
  forall a, walletAddress (doc u) = Some a -> wellFormedAddress a /\ toLowerCase a = a.

Definition hasHash (u : User) : Prop := isEmpty (passwordHash (doc u)) = false.

Definition collectionInvariant (w : World) : Prop :=
  storeInvariant w
  /\ uniqueNames (users w)
  /\ Forall normalWallet (users w)
  /\ Forall hasHash (users w).

(** A record up to its display name and e-mail address. *)
Definition forgetNames (u : User) : User :=
  {| _id := _id u;
     doc := rebuild (doc u) EmptyString EmptyString (passwordHash (doc u))
              (walletAddress (doc u)) (walletConnectedAt (doc u))
              (lastWalletActivity (doc u)) (createdAt (doc u)) |}.

(** A wallet-auth request that passes the three checks of [walletAuth] for
    the address [a]: the fields are there, the address is well-formed, and
    the verifier does not recover another address. *)
Definition accepted (E : Env) (req : Request) (a : string) : Prop :=
  exists m s,
    body_walletAddress req = Str a /\ body_message req = Str m
    /\ body_signature req = Str s
    /\ isEmpty m = false /\ isEmpty s = false
    /\ wellFormedAddress a
    /\ forall recovered, verifyMessage E m s = Some recovered ->
                         toLowerCase recovered = toLowerCase a.

(** The response of a handler of these endpoints that ran to its end. *)
Definition replyOf (x : result Reply * World) : Reply :=
  match fst x with
  | Ok r => r
  | Fail _ => reply 500 (PError "uncaught")
  end.

(** The records a response body shows. *)
Definition exposed (p : Payload) : list User :=
  match p with
  | PRegistered _ u | PUserObject u | PUser u | PUpdated _ u => [u]
  | PUsers all => all
  | PError _ | PMessage _ => []
  end.

(** Fixtures of these endpoints. *)
Module Desk.

Definition dave : RegisterBody :=
  {| reg_username := " dave ";
     reg_email := "Dave@Example.com";
     reg_password := Some "correct horse";
     reg_firstName := Some "Dave";
     reg_middleName := None;
     reg_lastName := Some "Bowman";
     reg_fatherOrSpouseName := None;
     reg_dateOfBirth := Some 631152000000%Z;
     reg_phoneNumber := Some "+919876543210";
     reg_pan := Some "ABCDE1234F";
     reg_aadhaar := Some "123456789012";
     reg_streetAddress := Some "1 Main Road";
     reg_areaLocality := Some "Andheri";
     reg_city := Some "Mumbai";
     reg_state := Some "Maharashtra";
     reg_pinCode := Some "400001";
     reg_country := None;
     reg_employmentStatus := Some "Salaried Employee";
     reg_occupationCategory := Some "Engineer/IT Professional";
     reg_companyName := Some "Discovery";
     reg_yearsOfExperience := Some 5%Z;
     reg_monthlyIncomeRange := Some "Below ₹25,000";
     reg_hasCreditAccounts := Some false;
     reg_creditPurpose := Some "Home Loan";
     reg_hasBankAccount := Some true;
     reg_primaryBankName := Some "State Bank";
     reg_existingCreditScore := Some 700%Z;
     reg_termsAccepted := Some true;
     reg_privacyPolicyAccepted := Some true;
     reg_consentCreditBureau := Some true;
     reg_ageVerified := Some true;
     reg_itrStatus := Some "Never filed ITR";
     reg_educationalQualification := None;
     reg_languagePreference := None;
     reg_communicationMethod := None;
     reg_maritalStatus := None;
     reg_numberOfDependents := None |}.

(** The world after Dave registered in Alice's world. *)
Definition daveWorld : World := snd (registerUser Fixture.env dave Fixture.aliceWorld).

(** Alice's world after her e-mail address was replaced by a string that is
    no address. *)
Definition brokenMail : UpdateBody :=
  {| upd_username := Some "wallet_e4169ee7"; upd_email := Some "no address";
     upd_aadhaarNumber := None |}.

Definition brokenWorld : World := snd (updateUser (Some 1%N) brokenMail Fixture.aliceWorld).

(** Alice's world after her record was deleted. *)
Definition deletedWorld : World := snd (deleteUser (Some 1%N) Fixture.aliceWorld).

(** Dave's form with another credit score and marital status. *)
Definition amended (existingCreditScore : option Z) (maritalStatus : option string) :
  RegisterBody :=
  {| reg_username := reg_username dave;
     reg_email := reg_email dave;
     reg_password := reg_password dave;
     reg_firstName := reg_firstName dave;
     reg_middleName := reg_middleName dave;
     reg_lastName := reg_lastName dave;
     reg_fatherOrSpouseName := reg_fatherOrSpouseName dave;
     reg_dateOfBirth := reg_dateOfBirth dave;
     reg_phoneNumber := reg_phoneNumber dave;
     reg_pan := reg_pan dave;
     reg_aadhaar := reg_aadhaar dave;
     reg_streetAddress := reg_streetAddress dave;
     reg_areaLocality := reg_areaLocality dave;
     reg_city := reg_city dave;
     reg_state := reg_state dave;
     reg_pinCode := reg_pinCode dave;
     reg_country := reg_country dave;
     reg_employmentStatus := reg_employmentStatus dave;
     reg_occupationCategory := reg_occupationCategory dave;
     reg_companyName := reg_companyName dave;
     reg_yearsOfExperience := reg_yearsOfExperience dave;
     reg_monthlyIncomeRange := reg_monthlyIncomeRange dave;
     reg_hasCreditAccounts := reg_hasCreditAccounts dave;
     reg_creditPurpose := reg_creditPurpose dave;
     reg_hasBankAccount := reg_hasBankAccount dave;
     reg_primaryBankName := reg_primaryBankName dave;
     reg_existingCreditScore := existingCreditScore;
     reg_termsAccepted := reg_termsAccepted dave;
     reg_privacyPolicyAccepted := reg_privacyPolicyAccepted dave;
     reg_consentCreditBureau := reg_consentCreditBureau dave;
     reg_ageVerified := reg_ageVerified dave;
     reg_itrStatus := reg_itrStatus dave;
     reg_educationalQualification := reg_educationalQualification dave;
     reg_languagePreference := reg_languagePreference dave;
     reg_communicationMethod := reg_communicationMethod dave;
     reg_maritalStatus := maritalStatus;
     reg_numberOfDependents := reg_numberOfDependents dave |}.

(** The form without a credit score, and with the marital status left
    unselected. *)
Definition noScore : RegisterBody := amended None None.
Definition unselected : RegisterBody := amended (Some 700%Z) (Some EmptyString).

(** The record [walletAuth] made for Alice, and the one [registerUser] made
    for Dave, the second of the collection. *)
Definition aliceRecord : User :=
  walletRecord 1%N Fixture.alice
    (bcryptHash Fixture.env "k3x9qz" (genSalt Fixture.env 1))
    (clock Fixture.env 0) (clock Fixture.env 1) (clock Fixture.env 2).

Definition daveRecord : User := nth 1 (users daveWorld) aliceRecord.

(** Dave asks for Alice's display name. *)
Definition squat : UpdateBody :=
  {| upd_username := Some "wallet_e4169ee7"; upd_email := None;
     upd_aadhaarNumber := None |}.

(** Dave takes another display name. *)
Definition rename : UpdateBody :=
  {| upd_username := Some " hal "; upd_email := None; upd_aadhaarNumber := Some "999" |}.

(** A login with a name nobody has, and one with a wrong password. *)
Definition nobody : LoginRequest :=
  {| body_username := "nobody"; body_password := "correct horse" |}.
Definition wrongPassword : LoginRequest :=
  {| body_username := "dave"; body_password := "incorrect horse" |}.

(** The server started without [JWT_SECRET] in its environment. *)
Definition unconfigured : Env :=
  {| verifyMessage := verifyMessage Fixture.env;
     clock := clock Fixture.env;
     randomPassword := randomPassword Fixture.env;
     genSalt := genSalt Fixture.env;
     bcryptHash := bcryptHash Fixture.env;
     bcryptCompare := bcryptCompare Fixture.env;
     JWT_SECRET := None |}.

(** A day of requests. *)
Definition day : list ApiRequest :=
  [PostWalletAuth Fixture.aliceRequest;
   PostRegister dave;
   PostLogin (loginOf dave);
   PutUser (Some 2%N) {| upd_username := Some "hal"; upd_email := None;
                         upd_aadhaarNumber := Some "999" |};
   PostWalletAuth Fixture.carolRequest;
   GetUsers None;
   DeleteUser (Some 1%N);
   PostWalletAuth Fixture.aliceLowerRequest].

End Desk.

(** * Properties *)

(** ** Strings and patterns *)

Ltac each_ascii c := destruct c as [[|] [|] [|] [|] [|] [|] [|] [|]].

Lemma lowerChar_idem (c : ascii) : lowerChar (lowerChar c) = lowerChar c.
Proof. each_ascii c; reflexivity. Qed.

Lemma hexDigit_lowerChar (c : ascii) : hexDigit c = true -> hexDigit (lowerChar c) = true.
Proof. each_ascii c; intro H; try reflexivity; discriminate H. Qed.

Lemma hexDigit_dot (c : ascii) : hexDigit c = true -> dot c = true.
Proof. each_ascii c; intro H; try reflexivity; discriminate H. Qed.

Lemma hexDigit_noSpace (c : ascii) : hexDigit c = true -> isSpace c = false.
Proof. each_ascii c; intro H; try reflexivity; discriminate H. Qed.

Lemma toLowerCase_idem (s : string) : toLowerCase (toLowerCase s) = toLowerCase s.
Proof. induction s as [|c s IH]; simpl; [|rewrite lowerChar_idem, IH]; reflexivity. Qed.

Lemma toLowerCase_length (s : string) : String.length (toLowerCase s) = String.length s.
Proof. induction s as [|c s IH]; simpl; [|rewrite IH]; reflexivity. Qed.

Lemma toLowerCase_app (s t : string) :
  toLowerCase (s ++ t) = toLowerCase s ++ toLowerCase t.
Proof. induction s as [|c s IH]; simpl; [|rewrite IH]; reflexivity. Qed.

Lemma toLowerCase_substring (n m : nat) (s : string) :
  toLowerCase (substring n m s) = substring n m (toLowerCase s).
Proof.
  revert n m; induction s as [|c s IH]; intros [|n] [|m]; simpl; try reflexivity.
  - rewrite IH; reflexivity.
  - apply IH.
  - apply IH.
Qed.

Lemma toLowerCase_sliceLast (k : nat) (s : string) :
  toLowerCase (sliceLast k s) = sliceLast k (toLowerCase s).
Proof. unfold sliceLast. rewrite toLowerCase_substring, toLowerCase_length. reflexivity. Qed.

Lemma all_impl (p q : ascii -> bool) (s : string) :
  (forall c, p c = true -> q c = true) -> all p s = true -> all q s = true.
Proof.
  intros Hpq; induction s as [|c s IH]; simpl; [reflexivity|].
  intros H; apply andb_true_iff in H as [Hc Hs].
  rewrite (Hpq _ Hc), (IH Hs); reflexivity.
Qed.

Lemma all_app (p : ascii -> bool) (s t : string) :
  all p (s ++ t) = all p s && all p t.
Proof. induction s as [|c s IH]; simpl; [|rewrite IH, andb_assoc]; reflexivity. Qed.

Lemma all_substring (p : ascii -> bool) (n m : nat) (s : string) :
  all p s = true -> all p (substring n m s) = true.
Proof.
  revert n m; induction s as [|c s IH]; intros [|n] [|m] H; simpl in *; try reflexivity;
    apply andb_true_iff in H as [Hc Hs]; auto.
  rewrite Hc; simpl; auto.
Qed.

Lemma all_toLowerCase_hex (s : string) :
  all hexDigit s = true -> all hexDigit (toLowerCase s) = true.
Proof.
  induction s as [|c s IH]; simpl; [reflexivity|].
  intros H; apply andb_true_iff in H as [Hc Hs].
  rewrite (hexDigit_lowerChar _ Hc), (IH Hs); reflexivity.
Qed.

(** [times] consumes exactly [n] characters of the class. *)
Lemma times_spec (p : ascii -> bool) (n : nat) (k : string -> bool) (s : string) :
  times p n k s = true <->
  exists s1 s2, s = s1 ++ s2 /\ String.length s1 = n /\ all p s1 = true /\ k s2 = true.
Proof.
  revert s; induction n as [|n IH]; intros s; simpl.
  - split.
    + intros H; exists EmptyString, s; auto.
    + intros (s1 & s2 & -> & Hl & _ & Hk). destruct s1; [exact Hk|discriminate].
  - destruct s as [|c s].
    + split; [discriminate|]. intros (s1 & s2 & Hs & Hl & _). destruct s1; discriminate.
    + rewrite andb_true_iff, IH. split.
      * intros (Hc & s1 & s2 & -> & Hl & Ha & Hk).
        exists (String c s1), s2; simpl; rewrite Hc, Ha, Hl; auto.
      * intros (s1 & s2 & Hs & Hl & Ha & Hk).
        destruct s1 as [|c1 s1]; [discriminate|].
        simpl in *. injection Hs as -> ->. injection Hl as Hl.
        apply andb_true_iff in Ha as [Hc Ha].
        split; [exact Hc|]. exists s1, s2; auto.
Qed.

(** [plus] accepts any non-empty run of the class followed by a match of
    the rest. *)
Lemma plus_app (p : ascii -> bool) (k : string -> bool) (s1 s2 : string) :
  s1 <> EmptyString -> all p s1 = true -> k s2 = true -> plus p k (s1 ++ s2) = true.
Proof.
  induction s1 as [|c s1 IH]; intros Hne Ha Hk; [congruence|].
  simpl in *. apply andb_true_iff in Ha as [Hc Ha]. rewrite Hc; simpl.
  destruct s1 as [|c' s1].
  - simpl. rewrite Hk. apply orb_true_r.
  - rewrite IH; auto. discriminate.
Qed.

Lemma search_here (m : string -> bool) (s : string) : m s = true -> search m s = true.
Proof. intros H; destruct s; simpl; rewrite H; reflexivity. Qed.

Lemma append_empty_r (s : string) : s ++ EmptyString = s.
Proof. induction s as [|c s IH]; simpl; [|rewrite IH]; reflexivity. Qed.

Lemma one_char (c : ascii) (s : string) :
  String.length s = 1 -> all (chr c) s = true -> s = String c EmptyString.
Proof.
  destruct s as [|c' [|]]; simpl; try discriminate.
  intros _ H. rewrite andb_true_r in H. apply Ascii.eqb_eq in H. congruence.
Qed.

Lemma walletAddressPattern_unfold (a : string) :
  test walletAddressPattern a
  = times (chr "0") 1 (times (chr "x") 1 (times hexDigit 40 isEmpty)) a.
Proof. reflexivity. Qed.

Lemma walletAddressPattern_spec (a : string) :
  test walletAddressPattern a = true <-> wellFormedAddress a.
Proof.
  rewrite walletAddressPattern_unfold. unfold wellFormedAddress. split.
  - intros H.
    apply times_spec in H as (s1 & r1 & -> & Hl1 & Ha1 & H).
    apply times_spec in H as (s2 & r2 & -> & Hl2 & Ha2 & H).
    apply times_spec in H as (h & e & -> & Hl & Ha & He).
    destruct e; [|discriminate].
    rewrite (one_char _ _ Hl1 Ha1), (one_char _ _ Hl2 Ha2), append_empty_r.
    exists h; auto.
  - intros (h & -> & Hl & Ha).
    apply times_spec. exists "0", ("x" ++ h). repeat split.
    apply times_spec. exists "x", h. repeat split.
    apply times_spec. exists h, EmptyString. rewrite append_empty_r. auto.
Qed.

Lemma wellFormedAddress_lower (a : string) :
  wellFormedAddress a -> wellFormedAddress (toLowerCase a).
Proof.
  intros (h & -> & Hl & Ha). exists (toLowerCase h).
  rewrite toLowerCase_length. repeat split; auto using all_toLowerCase_hex.
Qed.

Lemma wellFormedAddress_dot (a : string) :
  wellFormedAddress a -> a <> EmptyString /\ all dot a = true.
Proof.
  intros (h & -> & _ & Ha). split; [discriminate|].
  simpl. apply (all_impl hexDigit); auto using hexDigit_dot.
Qed.

Lemma wellFormedAddress_noSpace (a : string) :
  wellFormedAddress a -> all noSpace a = true.
Proof.
  intros (h & -> & _ & Ha). simpl. apply (all_impl hexDigit); auto.
  intros c Hc. unfold noSpace. rewrite (hexDigit_noSpace _ Hc). reflexivity.
Qed.

Lemma trimEnd_noSpace (s : string) : all noSpace s = true -> trimEnd s = s.
Proof.
  induction s as [|c s IH]; simpl; [reflexivity|].
  intros H; apply andb_true_iff in H as [Hc Hs]. rewrite (IH Hs).
  unfold noSpace in Hc. apply negb_true_iff in Hc. rewrite Hc.
  destruct s; reflexivity.
Qed.

Lemma trim_walletUsername (a : string) :
  wellFormedAddress a -> trim (walletUsername a) = walletUsername a.
Proof.
  intros Ha. unfold trim, walletUsername. simpl trimStart.
  apply trimEnd_noSpace. change (all noSpace ("wallet_" ++ toLowerCase (sliceLast 8 a)) = true).
  rewrite all_app. simpl. rewrite toLowerCase_sliceLast.
  apply all_substring, wellFormedAddress_noSpace, wellFormedAddress_lower, Ha.
Qed.

Lemma toLowerCase_walletEmail (a : string) :
  toLowerCase (walletEmail a) = walletEmail a.
Proof. unfold walletEmail. rewrite toLowerCase_app, toLowerCase_idem. reflexivity. Qed.

Lemma walletEmail_matches (a : string) :
  wellFormedAddress a -> matches emailPattern (walletEmail a) = true.
Proof.
  intros Ha. unfold matches. apply orb_true_iff; right.
  unfold test; simpl. apply search_here.
  destruct (wellFormedAddress_dot _ (wellFormedAddress_lower _ Ha)) as [Hne Hd].
  apply plus_app; auto.
Qed.

(** The schema's setters leave the document of a wallet account as
    [walletAuth] wrote it. *)
Lemma applySetters_newWalletUser (a h : string) (t1 t2 : Date) :
  wellFormedAddress a ->
  applySetters (newWalletUser a h t1 t2) = newWalletUser a h t1 t2.
Proof.
  intros Ha. unfold applySetters, rebuild, newWalletUser.
  cbn [username email walletAddress option_map].
  rewrite (trim_walletUsername _ Ha), toLowerCase_walletEmail, toLowerCase_idem.
  reflexivity.
Qed.

(** Every validator of the schema accepts the placeholders. *)
Lemma validate_newWalletUser (a h : string) (t1 t2 now : Date) :
  wellFormedAddress a -> h <> EmptyString ->
  validate (applyDefaults now (newWalletUser a h t1 t2)) = true.
Proof.
  intros Ha Hh. unfold validate, applyDefaults, rebuild, newWalletUser.
  cbn [username email passwordHash walletAddress firstName lastName phoneNumber
       pan aadhaar streetAddress areaLocality city state pinCode country
       employmentStatus occupationCategory companyName yearsOfExperience
       monthlyIncomeRange creditPurpose primaryBankName existingCreditScore
       itrStatus educationalQualification languagePreference
       communicationMethod maritalStatus numberOfDependents whenPresent].
  rewrite (walletEmail_matches _ Ha).
  assert (Hw : matches walletAddressPattern (toLowerCase a) = true).
  { unfold matches. apply orb_true_iff; right.
    apply walletAddressPattern_spec, wellFormedAddress_lower, Ha. }
  rewrite Hw.
  assert (He : required (walletEmail a) = true).
  { unfold required, walletEmail. destruct Ha as (x & -> & _). reflexivity. }
  rewrite He.
  assert (Hp : required h = true) by (destruct h; [congruence|reflexivity]).
  rewrite Hp. reflexivity.
Qed.

(** ** Running a handler *)

Section Running.

Variable E : Env.

Lemma run_bind {A B} (p : Prog A) (f : A -> Prog B) (w : World) :
  run E (bind p f) w =
  match run E p w with
  | (Returns a, w') => run E (f a) w'
  | (Throws e, w') => (Throws e, w')
  end.
Proof.
  revert w; induction p as [a|e|X c k IH]; intros w; simpl; try reflexivity.
  destruct (perform E c w) as [o w']. apply IH.
Qed.

Lemma run_tryCatch {A} (p : Prog A) (h : JsError -> Prog A) (w : World) :
  run E (tryCatch p h) w =
  match run E p w with
  | (Returns a, w') => (Returns a, w')
  | (Throws e, w') => run E (h e) w'
  end.
Proof.
  revert w; induction p as [a|e|X c k IH]; intros w; simpl; try reflexivity.
  destruct (perform E c w) as [o w']. apply IH.
Qed.

Lemma run_invoke {X} (c : call X) (w : World) : run E (invoke c) w = perform E c w.
Proof. simpl. destruct (perform E c w) as [[x|e] w']; reflexivity. Qed.

(** The signature check: a mismatch returns 400; a match and a recovery
    error both fall through, the second after a warning. *)
Lemma run_checkSignature (a m s : string) (w : World) :
  run E (checkSignature a m s) w =
  match verifyMessage E m s with
  | Some r =>
      (Returns (if negb (String.eqb (toLowerCase r) (toLowerCase a))
                then Some (json 400 (ErrorBody "Invalid signature"))
                else None),
       logged (EvVerifyMessage m s) w)
  | None => (Returns None, logged EvWarn (logged (EvVerifyMessage m s) w))
  end.
Proof.
  unfold checkSignature. simpl.
  destruct (verifyMessage E m s) as [r|]; simpl; [|reflexivity].
  destruct (negb _); reflexivity.
Qed.

Lemma run_walletAuth (req : Request) (w : World) :
  run E (walletAuth req) w =
  if falsy (body_walletAddress req) || falsy (body_message req)
     || falsy (body_signature req)
  then (Returns (json 400 (ErrorBody "Wallet address, message, and signature are required")), w)
  else
    let a := str (body_walletAddress req) in
    let m := str (body_message req) in
    let s := str (body_signature req) in
    if negb (test walletAddressPattern a)
    then (Returns (json 400 (ErrorBody "Invalid wallet address format")), w)
    else
      match verifyMessage E m s with
      | Some r =>
          if negb (String.eqb (toLowerCase r) (toLowerCase a))
          then (Returns (json 400 (ErrorBody "Invalid signature")),
                logged (EvVerifyMessage m s) w)
          else run E (issue a) (logged (EvVerifyMessage m s) w)
      | None => run E (issue a) (logged EvWarn (logged (EvVerifyMessage m s) w))
      end.
Proof.
  unfold walletAuth, issue.
  destruct (falsy (body_walletAddress req) || falsy (body_message req)
            || falsy (body_signature req)); [reflexivity|].
  cbv zeta.
  destruct (negb (test walletAddressPattern (str (body_walletAddress req))));
    [reflexivity|].
  rewrite !run_tryCatch, run_bind, run_checkSignature.
  destruct (verifyMessage E (str (body_message req)) (str (body_signature req)))
    as [r|]; [|reflexivity].
  destruct (negb _); reflexivity.
Qed.

End Running.

Arguments validate : simpl never.
Arguments findOneByWallet : simpl never.
Arguments setActivity : simpl never.
Arguments newWalletUser : simpl never.
Arguments touch : simpl never.
Arguments walletClaims : simpl never.
Arguments walletView : simpl never.

(** The calls of the handlers, one equation each. *)
Section Calls.

Variable E : Env.
Variable w : World.

Lemma perform_FindOneByWallet (a : string) :
  perform E (UserFindOneByWallet a) w
  = (Returns (findOneByWallet a (users w)), logged EvFindOne w).
Proof. reflexivity. Qed.

Lemma perform_FindOneByUsername (n : string) :
  perform E (UserFindOneByUsername n) w
  = (Returns (findOneByUsername n (users w)), logged EvFindOne w).
Proof. reflexivity. Qed.

Lemma perform_NewDate :
  perform E NewDate w = (Returns (clock E (dateReads w)), tickDate w).
Proof. reflexivity. Qed.

Lemma perform_MathRandomPassword :
  perform E MathRandomPassword w
  = (Returns (randomPassword E (randomReads w)), tickRandom w).
Proof. reflexivity. Qed.

Lemma perform_BcryptGenSalt (rounds : nat) :
  perform E (BcryptGenSalt rounds) w = (Returns (genSalt E (randomReads w)), tickRandom w).
Proof. reflexivity. Qed.

Lemma perform_BcryptHash (p s : string) :
  perform E (BcryptHash p s) w = (Returns (bcryptHash E p s), w).
Proof. reflexivity. Qed.

Lemma perform_BcryptCompare (p h : string) :
  perform E (BcryptCompare p h) w = (Returns (bcryptCompare E p h), w).
Proof. reflexivity. Qed.

Lemma perform_ConsoleError : perform E ConsoleError w = (Returns tt, logged EvError w).
Proof. reflexivity. Qed.

Lemma perform_UserSave (u : User) :
  perform E (UserSave u) w =
  if negb (validate (doc u)) then (Throws ValidationError, logged (EvSave (_id u)) w)
  else
    match setActivity (_id u) (lastWalletActivity (doc u)) (users w) with
    | Some us => (Returns tt, logged (EvSave (_id u)) (withUsers us w))
    | None => (Throws DocumentNotFoundError, logged (EvSave (_id u)) w)
    end.
Proof. reflexivity. Qed.

Lemma perform_JwtSign (c : Claims) (span : string) :
  perform E (JwtSign c span) w =
  match JWT_SECRET E with
  | None => (Throws JsonWebTokenError, w)
  | Some key =>
      if isEmpty key then (Throws JsonWebTokenError, w)
      else
        match ms span with
        | None => (Throws JsonWebTokenError, w)
        | Some millis =>
            let now := (clock E (dateReads w) / 1000)%Z in
            (Returns {| tokUserId := userId c;
                        tokUsername := claimUsername c;
                        tokEmail := claimEmail c;
                        tokWalletAddress := claimWalletAddress c;
                        iat := now;
                        exp := (now + millis / 1000)%Z;
                        signedWith := key |},
             logged (EvJwtSign (userId c)) (tickDate w))
        end
  end.
Proof. reflexivity. Qed.

Lemma perform_UserCreate (d : UserDoc) :
  perform E (UserCreate d) w =
  let w1 := logged EvCreate (tickId w) in
  let w2 := match createdAt d with None => tickDate w1 | Some _ => w1 end in
  let d' := applyDefaults (clock E (dateReads w)) (applySetters d) in
  if negb (validate d') then (Throws ValidationError, w2)
  else if duplicateKey (users w) d' then (Throws DuplicateKeyError, w2)
  else
    let u := {| _id := nextId w; doc := d' |} in
    (Returns u, withUsers (users w ++ [u]) w2).
Proof. reflexivity. Qed.

End Calls.

Ltac call_step :=
  first [ rewrite perform_FindOneByWallet | rewrite perform_FindOneByUsername
        | rewrite perform_NewDate | rewrite perform_MathRandomPassword
        | rewrite perform_BcryptGenSalt | rewrite perform_BcryptHash
        | rewrite perform_BcryptCompare | rewrite perform_ConsoleError ];
  simpl.

Section Resolution.

Variable E : Env.

Opaque perform validate.

Lemma run_respond (user : User) (w : World) :
  run E (tryCatch (respond user) serverError) w = finish E user w.
Proof.
  unfold respond, finish. simpl.
  destruct (perform E (JwtSign (walletClaims user) "24h") w) as [[t|e] w']; simpl.
  - reflexivity.
  - call_step. reflexivity.
Qed.

Lemma run_issue_found (a : string) (u : User) (w : World) :
  findOneByWallet (toLowerCase a) (users w) = Some u ->
  run E (issue a) w =
  let now := clock E (dateReads w) in
  let w1 := tickDate (logged EvFindOne w) in
  if negb (validate (doc (touch u now)))
  then (Returns fail500, logged EvError (logged (EvSave (_id u)) w1))
  else
    match setActivity (_id u) (Some now) (users w) with
    | Some us => finish E (touch u now) (logged (EvSave (_id u)) (withUsers us w1))
    | None => (Returns fail500, logged EvError (logged (EvSave (_id u)) w1))
    end.
Proof.
  intros Hf. unfold issue, resolveUser. simpl.
  call_step. change (users (logged EvFindOne w)) with (users w).
  rewrite Hf. simpl. call_step. rewrite perform_UserSave.
  change (users (tickDate (logged EvFindOne w))) with (users w).
  change (lastWalletActivity (doc (touch u (clock E (dateReads w)))))
    with (Some (clock E (dateReads w))).
  change (_id (touch u (clock E (dateReads w)))) with (_id u).
  change (users (tickDate (logged EvFindOne w))) with (users w).
  change (doc (touch u (clock E (dateReads w))))
    with (set_lastWalletActivity (doc u) (Some (clock E (dateReads w)))).
  destruct (negb (validate _)).
  { simpl. call_step. reflexivity. }
  destruct (setActivity (_id u) (Some (clock E (dateReads w))) (users w)) as [us|].
  - apply run_respond.
  - simpl. call_step. reflexivity.
Qed.

(** The creation branch, from the draw of the password on. *)
Lemma run_create_path (a : string) (w : World) :
  run E (tryCatch (user <- createOrTouch a None;; respond user) serverError) w =
  let h := bcryptHash E (randomPassword E (randomReads w)) (genSalt E (S (randomReads w))) in
  let t1 := clock E (dateReads w) in
  let t2 := clock E (S (dateReads w)) in
  let w1 := tickDate (tickDate (tickRandom (tickRandom w))) in
  match perform E (UserCreate (newWalletUser a h t1 t2)) w1 with
  | (Returns user, w2) => finish E user w2
  | (Throws _, w2) => (Returns fail500, logged EvError w2)
  end.
Proof.
  simpl. do 5 call_step. cbv zeta.
  destruct (perform E (UserCreate _) _) as [[user|e] w2].
  - apply run_respond.
  - simpl. call_step. reflexivity.
Qed.

Lemma run_issue_missing (a : string) (w : World) :
  findOneByWallet (toLowerCase a) (users w) = None ->
  run E (issue a) w =
  let h := bcryptHash E (randomPassword E (randomReads w)) (genSalt E (S (randomReads w))) in
  let t1 := clock E (dateReads w) in
  let t2 := clock E (S (dateReads w)) in
  let w1 := tickDate (tickDate (tickRandom (tickRandom (logged EvFindOne w)))) in
  match perform E (UserCreate (newWalletUser a h t1 t2)) w1 with
  | (Returns user, w2) => finish E user w2
  | (Throws _, w2) => (Returns fail500, logged EvError w2)
  end.
Proof.
  intros Hf. unfold issue, resolveUser. simpl.
  call_step. change (users (logged EvFindOne w)) with (users w).
  rewrite Hf. simpl. do 5 call_step. cbv zeta.
  destruct (perform E (UserCreate _) _) as [[user|e] w2].
  - apply run_respond.
  - simpl. call_step. reflexivity.
Qed.

Transparent validate.

(** *** The token signer *)

Lemma finish_sameStore (user : User) (w w' : World) (o : outcome Response) :
  finish E user w = (o, w') -> sameStore w w'.
Proof.
  unfold finish. rewrite perform_JwtSign.
  change (ms "24h") with (Some 86400000%Z).
  destruct (JWT_SECRET E) as [key|]; [destruct (isEmpty key)|];
    intros H; injection H as _ <-; split; reflexivity.
Qed.

Lemma finish_200 (user : User) (w w' : World) (r : Response) :
  finish E user w = (Returns r, w') -> status r = 200 ->
  exists tok,
    r = json 200 (WalletAuthBody tok (walletView user))
    /\ exp tok = (iat tok + 86400)%Z
    /\ tokUserId tok = _id user
    /\ dateReads w' = S (dateReads w)
    /\ signable E
    /\ exists key, JWT_SECRET E = Some key
         /\ tok = sessionToken (walletClaims user) (clock E (dateReads w)) 86400 key.
Proof.
  unfold finish. rewrite perform_JwtSign.
  change (ms "24h") with (Some 86400000%Z).
  destruct (JWT_SECRET E) as [key|] eqn:Hk; [destruct (isEmpty key) eqn:He|];
    intros H; injection H as <- <-; intros Hs; try discriminate Hs.
  eexists; repeat split; [exists key; auto|exists key; split; reflexivity].
Qed.

Lemma finish_signable (user : User) (w : World) :
  signable E ->
  exists tok,
    finish E user w = (Returns (json 200 (WalletAuthBody tok (walletView user))),
                     logged (EvJwtSign (_id user)) (tickDate w))
    /\ exp tok = (iat tok + 86400)%Z.
Proof.
  intros (key & Hk & He). unfold finish. rewrite perform_JwtSign, Hk, He.
  change (ms "24h") with (Some 86400000%Z). cbv zeta.
  eexists; split; reflexivity.
Qed.

(** *** Creation of a wallet account *)

Lemma validate_newWalletUser_noHash (a : string) (t1 t2 now : Date) :
  wellFormedAddress a ->
  validate (applyDefaults now (newWalletUser a EmptyString t1 t2)) = false.
Proof.
  intros Ha. unfold validate, applyDefaults, rebuild, newWalletUser.
  cbn [username email passwordHash walletAddress firstName lastName phoneNumber
       pan aadhaar streetAddress areaLocality city state pinCode country
       employmentStatus occupationCategory companyName yearsOfExperience
       monthlyIncomeRange creditPurpose primaryBankName existingCreditScore
       itrStatus educationalQualification languagePreference
       communicationMethod maritalStatus numberOfDependents whenPresent].
  rewrite (walletEmail_matches _ Ha).
  assert (He : required (walletEmail a) = true).
  { unfold required, walletEmail. destruct Ha as (x & -> & _). reflexivity. }
  rewrite He. reflexivity.
Qed.

Lemma create_walletUser (a h : string) (t1 t2 : Date) (w : World) :
  wellFormedAddress a ->
  perform E (UserCreate (newWalletUser a h t1 t2)) w =
  let u := walletRecord (nextId w) a h t1 t2 (clock E (dateReads w)) in
  let w2 := tickDate (logged EvCreate (tickId w)) in
  if isEmpty h then (Throws ValidationError, w2)
  else if duplicateKey (users w) (doc u) then (Throws DuplicateKeyError, w2)
  else (Returns u, withUsers (users w ++ [u]) w2).
Proof.
  intros Ha. rewrite perform_UserCreate, (applySetters_newWalletUser _ _ _ _ Ha).
  cbv zeta. change (createdAt (newWalletUser a h t1 t2)) with (@None Date).
  destruct h as [|c h].
  - rewrite (validate_newWalletUser_noHash _ _ _ _ Ha). reflexivity.
  - rewrite validate_newWalletUser; [reflexivity|exact Ha|discriminate].
Qed.

Transparent perform.

End Resolution.

(** ** The store *)

Section Store.

Lemma setActivity_ids (id : ObjectId) (t : option Date) (us us' : list User) :
  setActivity id t us = Some us' -> map _id us' = map _id us.
Proof.
  revert us'; induction us as [|v us IH]; intros us'; [discriminate|].
  unfold setActivity; fold setActivity. destruct (N.eqb (_id v) id).
  - intros H; injection H as <-. reflexivity.
  - destruct (setActivity id t us) as [us''|]; [|discriminate].
    intros H; injection H as <-. simpl. rewrite (IH _ eq_refl). reflexivity.
Qed.

Lemma setActivity_forget (id : ObjectId) (t : option Date) (us us' : list User) :
  setActivity id t us = Some us' -> map forgetActivity us' = map forgetActivity us.
Proof.
  revert us'; induction us as [|v us IH]; intros us'; [discriminate|].
  unfold setActivity; fold setActivity. destruct (N.eqb (_id v) id).
  - intros H; injection H as <-. reflexivity.
  - destruct (setActivity id t us) as [us''|]; [|discriminate].
    intros H; injection H as <-. simpl. rewrite (IH _ eq_refl). reflexivity.
Qed.


(** With unique keys the update reaches the very record a query found, and
    a query that does not read the timestamp finds it again. *)
Lemma setActivity_find (P : User -> bool) (t : option Date) (us us' : list User) (u : User) :
  (forall v, P (withActivity t v) = P v) ->
  NoDup (map _id us) ->
  find P us = Some u ->
  setActivity (_id u) t us = Some us' ->
  find P us' = Some (withActivity t u) /\ In (withActivity t u) us'.
Proof.
  intros HP. revert us'; induction us as [|x us IH]; intros us' Hnd Hf; [discriminate|].
  simpl in Hf. unfold setActivity; fold setActivity.
  inversion Hnd as [|? ? Hx Hnd']; subst.
  destruct (P x) eqn:Px.
  - injection Hf as ->. rewrite N.eqb_refl. intros H; injection H as <-.
    simpl. fold (withActivity t u). rewrite HP, Px. auto.
  - assert (Hin : In u us) by (apply find_some in Hf; tauto).
    assert (Hne : N.eqb (_id x) (_id u) = false).
    { apply N.eqb_neq. intros Heq. apply Hx. rewrite Heq. apply in_map, Hin. }
    rewrite Hne. destruct (setActivity (_id u) t us) as [us''|]; [|discriminate].
    intros H; injection H as <-. simpl. rewrite Px.
    destruct (IH _ Hnd' Hf eq_refl) as [H1 H2]. auto.
Qed.

Lemma find_app_new (P : User -> bool) (us : list User) (u : User) :
  find P us = None -> P u = true -> find P (us ++ [u])%list = Some u.
Proof.
  induction us as [|x us IH]; simpl; intros Hf Hu.
  - rewrite Hu; reflexivity.
  - destruct (P x); [discriminate|]. auto.
Qed.

Lemma storeInvariant_setActivity (w : World) (id : ObjectId) (t : option Date)
    (us : list User) (w' : World) :
  storeInvariant w -> setActivity id t (users w) = Some us ->
  users w' = us -> nextId w' = nextId w -> storeInvariant w'.
Proof.
  intros [Hnd Hlt] Hs Hu Hn. unfold storeInvariant. rewrite Hu, Hn. split.
  - rewrite (setActivity_ids _ _ _ _ Hs). exact Hnd.
  - apply Forall_forall. intros v Hv.
    assert (Hid : In (_id v) (map _id (users w))).
    { rewrite <- (setActivity_ids _ _ _ _ Hs). apply in_map, Hv. }
    apply in_map_iff in Hid as (v0 & <- & Hv0).
    rewrite Forall_forall in Hlt. apply Hlt, Hv0.
Qed.

Lemma storeInvariant_create (w w' : World) (u : User) :
  storeInvariant w -> _id u = nextId w ->
  users w' = (users w ++ [u])%list -> nextId w' = N.succ (nextId w) ->
  storeInvariant w'.
Proof.
  intros [Hnd Hlt] Hid Hu Hn. unfold storeInvariant. rewrite Hu, Hn. split.
  - rewrite map_app. simpl.
    rewrite Forall_forall in Hlt.
    assert (Hfresh : ~ In (_id u) (map _id (users w))).
    { intros Hin. apply in_map_iff in Hin as (v & Hv & Hvin).
      specialize (Hlt _ Hvin). rewrite Hv, Hid in Hlt. lia. }
    clear Hlt Hu Hn. induction (map _id (users w)) as [|i ids IH]; simpl.
    + constructor; [intros []|constructor].
    + inversion Hnd; subst. constructor.
      * rewrite in_app_iff. simpl. intros [H|[H|[]]]; [contradiction|].
        apply Hfresh. left; symmetry; exact H.
      * apply IH; auto. intros H; apply Hfresh; right; exact H.
  - apply Forall_app. split.
    + eapply Forall_impl; [|exact Hlt]. simpl. intros; lia.
    + constructor; [rewrite Hid; lia|constructor].
Qed.

Lemma storeInvariant_sameStore (w w' : World) :
  storeInvariant w -> users w' = users w -> nextId w' = nextId w -> storeInvariant w'.
Proof. intros H Hu Hn. unfold storeInvariant. rewrite Hu, Hn. exact H. Qed.

End Store.

(** ** Successful requests *)

Section Success.

Variable E : Env.

Opaque perform.

(** A request answered 200 passed the three checks and went through
    [issue]. *)
Lemma walletAuth_200_inv (req : Request) (w w1 : World) (r : Response) :
  run E (walletAuth req) w = (Returns r, w1) -> status r = 200 ->
  exists a w0,
    body_walletAddress req = Str a /\ wellFormedAddress a
    /\ sameButLog w w0 /\ run E (issue a) w0 = (Returns r, w1).
Proof.
  rewrite run_walletAuth. intros H Hs.
  destruct (falsy (body_walletAddress req) || falsy (body_message req)
            || falsy (body_signature req)) eqn:Hf.
  { injection H as <- _. discriminate Hs. }
  destruct (body_walletAddress req) as [| | | |a]; try discriminate Hf.
  cbv zeta in H. simpl str in H.
  destruct (test walletAddressPattern a) eqn:Ht; simpl negb in H; cbv iota in H.
  2:{ injection H as <- _. discriminate Hs. }
  apply walletAddressPattern_spec in Ht.
  destruct (verifyMessage E _ _) as [rec|].
  - destruct (negb _).
    + injection H as <- _. discriminate Hs.
    + match type of H with run E _ ?w0 = _ => exists a, w0 end.
      repeat split; [exact Ht|exact H].
  - match type of H with run E _ ?w0 = _ => exists a, w0 end.
    repeat split; [exact Ht|exact H].
Qed.

Lemma issue_found_inv (a : string) (u : User) (w w1 : World) (r : Response) :
  findOneByWallet (toLowerCase a) (users w) = Some u ->
  run E (issue a) w = (Returns r, w1) -> status r = 200 ->
  exists tok,
    r = json 200 (WalletAuthBody tok (walletView (touch u (clock E (dateReads w)))))
    /\ setActivity (_id u) (Some (clock E (dateReads w))) (users w) = Some (users w1)
    /\ nextId w1 = nextId w
    /\ dateReads w1 = S (S (dateReads w))
    /\ exp tok = (iat tok + 86400)%Z
    /\ tokUserId tok = _id u
    /\ exists key, JWT_SECRET E = Some key
         /\ tok = sessionToken (walletClaims (touch u (clock E (dateReads w))))
                   (clock E (S (dateReads w))) 86400 key.
Proof.
  intros Hf. rewrite (run_issue_found E a u w Hf). cbv zeta.
  destruct (negb (validate _)).
  { intros H Hs. injection H as <- _. discriminate Hs. }
  destruct (setActivity _ _ _) as [us|].
  - intros H Hs. destruct (finish_sameStore E _ _ _ _ H) as [Hu Hn].
    destruct (finish_200 E _ _ _ _ H Hs) as (tok & -> & He & Hi & Hd & _ & Hk).
    exists tok. rewrite Hu, Hn, Hd. repeat split; auto.
  - intros H Hs. injection H as <- _. discriminate Hs.
Qed.

Lemma issue_missing_inv (a : string) (w w1 : World) (r : Response) :
  wellFormedAddress a ->
  findOneByWallet (toLowerCase a) (users w) = None ->
  run E (issue a) w = (Returns r, w1) -> status r = 200 ->
  let h := bcryptHash E (randomPassword E (randomReads w)) (genSalt E (S (randomReads w))) in
  let u := walletRecord (nextId w) a h (clock E (dateReads w)) (clock E (S (dateReads w)))
             (clock E (S (S (dateReads w)))) in
  exists tok,
    r = json 200 (WalletAuthBody tok (walletView u))
    /\ users w1 = (users w ++ [u])%list
    /\ nextId w1 = N.succ (nextId w)
    /\ dateReads w1 = 4 + dateReads w
    /\ duplicateKey (users w) (doc u) = false
    /\ isEmpty h = false
    /\ exp tok = (iat tok + 86400)%Z
    /\ tokUserId tok = nextId w
    /\ exists key, JWT_SECRET E = Some key
         /\ tok = sessionToken (walletClaims u) (clock E (3 + dateReads w)) 86400 key.
Proof.
  intros Ha Hf. rewrite (run_issue_missing E a w Hf). cbv zeta.
  rewrite (create_walletUser E _ _ _ _ _ Ha). cbv zeta.
  destruct (isEmpty _) eqn:Hh.
  { intros H Hs. injection H as <- _. discriminate Hs. }
  simpl dateReads. simpl users. simpl nextId.
  destruct (duplicateKey _ _) eqn:Hd.
  { intros H Hs. injection H as <- _. discriminate Hs. }
  intros H Hs. destruct (finish_sameStore E _ _ _ _ H) as [Hu Hn].
  destruct (finish_200 E _ _ _ _ H Hs) as (tok & -> & He & Hi & Hdr & _ & Hk).
  exists tok. rewrite Hu, Hn, Hdr. repeat split; auto.
Qed.

(** The query of [findOneByWallet] does not read the activity timestamp. *)
Lemma byWallet_withActivity (x : string) (t : option Date) (v : User) :
  optEqb (walletAddress (doc (withActivity t v))) (Some x)
  = optEqb (walletAddress (doc v)) (Some x).
Proof. reflexivity. Qed.

Lemma findOneByWallet_address (a : string) (us : list User) (u : User) :
  findOneByWallet a us = Some u ->
  In u us /\ walletAddress (doc u) = Some (toLowerCase a).
Proof.
  unfold findOneByWallet. intros H. apply find_some in H as [Hin HP]. split; [exact Hin|].
  destruct (walletAddress (doc u)) as [x|]; [|discriminate HP].
  simpl in HP. apply String.eqb_eq in HP. congruence.
Qed.

(** After a request answered 200 the record of the response is the one a
    lookup of the address finds. *)
Lemma walletAuth_success (req : Request) (w w1 : World) (r : Response) :
  storeInvariant w ->
  run E (walletAuth req) w = (Returns r, w1) -> status r = 200 ->
  exists a u tok k,
    body_walletAddress req = Str a /\ wellFormedAddress a
    /\ r = json 200 (WalletAuthBody tok (walletView u))
    /\ findOneByWallet (toLowerCase a) (users w1) = Some u
    /\ storeInvariant w1
    /\ lastWalletActivity (doc u) = Some (clock E k) /\ (k < dateReads w1)%nat.
Proof.
  intros Hinv H Hs.
  destruct (walletAuth_200_inv _ _ _ _ H Hs) as (a & w0 & Hreq & Ha & (Hu & Hn & Hd & _) & Hrun).
  assert (Hinv0 : storeInvariant w0) by (apply (storeInvariant_sameStore w); auto).
  destruct (findOneByWallet (toLowerCase a) (users w0)) as [u0|] eqn:Hf.
  - destruct (issue_found_inv _ _ _ _ _ Hf Hrun Hs) as (tok & -> & Hset & Hn1 & Hd1 & _).
    destruct (setActivity_find _ _ _ _ _
                (byWallet_withActivity (toLowerCase (toLowerCase a)) _)
                (proj1 Hinv0) Hf Hset) as [Hfind _].
    exists a, (touch u0 (clock E (dateReads w0))), tok, (dateReads w0).
    do 4 (split; [auto|]). split; [|split; [reflexivity|rewrite Hd1; lia]].
    apply (storeInvariant_setActivity w0 _ _ _ _ Hinv0 Hset); auto.
  - destruct (issue_missing_inv _ _ _ _ Ha Hf Hrun Hs) as (tok & -> & Hus & Hn1 & Hd1 & _).
    cbv zeta in Hus. set (u := walletRecord _ _ _ _ _ _) in *.
    exists a, u, tok, (S (dateReads w0)).
    do 3 (split; [auto|]). split; [|split; [|split; [reflexivity|rewrite Hd1; lia]]].
    + unfold findOneByWallet. rewrite Hus. apply find_app_new; [exact Hf|].
      simpl. rewrite toLowerCase_idem. apply String.eqb_refl.
    + apply (storeInvariant_create w0 w1 u Hinv0 eq_refl Hus Hn1).
Qed.

(** A request answered 200 for an address that has a record updates the
    activity timestamp of that record and answers with it. *)
Lemma walletAuth_found (req : Request) (a : string) (u : User) (w w1 : World)
    (r : Response) :
  body_walletAddress req = Str a ->
  findOneByWallet (toLowerCase a) (users w) = Some u ->
  run E (walletAuth req) w = (Returns r, w1) -> status r = 200 ->
  exists tok,
    r = json 200 (WalletAuthBody tok (walletView (touch u (clock E (dateReads w)))))
    /\ setActivity (_id u) (Some (clock E (dateReads w))) (users w) = Some (users w1)
    /\ nextId w1 = nextId w.
Proof.
  intros Hreq Hf H Hs.
  destruct (walletAuth_200_inv _ _ _ _ H Hs) as (a' & w0 & Hreq' & Ha & (Hu & Hn & Hd & _) & Hrun).
  rewrite Hreq in Hreq'. injection Hreq' as <-.
  rewrite <- Hu in Hf.
  destruct (issue_found_inv _ _ _ _ _ Hf Hrun Hs) as (tok & -> & Hset & Hn1 & _).
  exists tok. rewrite <- Hd, <- Hu, <- Hn. auto.
Qed.

Transparent perform.

End Success.

(** ** The three checks *)

Lemma falsy_dropEmpty (v : Field) :
  falsy (if falsy v then Absent else v) = falsy v.
Proof. destruct v as [| | | |[|c s]]; reflexivity. Qed.

(** C10.  A request in which [walletAddress], [message] or [signature] is
    absent, [null], [false], [0] or the empty string is answered 400 with
    the "required" error
    before the address is validated and before any call is made (the program
    is the response itself, so the world is left as it was), whatever the
    verifier would say of the signature; and an empty string is treated
    exactly as an absent field. *)
Theorem empty_field_is_required (req : Request) :
  falsy (body_walletAddress req) = true \/ falsy (body_message req) = true
  \/ falsy (body_signature req) = true ->
  walletAuth req = Ret requiredFields
  /\ walletAuth (dropEmpty req) = walletAuth req
  /\ forall E w, run E (walletAuth req) w = (Returns requiredFields, w).
Proof.
  intros H.
  assert (Hc : falsy (body_walletAddress req) || falsy (body_message req)
               || falsy (body_signature req) = true).
  { destruct H as [->|[->| ->]]; rewrite ?orb_true_r; reflexivity. }
  assert (Hp : walletAuth req = Ret requiredFields).
  { unfold walletAuth. rewrite Hc. reflexivity. }
  split; [exact Hp|]. split.
  - rewrite Hp. unfold walletAuth, dropEmpty; simpl.
    rewrite !falsy_dropEmpty, Hc. reflexivity.
  - intros E w. rewrite Hp. reflexivity.
Qed.

Lemma empty_field_is_required_witness :
  verifyMessage Fixture.env EmptyString (Fixture.signatureOf Fixture.alice)
  = Some Fixture.alice
  /\ walletAuth (request Fixture.alice EmptyString (Fixture.signatureOf Fixture.alice))
     = Ret requiredFields
  /\ run Fixture.env
       (walletAuth (request Fixture.alice EmptyString (Fixture.signatureOf Fixture.alice)))
       Fixture.aliceWorld
     = (Returns requiredFields, Fixture.aliceWorld).
Proof.
  split; [reflexivity|].
  destruct (empty_field_is_required
              (request Fixture.alice EmptyString (Fixture.signatureOf Fixture.alice)))
    as (Hp & _ & Hrun).
  - right; left; reflexivity.
  - split; [exact Hp|apply Hrun].
Defined.

(** C5.  A request whose [walletAddress] is not [0x] followed by exactly
    forty hexadecimal digits (or is absent) is answered 400 without any call
    being made: the verifier is not invoked and the store is not touched. *)
Theorem malformed_address_rejected (req : Request) :
  (forall a, body_walletAddress req = Str a -> ~ wellFormedAddress a) ->
  exists msg,
    walletAuth req = Ret (json 400 (ErrorBody msg))
    /\ forall E w, run E (walletAuth req) w = (Returns (json 400 (ErrorBody msg)), w).
Proof.
  intros H. unfold walletAuth.
  destruct (falsy (body_walletAddress req) || falsy (body_message req)
            || falsy (body_signature req)) eqn:Hc.
  - eexists; split; [reflexivity|intros; reflexivity].
  - destruct (body_walletAddress req) as [| | | |a] eqn:Ha; try discriminate Hc.
    cbv zeta. simpl str.
    destruct (test walletAddressPattern a) eqn:Ht.
    + apply walletAddressPattern_spec in Ht. destruct (H a eq_refl Ht).
    + eexists; split; [reflexivity|intros; reflexivity].
Qed.

Lemma malformed_address_rejected_witness :
  exists msg,
    walletAuth (request "0x1234" Fixture.challenge (Fixture.signatureOf Fixture.alice))
    = Ret (json 400 (ErrorBody msg))
    /\ forall E w,
        run E (walletAuth (request "0x1234" Fixture.challenge
                             (Fixture.signatureOf Fixture.alice))) w
        = (Returns (json 400 (ErrorBody msg)), w).
Proof.
  apply malformed_address_rejected.
  intros a Ha (h & -> & Hl & _). simpl in Ha. injection Ha as Ha. subst h.
  discriminate Hl.
Defined.

(** C6.  When recovery succeeds and the recovered address differs, in lower
    case, from the claimed one, the request is answered 400 with an error
    body and nothing is written: the world is unchanged up to the log entry
    of the verification itself, so no record is created and no field of a
    record, [lastWalletActivity] included, is updated. *)
Theorem signature_mismatch_rejected (E : Env) (req : Request) (w : World)
    (a m s recovered : string) :
  body_walletAddress req = Str a ->
  body_message req = Str m ->
  body_signature req = Str s ->
  verifyMessage E m s = Some recovered ->
  toLowerCase recovered <> toLowerCase a ->
  exists msg w',
    run E (walletAuth req) w = (Returns (json 400 (ErrorBody msg)), w')
    /\ (w' = w \/ w' = logged (EvVerifyMessage m s) w)
    /\ users w' = users w.
Proof.
  intros Ha Hm Hs Hv Hne. rewrite run_walletAuth, Ha, Hm, Hs. simpl str. cbv zeta.
  destruct (falsy (Str a) || falsy (Str m) || falsy (Str s)).
  { eexists _, w; auto. }
  destruct (negb (test walletAddressPattern a)).
  { eexists _, w; auto. }
  rewrite Hv.
  destruct (String.eqb (toLowerCase recovered) (toLowerCase a)) eqn:Heq.
  { apply String.eqb_eq in Heq. contradiction. }
  simpl negb. cbv iota. eexists _, _; split; [reflexivity|]. auto.
Qed.

Lemma signature_mismatch_rejected_witness :
  exists msg w',
    run Fixture.env (walletAuth Fixture.stolenRequest) Fixture.aliceWorld
    = (Returns (json 400 (ErrorBody msg)), w')
    /\ (w' = Fixture.aliceWorld
        \/ w' = logged (EvVerifyMessage Fixture.challenge (Fixture.signatureOf Fixture.bob))
                  Fixture.aliceWorld)
    /\ users w' = users Fixture.aliceWorld.
Proof.
  apply (signature_mismatch_rejected Fixture.env Fixture.stolenRequest Fixture.aliceWorld
           Fixture.alice Fixture.challenge (Fixture.signatureOf Fixture.bob) Fixture.bob);
    try reflexivity.
  vm_compute. discriminate.
Defined.

(** A recovery error is swallowed by the inner [catch]: the handler goes on
    to the lookup as it does after a matching signature. *)
Lemma recovery_error_falls_through (E : Env) (req : Request) (w : World)
    (a m s : string) :
  body_walletAddress req = Str a ->
  body_message req = Str m ->
  body_signature req = Str s ->
  isEmpty m = false -> isEmpty s = false ->
  wellFormedAddress a ->
  verifyMessage E m s = None ->
  run E (walletAuth req) w
  = run E (issue a) (logged EvWarn (logged (EvVerifyMessage m s) w)).
Proof.
  intros Ha Hm Hs Hme Hse Hwf Hv. rewrite run_walletAuth, Ha, Hm, Hs. simpl.
  rewrite Hme, Hse.
  assert (Hae : isEmpty a = false) by (destruct Hwf as (h & -> & _); reflexivity).
  rewrite Hae. simpl.
  apply walletAddressPattern_spec in Hwf.
  change (matchHere (atoms walletAddressPattern) isEmpty a)
    with (test walletAddressPattern a).
  rewrite Hwf, Hv. reflexivity.
Qed.

(** C1.  The code at the failing input: Alice's address with a signature
    that is not a signature.  Recovery throws, the handler warns, and then
    creates a record for the address and answers 200 with a token for it. *)
Theorem recovery_error_accepted :
  verifyMessage Fixture.env Fixture.challenge "0xdeadbeef" = None
  /\ exists tok w',
       run Fixture.env (walletAuth Fixture.forgedRequest) Fixture.emptyWorld
       = (Returns (json 200 (WalletAuthBody tok
                               (walletView (walletRecord 1%N Fixture.alice
                                  "$2a$10$N9qo8uLOickgx2ZMRZoMyek3x9qz"
                                  1700000000000%Z 1700000001000%Z
                                  1700000002000%Z)))), w')
       /\ tokWalletAddress tok = Some Fixture.aliceLower
       /\ map (fun u => walletAddress (doc u)) (users w') = [Some Fixture.aliceLower]
       /\ log w' = [EvJwtSign 1%N; EvCreate; EvFindOne; EvWarn;
                    EvVerifyMessage Fixture.challenge "0xdeadbeef"].
Proof.
  split; [reflexivity|]. eexists _, _. split; [vm_compute; reflexivity|].
  repeat split.
Qed.

(** ** Responses *)

Section Responses.

Variable E : Env.

Opaque perform.

Lemma finish_cases (user : User) (w : World) :
  exists r w', finish E user w = (Returns r, w') /\ (r = fail500 \/ status r = 200).
Proof.
  unfold finish. destruct (perform E _ w) as [[t|e] w']; eexists _, _; split;
    try reflexivity; auto.
Qed.

Lemma issue_cases (a : string) (w : World) :
  exists r w', run E (issue a) w = (Returns r, w') /\ (r = fail500 \/ status r = 200).
Proof.
  destruct (findOneByWallet (toLowerCase a) (users w)) as [u|] eqn:Hf.
  - rewrite (run_issue_found E a u w Hf). cbv zeta.
    destruct (negb (validate _)); [eexists _, _; split; [reflexivity|auto]|].
    destruct (setActivity _ _ _) as [us|]; [apply finish_cases|].
    eexists _, _; split; [reflexivity|auto].
  - rewrite (run_issue_missing E a w Hf). cbv zeta.
    destruct (perform E (UserCreate _) _) as [[u|e] w2]; [apply finish_cases|].
    eexists _, _; split; [reflexivity|auto].
Qed.

(** The handler always answers, with 400 and an error, with the 500 of the
    outer [catch], or with 200. *)
Lemma walletAuth_responds (req : Request) (w : World) :
  exists r w',
    run E (walletAuth req) w = (Returns r, w')
    /\ ((exists msg, r = json 400 (ErrorBody msg)) \/ r = fail500 \/ status r = 200).
Proof.
  rewrite run_walletAuth.
  destruct (falsy _ || falsy _ || falsy _).
  { eexists _, _; split; [reflexivity|left; eexists; reflexivity]. }
  cbv zeta. destruct (negb (test _ _)).
  { eexists _, _; split; [reflexivity|left; eexists; reflexivity]. }
  destruct (verifyMessage E _ _) as [rec|].
  - destruct (negb _).
    + eexists _, _; split; [reflexivity|left; eexists; reflexivity].
    + destruct (issue_cases (str (body_walletAddress req))
                  (logged (EvVerifyMessage (str (body_message req))
                             (str (body_signature req))) w))
        as (r & w' & -> & Hr).
      exists r, w'; split; [reflexivity|right; exact Hr].
  - destruct (issue_cases (str (body_walletAddress req))
                (logged EvWarn (logged (EvVerifyMessage (str (body_message req))
                                          (str (body_signature req))) w)))
      as (r & w' & -> & Hr).
    exists r, w'; split; [reflexivity|right; exact Hr].
Qed.

(** Every token [walletAuth] issues lives 24 hours. *)
Lemma walletAuth_token (req : Request) (w w' : World) (r : Response)
    (tok : Token) (v : WalletUserView) :
  run E (walletAuth req) w = (Returns r, w') ->
  body r = WalletAuthBody tok v ->
  exp tok = (iat tok + 86400)%Z.
Proof.
  intros H Hb.
  destruct (walletAuth_responds req w) as (r0 & w0 & H0 & Hr).
  rewrite H0 in H. injection H as -> ->.
  destruct Hr as [[msg ->]|[->|Hs]]; try discriminate Hb.
  destruct (walletAuth_200_inv E _ _ _ _ H0 Hs) as (a & w1 & _ & Ha & _ & Hrun).
  destruct (findOneByWallet (toLowerCase a) (users w1)) as [u|] eqn:Hf.
  - destruct (issue_found_inv E _ _ _ _ _ Hf Hrun Hs) as (t & -> & _ & _ & _ & He & _).
    simpl in Hb. injection Hb as <- _. exact He.
  - destruct (issue_missing_inv E _ _ _ _ Ha Hf Hrun Hs) as (t & -> & _ & _ & _ & _ & _ & He & _).
    simpl in Hb. injection Hb as <- _. exact He.
Qed.

(** Every token [loginUser] issues lives one hour. *)
Lemma loginUser_token (req : LoginRequest) (w w' : World) (r : Response)
    (tok : Token) (u : User) :
  run E (loginUser req) w = (Returns r, w') ->
  body r = LoginBody tok u ->
  exp tok = (iat tok + 3600)%Z.
Proof.
  unfold loginUser. simpl. call_step.
  destruct (findOneByUsername _ _) as [user|]; simpl.
  2:{ intros H Hb. injection H as <- _. discriminate Hb. }
  call_step. destruct (bcryptCompare E _ _); simpl.
  2:{ intros H Hb. injection H as <- _. discriminate Hb. }
  rewrite perform_JwtSign. change (ms "1h") with (Some 3600000%Z).
  destruct (JWT_SECRET E) as [key|]; [destruct (isEmpty key)|]; simpl;
    intros H Hb; injection H as <- _; try discriminate Hb.
  simpl in Hb. injection Hb as <- _. reflexivity.
Qed.

Transparent perform.

End Responses.

(** C7.  Every token issued by [walletAuth] expires 24 hours after it was
    issued, every token issued by [loginUser] one hour after, and the wallet
    session is the strictly longer one. *)
Theorem session_lifetimes (E : Env) :
  (forall req w r w' tok v,
      run E (walletAuth req) w = (Returns r, w') ->
      body r = WalletAuthBody tok v ->
      (exp tok - iat tok = 24 * 3600)%Z)
  /\ (forall req w r w' tok u,
         run E (loginUser req) w = (Returns r, w') ->
         body r = LoginBody tok u ->
         (exp tok - iat tok = 3600)%Z)
  /\ (forall wreq lreq w1 w2 r1 r2 w1' w2' tok1 tok2 v u,
         run E (walletAuth wreq) w1 = (Returns r1, w1') ->
         body r1 = WalletAuthBody tok1 v ->
         run E (loginUser lreq) w2 = (Returns r2, w2') ->
         body r2 = LoginBody tok2 u ->
         (exp tok2 - iat tok2 < exp tok1 - iat tok1)%Z).
Proof.
  split; [|split].
  - intros req w r w' tok v H Hb. rewrite (walletAuth_token E _ _ _ _ _ _ H Hb). lia.
  - intros req w r w' tok u H Hb. rewrite (loginUser_token E _ _ _ _ _ _ H Hb). lia.
  - intros wreq lreq w1 w2 r1 r2 w1' w2' tok1 tok2 v u H1 Hb1 H2 Hb2.
    rewrite (walletAuth_token E _ _ _ _ _ _ H1 Hb1), (loginUser_token E _ _ _ _ _ _ H2 Hb2).
    lia.
Qed.

(** ** Repeated authentication *)

Section Repeated.

Variable E : Env.

Lemma newWalletUser_lower (a a' h : string) (t1 t2 : Date) :
  toLowerCase a = toLowerCase a' ->
  newWalletUser a h t1 t2 = newWalletUser a' h t1 t2.
Proof.
  intros H. unfold newWalletUser, walletUsername, walletEmail.
  rewrite !toLowerCase_sliceLast, H. reflexivity.
Qed.

(** [issue] reads the address in lower case only. *)
Lemma run_issue_lower (a a' : string) (w : World) :
  toLowerCase a = toLowerCase a' -> run E (issue a) w = run E (issue a') w.
Proof.
  intros H.
  destruct (findOneByWallet (toLowerCase a) (users w)) as [u|] eqn:Hf.
  - rewrite (run_issue_found E a u w Hf).
    rewrite H in Hf. rewrite (run_issue_found E a' u w Hf). reflexivity.
  - rewrite (run_issue_missing E a w Hf).
    rewrite H in Hf. rewrite (run_issue_missing E a' w Hf).
    cbv zeta. rewrite (newWalletUser_lower a a' _ _ _ H). reflexivity.
Qed.

(** The second of two requests answered 200 for the same address, in any
    case of its digits, finds the record of the first and updates its
    activity timestamp. *)
Lemma second_request (req1 req2 : Request) (a2 : string) (w w1 w2 : World)
    (r1 r2 : Response) :
  storeInvariant w ->
  run E (walletAuth req1) w = (Returns r1, w1) -> status r1 = 200 ->
  body_walletAddress req2 = Str a2 ->
  toLowerCase (str (body_walletAddress req1)) = toLowerCase a2 ->
  run E (walletAuth req2) w1 = (Returns r2, w2) -> status r2 = 200 ->
  exists u1 tok1 tok2 k,
    r1 = json 200 (WalletAuthBody tok1 (walletView u1))
    /\ r2 = json 200 (WalletAuthBody tok2
                        (walletView (withActivity (Some (clock E (dateReads w1))) u1)))
    /\ findOneByWallet (toLowerCase a2) (users w1) = Some u1
    /\ NoDup (map _id (users w1))
    /\ setActivity (_id u1) (Some (clock E (dateReads w1))) (users w1) = Some (users w2)
    /\ lastWalletActivity (doc u1) = Some (clock E k) /\ (k < dateReads w1)%nat.
Proof.
  intros Hinv H1 Hs1 Ha2 Hsame H2 Hs2.
  destruct (walletAuth_success E _ _ _ _ Hinv H1 Hs1)
    as (a & u1 & tok1 & k & Ha & _ & -> & Hf & Hinv1 & Hact & Hk).
  rewrite Ha in Hsame. simpl in Hsame. rewrite Hsame in Hf.
  destruct (walletAuth_found E _ _ _ _ _ _ Ha2 Hf H2 Hs2) as (tok2 & -> & Hset & _).
  exists u1, tok1, tok2, k. repeat split; auto. exact (proj1 Hinv1).
Qed.

End Repeated.



(** C4.  For two spellings of one address that differ only in the case of
    their digits the handler behaves identically, response and world.  After
    a request with one spelling was answered 200 the collection holds a
    record whose stored address is the lower-case spelling and which the
    lookup finds under either spelling; a request with the other spelling
    answered 200 is answered with that record (same primary key and
    lower-case address in both user objects), which is still the one the
    lookup finds under either spelling, and creates none. *)
Theorem address_case_is_irrelevant (E : Env) (a a' m s : string) (w : World) :
  wellFormedAddress a -> wellFormedAddress a' ->
  toLowerCase a = toLowerCase a' ->
  run E (walletAuth (request a m s)) w = run E (walletAuth (request a' m s)) w
  /\ forall m' s' r1 w1 r2 w2,
       storeInvariant w ->
       run E (walletAuth (request a m s)) w = (Returns r1, w1) -> status r1 = 200 ->
       run E (walletAuth (request a' m' s')) w1 = (Returns r2, w2) -> status r2 = 200 ->
       exists u1 u2 tok1 tok2 v1 v2,
         r1 = json 200 (WalletAuthBody tok1 v1)
         /\ r2 = json 200 (WalletAuthBody tok2 v2)
         /\ In u1 (users w1)
         /\ findOneByWallet a (users w1) = Some u1
         /\ findOneByWallet a' (users w1) = Some u1
         /\ In u2 (users w2)
         /\ findOneByWallet a (users w2) = Some u2
         /\ findOneByWallet a' (users w2) = Some u2
         /\ _id u2 = _id u1
         /\ walletAddress (doc u1) = Some (toLowerCase a)
         /\ walletAddress (doc u2) = Some (toLowerCase a)
         /\ view_id v1 = _id u1 /\ view_id v2 = _id u1
         /\ viewWalletAddress v1 = Some (toLowerCase a)
         /\ viewWalletAddress v2 = Some (toLowerCase a)
         /\ map _id (users w2) = map _id (users w1)
         /\ map forgetActivity (users w2) = map forgetActivity (users w1).
Proof.
  intros Ha Ha' Hl. split.
  - rewrite !run_walletAuth. unfold request.
    cbn [body_walletAddress body_message body_signature str falsy].
    assert (He : isEmpty a = false) by (destruct Ha as (h & -> & _); reflexivity).
    assert (He' : isEmpty a' = false) by (destruct Ha' as (h & -> & _); reflexivity).
    rewrite He, He'.
    destruct (false || isEmpty m || isEmpty s); [reflexivity|].
    apply walletAddressPattern_spec in Ha, Ha'.
    cbv zeta. rewrite Ha, Ha', Hl. cbn [negb].
    destruct (verifyMessage E m s) as [rec|]; [destruct (negb _); [reflexivity|]|];
      apply run_issue_lower, Hl.
  - intros m' s' r1 w1 r2 w2 Hinv H1 Hs1 H2 Hs2.
    assert (Hsame : toLowerCase (str (body_walletAddress (request a m s)))
                    = toLowerCase a') by exact Hl.
    destruct (second_request E (request a m s) (request a' m' s') a' _ _ _ _ _
                Hinv H1 Hs1 eq_refl Hsame H2 Hs2)
      as (u1 & tok1 & tok2 & k & -> & -> & Hf & Hnd & Hset & _).
    destruct (setActivity_find _ _ _ _ _
                (byWallet_withActivity (toLowerCase (toLowerCase a')) _) Hnd Hf Hset)
      as [Hf2 Hin2].
    destruct (findOneByWallet_address _ _ _ Hf) as [Hin1 Hw].
    unfold findOneByWallet in Hf. fold (findOneByWallet (toLowerCase a') (users w2)) in Hf2.
    unfold findOneByWallet in Hf2.
    rewrite toLowerCase_idem in Hf, Hf2, Hw. rewrite <- Hl in Hw.
    exists u1, (withActivity (Some (clock E (dateReads w1))) u1), tok1, tok2,
      (walletView u1), (walletView (withActivity (Some (clock E (dateReads w1))) u1)).
    split; [reflexivity|]. split; [reflexivity|]. split; [exact Hin1|].
    split; [unfold findOneByWallet; rewrite Hl; exact Hf|].
    split; [exact Hf|]. split; [exact Hin2|].
    split; [unfold findOneByWallet; rewrite Hl; exact Hf2|].
    split; [exact Hf2|]. split; [reflexivity|].
    split; [exact Hw|]. split; [exact Hw|].
    split; [reflexivity|]. split; [reflexivity|].
    split; [exact Hw|]. split; [exact Hw|].
    split; [exact (setActivity_ids _ _ _ _ Hset)|].
    exact (setActivity_forget _ _ _ _ Hset).
Qed.

(** ** The credential hash *)

Section Credential.

Lemma cons_eq_inv {A} (a b : A) (l l' : list A) :
  a :: l = b :: l' -> a = b /\ l = l'.
Proof. intros H; injection H; auto. Qed.

Lemma byWallet_eraseHash (x : option string) (u : User) :
  optEqb (walletAddress (doc (eraseHash u))) x = optEqb (walletAddress (doc u)) x.
Proof. reflexivity. Qed.

(** A lookup by address on two collections equal up to hashes finds records
    equal up to hashes, or none in both. *)
Lemma findOneByWallet_eraseHash (x : string) (us1 us2 : list User) :
  map eraseHash us1 = map eraseHash us2 ->
  match findOneByWallet x us1, findOneByWallet x us2 with
  | Some u1, Some u2 => eraseHash u1 = eraseHash u2
  | None, None => True
  | _, _ => False
  end.
Proof.
  unfold findOneByWallet. revert us2.
  induction us1 as [|u1 us1 IH]; intros [|u2 us2] H; try discriminate H;
    cbn [find]; [exact I|].
  apply cons_eq_inv in H as [Hu Hus].
  assert (HP : forall y, optEqb (walletAddress (doc u1)) y
                         = optEqb (walletAddress (doc u2)) y).
  { intros y.
    change (optEqb (walletAddress (doc (eraseHash u1))) y
            = optEqb (walletAddress (doc (eraseHash u2))) y).
    rewrite Hu. reflexivity. }
  rewrite HP.
  destruct (optEqb (walletAddress (doc u2)) _); [exact Hu|apply IH, Hus].
Qed.

Lemma walletView_touch_eraseHash (u : User) (t : Date) :
  walletView (touch u t) = walletView (touch (eraseHash u) t).
Proof. reflexivity. Qed.

Lemma walletClaims_touch_eraseHash (u : User) (t : Date) :
  walletClaims (touch u t) = walletClaims (touch (eraseHash u) t).
Proof. reflexivity. Qed.

Lemma walletView_walletRecord (id : ObjectId) (a h h' : string) (t1 t2 now : Date) :
  walletView (walletRecord id a h t1 t2 now) = walletView (walletRecord id a h' t1 t2 now).
Proof. reflexivity. Qed.

Lemma walletClaims_walletRecord (id : ObjectId) (a h h' : string) (t1 t2 now : Date) :
  walletClaims (walletRecord id a h t1 t2 now)
  = walletClaims (walletRecord id a h' t1 t2 now).
Proof. reflexivity. Qed.

End Credential.

(** C8.  The body of a wallet-auth response answered 200 does not depend on
    credential hashes: two runs of the same request answered 200, in worlds
    whose records differ at most in their [passwordHash] and with sources of
    random passwords, salts and hashes that may differ, give the same
    response, token and user object.  (The user object has no field for the
    hash.) *)
Theorem response_independent_of_passwordHash (E1 E2 : Env) (req : Request)
    (w1 w2 w1' w2' : World) (r1 r2 : Response) :
  sameButCredentials E1 E2 ->
  sameButHashes w1 w2 ->
  run E1 (walletAuth req) w1 = (Returns r1, w1') -> status r1 = 200 ->
  run E2 (walletAuth req) w2 = (Returns r2, w2') -> status r2 = 200 ->
  r1 = r2.
Proof.
  intros (Hverify & Hclock & Hkey) (Hus & Hid & Hdr) H1 Hs1 H2 Hs2.
  destruct (walletAuth_200_inv E1 _ _ _ _ H1 Hs1)
    as (a & v1 & Ha & Hwf & (Hu1 & Hn1 & Hd1 & _) & Hrun1).
  destruct (walletAuth_200_inv E2 _ _ _ _ H2 Hs2)
    as (a' & v2 & Ha' & _ & (Hu2 & Hn2 & Hd2 & _) & Hrun2).
  rewrite Ha in Ha'. injection Ha' as <-.
  rewrite <- Hu1, <- Hu2 in Hus. rewrite <- Hn1, <- Hn2 in Hid.
  rewrite <- Hd1, <- Hd2 in Hdr.
  pose proof (findOneByWallet_eraseHash (toLowerCase a) _ _ Hus) as Hfind.
  destruct (findOneByWallet (toLowerCase a) (users v1)) as [u1|] eqn:Hf1;
    destruct (findOneByWallet (toLowerCase a) (users v2)) as [u2|] eqn:Hf2;
    try contradiction.
  - destruct (issue_found_inv E1 _ _ _ _ _ Hf1 Hrun1 Hs1)
      as (t1 & -> & _ & _ & _ & _ & _ & k1 & Hk1 & ->).
    destruct (issue_found_inv E2 _ _ _ _ _ Hf2 Hrun2 Hs2)
      as (t2 & -> & _ & _ & _ & _ & _ & k2 & Hk2 & ->).
    rewrite Hkey, Hk2 in Hk1. injection Hk1 as ->.
    rewrite !Hclock, Hdr.
    rewrite (walletView_touch_eraseHash u1), (walletClaims_touch_eraseHash u1), Hfind.
    reflexivity.
  - destruct (issue_missing_inv E1 _ _ _ _ Hwf Hf1 Hrun1 Hs1)
      as (t1 & -> & _ & _ & _ & _ & _ & _ & _ & k1 & Hk1 & ->).
    destruct (issue_missing_inv E2 _ _ _ _ Hwf Hf2 Hrun2 Hs2)
      as (t2 & -> & _ & _ & _ & _ & _ & _ & _ & k2 & Hk2 & ->).
    rewrite Hkey, Hk2 in Hk1. injection Hk1 as ->.
    rewrite !Hclock, Hdr, Hid.
    rewrite (walletView_walletRecord _ _ _ EmptyString),
            (walletClaims_walletRecord _ _ _ EmptyString).
    symmetry.
    rewrite (walletView_walletRecord _ _ _ EmptyString),
            (walletClaims_walletRecord _ _ _ EmptyString).
    reflexivity.
Qed.

(** ** First-time authentication *)

Section FirstTime.

Variable E : Env.

Opaque perform.

Lemma findOneByWallet_none (x : string) (us : list User) :
  (forall v, In v us -> walletAddress (doc v) <> Some (toLowerCase x)) ->
  findOneByWallet x us = None.
Proof.
  intros H. unfold findOneByWallet.
  destruct (find _ us) as [u|] eqn:Hf; [|reflexivity].
  apply find_some in Hf as [Hin HP].
  destruct (walletAddress (doc u)) as [y|] eqn:Hy; [|discriminate HP].
  simpl in HP. apply String.eqb_eq in HP. subst y. destruct (H u Hin Hy).
Qed.

Lemma duplicateKey_free (us : list User) (d : UserDoc) :
  (forall v, In v us ->
     username (doc v) <> username d /\ email (doc v) <> email d
     /\ (forall x, walletAddress d = Some x -> walletAddress (doc v) <> Some x)) ->
  duplicateKey us d = false.
Proof.
  intros H. unfold duplicateKey. destruct (existsb _ us) eqn:He; [|reflexivity].
  apply existsb_exists in He as (v & Hin & Hc).
  destruct (H v Hin) as (Hu & Hm & Hw). unfold clashes in Hc.
  apply orb_true_iff in Hc as [Hc|Hc]; [apply orb_true_iff in Hc as [Hc|Hc]|].
  - apply String.eqb_eq in Hc. contradiction.
  - apply String.eqb_eq in Hc. contradiction.
  - destruct (walletAddress (doc v)) as [y|] eqn:Hy; [|discriminate Hc].
    destruct (walletAddress d) as [x|]; [|discriminate Hc].
    simpl in Hc. apply String.eqb_eq in Hc. subst y. destruct (Hw x eq_refl eq_refl).
Qed.

Lemma duplicateKey_taken (us : list User) (d : UserDoc) (v : User) :
  In v us ->
  username (doc v) = username d
  \/ (exists x, walletAddress (doc v) = Some x /\ walletAddress d = Some x) ->
  duplicateKey us d = true.
Proof.
  intros Hin H. unfold duplicateKey. apply existsb_exists. exists v. split; [exact Hin|].
  unfold clashes. destruct H as [->|(x & -> & ->)].
  - rewrite String.eqb_refl. reflexivity.
  - simpl. rewrite String.eqb_refl. apply orb_true_r.
Qed.

(** A request that passes the three checks continues with [issue]. *)
Lemma walletAuth_accepted (req : Request) (w : World) (a m s : string) :
  body_walletAddress req = Str a ->
  body_message req = Str m ->
  body_signature req = Str s ->
  isEmpty m = false -> isEmpty s = false ->
  wellFormedAddress a ->
  (forall recovered, verifyMessage E m s = Some recovered ->
                     toLowerCase recovered = toLowerCase a) ->
  exists w0, sameButLog w w0 /\ run E (walletAuth req) w = run E (issue a) w0.
Proof.
  intros Ha Hm Hs Hme Hse Hwf Hv. rewrite run_walletAuth, Ha, Hm, Hs.
  cbn [falsy str]. rewrite Hme, Hse.
  assert (Hae : isEmpty a = false) by (destruct Hwf as (h & -> & _); reflexivity).
  rewrite Hae. cbn [orb]. cbv zeta.
  apply walletAddressPattern_spec in Hwf. rewrite Hwf. cbn [negb].
  destruct (verifyMessage E m s) as [rec|].
  - rewrite (Hv rec eq_refl), String.eqb_refl. cbn [negb].
    eexists; split; [|reflexivity]. repeat split.
  - eexists; split; [|reflexivity]. repeat split.
Qed.

Transparent perform.

End FirstTime.

Section FirstAccount.

Variable E : Env.

Opaque perform.

(** The run of a first-time authentication, by what the unique indexes say
    of the synthesized document. *)
Lemma run_first_time (req : Request) (w : World) (a m s : string) :
  body_walletAddress req = Str a ->
  body_message req = Str m ->
  body_signature req = Str s ->
  isEmpty m = false -> isEmpty s = false ->
  wellFormedAddress a ->
  (forall recovered, verifyMessage E m s = Some recovered ->
                     toLowerCase recovered = toLowerCase a) ->
  (forall v, In v (users w) -> walletAddress (doc v) <> Some (toLowerCase a)) ->
  let h := bcryptHash E (randomPassword E (randomReads w)) (genSalt E (S (randomReads w))) in
  let u := walletRecord (nextId w) a h (clock E (dateReads w))
             (clock E (S (dateReads w))) (clock E (S (S (dateReads w)))) in
  isEmpty h = false ->
  signable E ->
  exists w',
    if duplicateKey (users w) (doc u)
    then run E (walletAuth req) w = (Returns fail500, w') /\ users w' = users w
    else exists tok,
        run E (walletAuth req) w
        = (Returns (json 200 (WalletAuthBody tok (walletView u))), w')
        /\ users w' = (users w ++ [u])%list.
Proof.
  intros Ha Hm Hs Hme Hse Hwf Hv Hnew h u Hh Hsig.
  destruct (walletAuth_accepted E _ w _ _ _ Ha Hm Hs Hme Hse Hwf Hv)
    as (w0 & (Hu & Hn & Hd & Hr) & ->).
  assert (Hf : findOneByWallet (toLowerCase a) (users w0) = None).
  { rewrite Hu. apply findOneByWallet_none. rewrite toLowerCase_idem. exact Hnew. }
  rewrite (run_issue_missing E a w0 Hf). cbv zeta.
  rewrite (create_walletUser E _ _ _ _ _ Hwf). cbv zeta.
  cbn [dateReads randomReads nextId users tickDate tickRandom logged].
  rewrite Hu, Hn, Hd, Hr. fold h. rewrite Hh. fold u.
  destruct (duplicateKey (users w) (doc u)).
  - eexists; split; [reflexivity|exact Hu].
  - destruct (finish_signable E u
                (withUsers (users w ++ [u])
                   (tickDate (logged EvCreate (tickId
                      (tickDate (tickDate (tickRandom (tickRandom (logged EvFindOne w0)))))))))
                Hsig) as (tok & -> & _).
    eexists _, tok; split; reflexivity.
Qed.

Transparent perform.

End FirstAccount.

(** C9, as the code has it.  For a first-time authentication the display
    name of the synthesized record is [wallet_] followed by the last eight
    characters of the address in lower case; the record carries the hash of
    a randomly drawn password, the address in lower case,
    [walletConnectedAt] and [lastWalletActivity] read from the clock, and
    the fixed placeholder profile, which the schema accepts.  The handler
    does nothing to make the display name unique: when no record has that
    name or the derived e-mail the record is stored and returned with 200;
    when a record already has that name the unique index refuses the
    creation and the answer is 500 with the collection unchanged. *)
Theorem first_time_wallet_account (E : Env) (req : Request) (w : World)
    (a m s : string) :
  body_walletAddress req = Str a ->
  body_message req = Str m ->
  body_signature req = Str s ->
  isEmpty m = false -> isEmpty s = false ->
  wellFormedAddress a ->
  (forall recovered, verifyMessage E m s = Some recovered ->
                     toLowerCase recovered = toLowerCase a) ->
  (forall v, In v (users w) -> walletAddress (doc v) <> Some (toLowerCase a)) ->
  let h := bcryptHash E (randomPassword E (randomReads w)) (genSalt E (S (randomReads w))) in
  let u := walletRecord (nextId w) a h (clock E (dateReads w))
             (clock E (S (dateReads w))) (clock E (S (S (dateReads w)))) in
  isEmpty h = false ->
  signable E ->
  username (doc u) = "wallet_" ++ toLowerCase (sliceLast 8 a)
  /\ passwordHash (doc u) = h
  /\ walletAddress (doc u) = Some (toLowerCase a)
  /\ walletConnectedAt (doc u) = Some (clock E (dateReads w))
  /\ lastWalletActivity (doc u) = Some (clock E (S (dateReads w)))
  /\ profileOf (doc u) = placeholderProfile
  /\ validate (doc u) = true
  /\ ((forall v, In v (users w) ->
         username (doc v) <> username (doc u) /\ email (doc v) <> email (doc u)) ->
      exists tok w',
        run E (walletAuth req) w
        = (Returns (json 200 (WalletAuthBody tok (walletView u))), w')
        /\ users w' = (users w ++ [u])%list)
  /\ ((exists v, In v (users w) /\ username (doc v) = username (doc u)) ->
      exists w', run E (walletAuth req) w = (Returns fail500, w') /\ users w' = users w).
Proof.
  intros Ha Hm Hs Hme Hse Hwf Hv Hnew h u Hh Hsig.
  do 6 (split; [reflexivity|]).
  split.
  { apply validate_newWalletUser; [exact Hwf|]. intros Hz. fold h in Hz.
    rewrite Hz in Hh. discriminate Hh. }
  destruct (run_first_time E req w a m s Ha Hm Hs Hme Hse Hwf Hv Hnew Hh Hsig)
    as (w' & Hrun).
  fold h in Hrun. fold u in Hrun. split.
  - intros Hfree.
    rewrite duplicateKey_free in Hrun.
    + destruct Hrun as (tok & Hrun & Hus). exists tok, w'. auto.
    + intros v Hin. destruct (Hfree v Hin) as [H1 H2].
      split; [exact H1|]. split; [exact H2|].
      intros x Hx. injection Hx as <-. apply Hnew, Hin.
  - intros (v & Hin & Hname).
    rewrite (duplicateKey_taken _ _ v Hin (or_introl Hname)) in Hrun.
    exists w'. exact Hrun.
Qed.

(** C9, as stated, fails: Carol's wallet ends in the eight digits of
    Alice's.  After Carol's first authentication, the display name
    synthesized for Alice is Carol's; it is not made unique, the creation is
    refused and Alice's first authentication is answered 500. *)
Lemma display_name_not_made_unique :
  map (fun u => username (doc u)) (users Fixture.carolWorld) = [walletUsername Fixture.alice]
  /\ map (fun u => walletAddress (doc u)) (users Fixture.carolWorld) = [Some Fixture.carol]
  /\ exists w',
       run Fixture.env (walletAuth Fixture.aliceRequest) Fixture.carolWorld
       = (Returns fail500, w')
       /\ users w' = users Fixture.carolWorld.
Proof.
  split; [reflexivity|]. split; [reflexivity|].
  eexists. split; [vm_compute; reflexivity|reflexivity].
Qed.

(** ** Concurrent creation *)

Section Conflict.

Variable E : Env.

(** The handler of a request that passes the checks, after its first two
    calls (verification and lookup) found no record: it is suspended before
    the creation. *)
Lemma suspended_before_creation (req : Request) (w : World) (a m s recovered : string) :
  body_walletAddress req = Str a ->
  body_message req = Str m ->
  body_signature req = Str s ->
  isEmpty m = false -> isEmpty s = false ->
  wellFormedAddress a ->
  verifyMessage E m s = Some recovered ->
  toLowerCase recovered = toLowerCase a ->
  findOneByWallet (toLowerCase a) (users w) = None ->
  interleave E [0; 0] [walletAuth req] w
  = ([tryCatch (user <- createOrTouch a None;; respond user) serverError],
     logged EvFindOne (logged (EvVerifyMessage m s) w)).
Proof.
  intros Ha Hm Hs Hme Hse Hwf Hv Hl Hf.
  assert (Hae : isEmpty a = false) by (destruct Hwf as (h & -> & _); reflexivity).
  apply walletAddressPattern_spec in Hwf.
  unfold walletAuth. rewrite Ha, Hm, Hs. cbn [falsy str]. rewrite Hme, Hse, Hae.
  cbn [orb]. cbv zeta. rewrite Hwf. cbn [negb].
  unfold interleave, checkSignature. cbn [nth_error]. simpl.
  rewrite Hv. simpl. rewrite Hl, String.eqb_refl. simpl. rewrite Hf. reflexivity.
Qed.

Opaque perform.

(** Resumed in a world where the address has a record, the creation throws
    and the outer [catch] answers 500; there is no second lookup. *)
Lemma creation_conflict (a : string) (wc : World) :
  wellFormedAddress a ->
  (exists v, In v (users wc) /\ walletAddress (doc v) = Some (toLowerCase a)) ->
  exists w',
    run E (tryCatch (user <- createOrTouch a None;; respond user) serverError) wc
    = (Returns fail500, w')
    /\ users w' = users wc
    /\ log w' = EvError :: EvCreate :: log wc.
Proof.
  intros Hwf (v & Hin & Hw). rewrite run_create_path. cbv zeta.
  rewrite (create_walletUser E _ _ _ _ _ Hwf). cbv zeta.
  destruct (isEmpty _).
  { eexists; repeat split. }
  rewrite (duplicateKey_taken _ _ v Hin).
  - eexists; repeat split.
  - right. exists (toLowerCase a). split; [exact Hw|reflexivity].
Qed.

Transparent perform.

End Conflict.

(** C2, as the code has it.  A handler that looked the address up and found
    no record is suspended before the creation; when a concurrent request has
    created the record by the time it resumes, its creation is refused by the
    unique index and it answers 500 ("Server error during wallet
    authentication") without looking the address up again and without
    writing to the collection. *)
Theorem creation_conflict_answers_500 (E : Env) (req : Request) (w wc : World)
    (a m s recovered : string) :
  body_walletAddress req = Str a ->
  body_message req = Str m ->
  body_signature req = Str s ->
  isEmpty m = false -> isEmpty s = false ->
  wellFormedAddress a ->
  verifyMessage E m s = Some recovered ->
  toLowerCase recovered = toLowerCase a ->
  (forall v, In v (users w) -> walletAddress (doc v) <> Some (toLowerCase a)) ->
  (exists v, In v (users wc) /\ walletAddress (doc v) = Some (toLowerCase a)) ->
  exists p w',
    interleave E [0; 0] [walletAuth req] w
    = ([p], logged EvFindOne (logged (EvVerifyMessage m s) w))
    /\ run E p wc = (Returns fail500, w')
    /\ users w' = users wc
    /\ log w' = EvError :: EvCreate :: log wc.
Proof.
  intros Ha Hm Hs Hme Hse Hwf Hv Hl Hnew Hrace.
  assert (Hf : findOneByWallet (toLowerCase a) (users w) = None).
  { apply findOneByWallet_none. rewrite toLowerCase_idem. exact Hnew. }
  destruct (creation_conflict E a wc Hwf Hrace) as (w' & Hrun & Hus & Hlog).
  eexists _, w'. split; [|split; [exact Hrun|split; [exact Hus|exact Hlog]]].
  apply (suspended_before_creation E req w a m s recovered); assumption.
Qed.

(** C2, as stated, fails: two handlers for Alice's new address, both past
    the lookup before either creates the record.  The first creates it and
    answers 200; the creation of the second is refused and it answers 500,
    not the record. *)
Lemma lost_race_is_an_error :
  exists r w',
    interleave Fixture.env Fixture.raceSchedule
      [walletAuth Fixture.aliceRequest; walletAuth Fixture.aliceRequest]
      Fixture.emptyWorld
    = ([Ret r; Ret fail500], w')
    /\ status r = 200
    /\ map (fun u => walletAddress (doc u)) (users w') = [Some Fixture.aliceLower]
    /\ firstn 3 (log w') = [EvError; EvCreate; EvJwtSign 1%N].
Proof.
  eexists _, _. split; [vm_compute; reflexivity|]. repeat split.
Qed.

(** ** The properties on the fixtures *)

Lemma alice_wellFormed : wellFormedAddress Fixture.alice.
Proof. apply walletAddressPattern_spec. reflexivity. Defined.

Lemma aliceLower_wellFormed : wellFormedAddress Fixture.aliceLower.
Proof. apply walletAddressPattern_spec. reflexivity. Defined.

Lemma emptyWorld_invariant : storeInvariant Fixture.emptyWorld.
Proof. split; constructor. Defined.

Lemma alice_signature_accepted (recovered : string) :
  verifyMessage Fixture.env Fixture.challenge (Fixture.signatureOf Fixture.alice)
  = Some recovered ->
  toLowerCase recovered = toLowerCase Fixture.alice.
Proof. intros H. vm_compute in H. injection H as <-. reflexivity. Defined.

Lemma fixture_signable : signable Fixture.env.
Proof. eexists; split; reflexivity. Defined.

Lemma session_lifetimes_witness :
  exists r1 w1 tok1 v r2 w2 tok2 u,
    run Fixture.env (walletAuth Fixture.aliceRequest) Fixture.emptyWorld = (Returns r1, w1)
    /\ body r1 = WalletAuthBody tok1 v
    /\ run Fixture.env (loginUser Fixture.aliceLogin) Fixture.aliceWorld = (Returns r2, w2)
    /\ body r2 = LoginBody tok2 u
    /\ (exp tok1 - iat tok1 = 24 * 3600)%Z
    /\ (exp tok2 - iat tok2 = 3600)%Z
    /\ (exp tok2 - iat tok2 < exp tok1 - iat tok1)%Z.
Proof.
  do 8 eexists.
  split; [vm_compute; reflexivity|]. split; [reflexivity|].
  split; [vm_compute; reflexivity|]. split; [reflexivity|].
  destruct (session_lifetimes Fixture.env) as (Hw & Hl & Hlt).
  split; [|split].
  - eapply (Hw Fixture.aliceRequest Fixture.emptyWorld); [vm_compute; reflexivity|reflexivity].
  - eapply (Hl Fixture.aliceLogin Fixture.aliceWorld); [vm_compute; reflexivity|reflexivity].
  - eapply (Hlt Fixture.aliceRequest Fixture.aliceLogin Fixture.emptyWorld Fixture.aliceWorld);
      [vm_compute; reflexivity|reflexivity|vm_compute; reflexivity|reflexivity].
Defined.


Lemma address_case_is_irrelevant_witness :
  run Fixture.env (walletAuth Fixture.aliceRequest) Fixture.emptyWorld
  = run Fixture.env (walletAuth Fixture.aliceLowerRequest) Fixture.emptyWorld
  /\ exists u1 tok2 v2,
       In u1 (users Fixture.aliceWorld)
       /\ findOneByWallet Fixture.alice (users Fixture.aliceWorld) = Some u1
       /\ findOneByWallet Fixture.aliceLower (users Fixture.aliceWorld) = Some u1
       /\ walletAddress (doc u1) = Some (toLowerCase Fixture.alice)
       /\ answer (run Fixture.env (walletAuth Fixture.aliceLowerRequest) Fixture.aliceWorld)
          = json 200 (WalletAuthBody tok2 v2)
       /\ view_id v2 = _id u1.
Proof.
  destruct (address_case_is_irrelevant Fixture.env Fixture.alice Fixture.aliceLower
              Fixture.challenge (Fixture.signatureOf Fixture.alice) Fixture.emptyWorld
              alice_wellFormed aliceLower_wellFormed eq_refl) as [Hsame Hnext].
  split; [exact Hsame|].
  destruct (Hnext Fixture.challenge (Fixture.signatureOf Fixture.alice)
              (answer (run Fixture.env (walletAuth Fixture.aliceRequest) Fixture.emptyWorld))
              Fixture.aliceWorld
              (answer (run Fixture.env (walletAuth Fixture.aliceLowerRequest)
                         Fixture.aliceWorld))
              (snd (run Fixture.env (walletAuth Fixture.aliceLowerRequest)
                      Fixture.aliceWorld)))
    as (u1 & u2 & tok1 & tok2 & v1 & v2 & _ & Hr2 & Hin1 & Hf & Hf' & _ & _ & _ & _
        & Hw & _ & _ & Hv2 & _).
  - exact emptyWorld_invariant.
  - vm_compute; reflexivity.
  - reflexivity.
  - vm_compute; reflexivity.
  - reflexivity.
  - exists u1, tok2, v2.
    split; [exact Hin1|]. split; [exact Hf|]. split; [exact Hf'|].
    split; [exact Hw|]. split; [exact Hr2|exact Hv2].
Defined.

Lemma response_independent_of_passwordHash_witness :
  map (fun u => passwordHash (doc u)) (users Fixture.aliceWorld)
  <> map (fun u => passwordHash (doc u)) (users (Fixture.rehashed Fixture.aliceWorld))
  /\ answer (run Fixture.env (walletAuth Fixture.aliceRequest) Fixture.aliceWorld)
     = answer (run Fixture.otherCredentials (walletAuth Fixture.aliceRequest)
                 (Fixture.rehashed Fixture.aliceWorld)).
Proof.
  split; [vm_compute; discriminate|].
  apply (response_independent_of_passwordHash Fixture.env Fixture.otherCredentials
           Fixture.aliceRequest Fixture.aliceWorld (Fixture.rehashed Fixture.aliceWorld)
           (snd (run Fixture.env (walletAuth Fixture.aliceRequest) Fixture.aliceWorld))
           (snd (run Fixture.otherCredentials (walletAuth Fixture.aliceRequest)
                   (Fixture.rehashed Fixture.aliceWorld)))).
  - split; [|split]; [intros; reflexivity|intros; reflexivity|reflexivity].
  - split; [|split]; vm_compute; reflexivity.
  - vm_compute; reflexivity.
  - vm_compute; reflexivity.
  - vm_compute; reflexivity.
  - vm_compute; reflexivity.
Defined.

Lemma first_time_wallet_account_witness :
  exists tok w',
    run Fixture.env (walletAuth Fixture.aliceRequest) Fixture.emptyWorld
    = (Returns (json 200 (WalletAuthBody tok
                            (walletView (walletRecord 1%N Fixture.alice
                               "$2a$10$N9qo8uLOickgx2ZMRZoMyek3x9qz"
                               1700000000000%Z 1700000001000%Z 1700000002000%Z)))), w')
    /\ users w' = [walletRecord 1%N Fixture.alice "$2a$10$N9qo8uLOickgx2ZMRZoMyek3x9qz"
                     1700000000000%Z 1700000001000%Z 1700000002000%Z].
Proof.
  destruct (first_time_wallet_account Fixture.env Fixture.aliceRequest Fixture.emptyWorld
              Fixture.alice Fixture.challenge (Fixture.signatureOf Fixture.alice))
    as (_ & _ & _ & _ & _ & _ & _ & Hfree & _).
  - reflexivity.
  - reflexivity.
  - reflexivity.
  - reflexivity.
  - reflexivity.
  - exact alice_wellFormed.
  - exact alice_signature_accepted.
  - intros v [].
  - reflexivity.
  - exact fixture_signable.
  - apply Hfree. intros v [].
Defined.

Lemma creation_conflict_answers_500_witness :
  exists p w',
    interleave Fixture.env [0; 0] [walletAuth Fixture.aliceRequest] Fixture.emptyWorld
    = ([p], logged EvFindOne
              (logged (EvVerifyMessage Fixture.challenge (Fixture.signatureOf Fixture.alice))
                 Fixture.emptyWorld))
    /\ run Fixture.env p Fixture.aliceWorld = (Returns fail500, w')
    /\ users w' = users Fixture.aliceWorld
    /\ log w' = EvError :: EvCreate :: log Fixture.aliceWorld.
Proof.
  apply (creation_conflict_answers_500 Fixture.env Fixture.aliceRequest
           Fixture.emptyWorld Fixture.aliceWorld
           Fixture.alice Fixture.challenge (Fixture.signatureOf Fixture.alice)
           Fixture.alice); try reflexivity.
  - exact alice_wellFormed.
  - intros v [].
  - eexists. split; [vm_compute; left; reflexivity|vm_compute; reflexivity].
Defined.

(** * The other endpoints *)

(** ** Registration *)

Section Registration.

Variable E : Env.

Opaque perform.

(** What [documentOf] copies from the body. *)
Lemma documentOf_account (b : RegisterBody) (h : string) (d : UserDoc) :
  documentOf b h = Some d ->
  username d = reg_username b /\ email d = reg_email b /\ passwordHash d = h
  /\ walletAddress d = None /\ createdAt d = None
  /\ educationalQualification d = reg_educationalQualification b
  /\ languagePreference d = reg_languagePreference b
  /\ communicationMethod d = reg_communicationMethod b
  /\ maritalStatus d = reg_maritalStatus b.
Proof.
  unfold documentOf.
  repeat match goal with
         | |- context [need ?o _] => destruct o; cbn [need]; [|discriminate]
         end.
  intros H; injection H as <-. repeat split.
Qed.

Lemma act_eq {X} (c : call X) (w : World) :
  act E c w = match perform E c w with
              | (Returns x, w') => (Ok x, w')
              | (Throws e, w') => (Fail (Raised e), w')
              end.
Proof. reflexivity. Qed.

(** The stored form of a registered document. *)
Lemma createFromBody_eq (b : RegisterBody) (h : string) (w : World) :
  createFromBody E b h w =
  let w2 := tickDate (logged EvCreate (tickId w)) in
  match documentOf b h with
  | None => (Fail (Raised ValidationError), w2)
  | Some d =>
      let d' := applyDefaults (clock E (dateReads w)) (applySetters d) in
      if negb (validate d') then (Fail (Raised ValidationError), w2)
      else if duplicateKey (users w) d' then (Fail (Raised DuplicateKeyError), w2)
      else (Ok {| _id := nextId w; doc := d' |},
            withUsers (users w ++ [{| _id := nextId w; doc := d' |}]) w2)
  end.
Proof.
  unfold createFromBody. destruct (documentOf b h) as [d|] eqn:Hd; [|reflexivity].
  destruct (documentOf_account _ _ _ Hd) as (_ & _ & _ & _ & Hc & _).
  rewrite act_eq, perform_UserCreate, Hc. cbv zeta.
  destruct (negb (validate _)); [reflexivity|].
  destruct (duplicateKey _ _); reflexivity.
Qed.

Lemma registerUser_eq (b : RegisterBody) (w : World) :
  registerUser E b w =
  match findOneByEmailOrUsername (reg_email b) (reg_username b) (users w) with
  | Some _ => (Ok (reply 400 (PError "Username or Email already exists")), w)
  | None =>
      match reg_password b with
      | None => (Ok (reply 500 (PError "Server error")), logged EvError (tickRandom w))
      | Some p =>
          let h := bcryptHash E p (genSalt E (randomReads w)) in
          match createFromBody E b h (tickRandom w) with
          | (Ok u, w2) => (Ok (reply 201 (PRegistered "User registered successfully" u)), w2)
          | (Fail _, w2) => (Ok (reply 500 (PError "Server error")), logged EvError w2)
          end
      end
  end.
Proof.
  unfold registerUser, attempt, andThen.
  destruct (findOneByEmailOrUsername _ _ _); [reflexivity|].
  rewrite act_eq, perform_BcryptGenSalt. cbv beta iota.
  unfold bcryptHashOf. destruct (reg_password b) as [p|].
  - rewrite act_eq, perform_BcryptHash. cbv beta iota zeta.
    destruct (createFromBody E b _ (tickRandom w)) as [[u|t] w2]; [reflexivity|].
    rewrite act_eq, perform_ConsoleError. reflexivity.
  - unfold raise. rewrite act_eq, perform_ConsoleError. reflexivity.
Qed.

Transparent perform.

End Registration.

(** ** What a registration does *)

Section Registered.

Variable E : Env.

(** The validators a stored account passed. *)
Lemma validate_account (d : UserDoc) :
  validate d = true ->
  isEmpty (username d) = false /\ isEmpty (email d) = false
  /\ matches emailPattern (email d) = true
  /\ isEmpty (passwordHash d) = false.
Proof.
  unfold validate. intros H.
  repeat (apply andb_prop in H; destruct H as [H ?]).
  unfold required in *.
  repeat match goal with
         | H : negb _ = true |- _ => apply negb_true_iff in H
         end.
  repeat split; assumption.
Qed.

(** The enumerations of the optional paths. *)
Lemma validate_optional (d : UserDoc) :
  validate d = true ->
  whenPresent (oneOf educationalQualifications) (educationalQualification d) = true
  /\ whenPresent (oneOf languagePreferences) (languagePreference d) = true
  /\ whenPresent (oneOf communicationMethods) (communicationMethod d) = true
  /\ whenPresent (oneOf maritalStatuses) (maritalStatus d) = true.
Proof.
  unfold validate. intros H.
  do 5 (apply andb_prop in H; destruct H as [H ?]).
  repeat split; assumption.
Qed.

Opaque perform validate.

(** The filter of [registerUser] and the unique indexes on [username] and
    [email] look at the same two fields. *)
Lemma noAccount_free (e n : string) (us : list User) (d : UserDoc) :
  findOneByEmailOrUsername e n us = None ->
  username d = trim n -> email d = toLowerCase e -> walletAddress d = None ->
  duplicateKey us d = false.
Proof.
  intros Hf Hn He Hw. apply duplicateKey_free. intros v Hin.
  pose proof (find_none _ _ Hf v Hin) as Hv. cbv beta in Hv.
  apply orb_false_iff in Hv as [Hv1 Hv2].
  apply String.eqb_neq in Hv1, Hv2. rewrite Hn, He, Hw.
  repeat split; [assumption|assumption|discriminate].
Qed.

(** The answers of [registerUser], case by case. *)
Lemma registerUser_cases (b : RegisterBody) (w : World) :
  let hashed p := bcryptHash E p (genSalt E (randomReads w)) in
  let stored d := applyDefaults (clock E (dateReads w)) (applySetters d) in
  (exists v, In v (users w)
     /\ (email (doc v) = toLowerCase (reg_email b)
         \/ username (doc v) = trim (reg_username b))
     /\ registerUser E b w
        = (Ok (reply 400 (PError "Username or Email already exists")), w))
  \/ (findOneByEmailOrUsername (reg_email b) (reg_username b) (users w) = None
      /\ (reg_password b = None
          \/ exists p, reg_password b = Some p
               /\ match documentOf b (hashed p) with
                  | None => True
                  | Some d => validate (stored d) = false
                  end)
      /\ exists w', users w' = users w /\ (nextId w <= nextId w')%N
           /\ registerUser E b w = (Ok (reply 500 (PError "Server error")), w'))
  \/ (findOneByEmailOrUsername (reg_email b) (reg_username b) (users w) = None
      /\ exists p d w',
           reg_password b = Some p
           /\ documentOf b (hashed p) = Some d
           /\ validate (stored d) = true
           /\ let u := {| _id := nextId w; doc := stored d |} in
              users w' = (users w ++ [u])%list
              /\ nextId w' = N.succ (nextId w)
              /\ registerUser E b w
                 = (Ok (reply 201 (PRegistered "User registered successfully" u)), w')).
Proof.
  intros hashed stored. rewrite registerUser_eq.
  destruct (findOneByEmailOrUsername _ _ _) as [v|] eqn:Hf.
  - left. exists v. apply find_some in Hf as [Hin Hv].
    apply orb_true_iff in Hv. rewrite !String.eqb_eq in Hv. auto.
  - right. destruct (reg_password b) as [p|].
    2:{ left. split; [reflexivity|]. split; [left; reflexivity|].
        eexists. split; [|split; [|reflexivity]]; [reflexivity|].
        cbn [nextId logged tickRandom]. lia. }
    cbv zeta. rewrite createFromBody_eq. cbv zeta. fold (hashed p).
    destruct (documentOf b (hashed p)) as [d|] eqn:Hd.
    + destruct (documentOf_account _ _ _ Hd) as (Hn & He & _ & Hw & _).
      change (users (tickRandom w)) with (users w).
      change (nextId (tickRandom w)) with (nextId w).
      change (dateReads (tickRandom w)) with (dateReads w).
      fold (stored d).
      destruct (validate (stored d)) eqn:Hv; cbn [negb].
      * right. split; [reflexivity|].
        rewrite (noAccount_free (reg_email b) (reg_username b)); try assumption;
          [|unfold stored; cbn; rewrite Hn; reflexivity
           |unfold stored; cbn; rewrite He; reflexivity
           |unfold stored; cbn; rewrite Hw; reflexivity].
        exists p, d,
          (withUsers (users w ++ [{| _id := nextId w; doc := stored d |}])
             (tickDate (logged EvCreate (tickId (tickRandom w))))).
        split; [reflexivity|]. split; [exact Hd|].
        split; [exact Hv|]. cbv zeta. split; [|split]; reflexivity.
      * left. split; [reflexivity|].
        split; [right; exists p; split; [reflexivity|rewrite Hd; exact Hv]|].
        eexists. split; [|split; [|reflexivity]]; [reflexivity|].
        cbn [nextId logged tickDate tickId withUsers tickRandom]. lia.
    + left. split; [reflexivity|].
      split; [right; exists p; split; [reflexivity|rewrite Hd; exact I]|].
      eexists. split; [|split; [|reflexivity]]; [reflexivity|].
      cbn [nextId logged tickDate tickId withUsers tickRandom]. lia.
Qed.

Transparent perform validate.

End Registered.
(** X1.  A registration whose user name (trimmed) or e-mail address (in
    lower case), both ASCII strings, is that of a stored record is answered
    400 "Username or Email already exists", and nothing is read, written or
    logged. *)
Theorem register_refuses_taken_names (E : Env) (b : RegisterBody) (w : World) (v : User) :
  asciiAccount b ->
  In v (users w) ->
  username (doc v) = trim (reg_username b)
  \/ email (doc v) = toLowerCase (reg_email b) ->
  registerUser E b w
  = (Ok (reply 400 (PError "Username or Email already exists")), w).
Proof.
  intros _ Hin Hv.
  destruct (registerUser_cases E b w) as [(_ & _ & _ & H)|[(Hf & _)|(Hf & _)]];
    [exact H| |];
    pose proof (find_none _ _ Hf v Hin) as Hn; cbv beta in Hn;
    apply orb_false_iff in Hn as [Hn1 Hn2];
    apply String.eqb_neq in Hn1, Hn2; destruct Hv; contradiction.
Qed.

(** X2.  A registration with an ASCII user name and e-mail address that is
    answered 201 appended exactly one record, under the next primary key:
    its user name is the trimmed one of the body, its e-mail address the
    lower-cased one, its hash the bcrypt hash of the password of the body
    (and not empty), it has no wallet address, it passed the validators and
    shares user name and e-mail address with no earlier record.  The
    response carries that stored record as it is, hash included. *)
Theorem register_creates_account (E : Env) (b : RegisterBody) (w w' : World) (r : Reply) :
  asciiAccount b ->
  registerUser E b w = (Ok r, w') ->
  code r = 201 ->
  exists u p,
    payload r = PRegistered "User registered successfully" u
    /\ users w' = (users w ++ [u])%list
    /\ _id u = nextId w
    /\ username (doc u) = trim (reg_username b)
    /\ email (doc u) = toLowerCase (reg_email b)
    /\ reg_password b = Some p
    /\ passwordHash (doc u) = bcryptHash E p (genSalt E (randomReads w))
    /\ isEmpty (passwordHash (doc u)) = false
    /\ walletAddress (doc u) = None
    /\ createdAt (doc u) = Some (clock E (dateReads w))
    /\ validate (doc u) = true
    /\ forall v, In v (users w) ->
         username (doc v) <> username (doc u) /\ email (doc v) <> email (doc u).
Proof.
  intros _ H Hc.
  destruct (registerUser_cases E b w)
    as [(_ & _ & _ & H1)|[(_ & _ & w1 & _ & _ & H1)
                         |(Hf & p & d & w1 & Hp & Hd & Hv & Hu & _ & H1)]];
    rewrite H1 in H; injection H as <- <-; try discriminate Hc.
  destruct (documentOf_account _ _ _ Hd) as (Hn & He & Hh & Hw & Hca & _).
  pose proof (validate_account _ Hv) as (_ & _ & _ & Hpw).
  eexists _, p. split; [reflexivity|]. split; [exact Hu|]. cbn.
  rewrite Hn, He, Hh, Hw, Hca. repeat split; try reflexivity.
  - exact Hp.
  - cbn in Hpw. rewrite Hh in Hpw. exact Hpw.
  - exact Hv.
  - pose proof (find_none _ _ Hf v H) as Hx. cbv beta in Hx.
    apply orb_false_iff in Hx as [_ Hx]. apply String.eqb_neq in Hx. exact Hx.
  - pose proof (find_none _ _ Hf v H) as Hx. cbv beta in Hx.
    apply orb_false_iff in Hx as [Hx _]. apply String.eqb_neq in Hx. exact Hx.
Qed.

(** X3.  [registerUser] answers every request, with 201, 400 or 500; unless
    the answer is 201 the collection is as it was, and a 400 leaves the
    whole world as it was. *)
Theorem register_failure_writes_nothing (E : Env) (b : RegisterBody) (w : World) :
  exists r w',
    registerUser E b w = (Ok r, w')
    /\ (code r = 201 \/ code r = 400 \/ code r = 500)
    /\ (code r <> 201 -> users w' = users w)
    /\ (code r = 400 -> w' = w).
Proof.
  destruct (registerUser_cases E b w)
    as [(_ & _ & _ & H1)|[(_ & _ & w1 & Hu & _ & H1)
                         |(_ & p & d & w1 & _ & _ & _ & _ & _ & H1)]];
    rewrite H1; eexists _, _; (split; [reflexivity|]); cbn.
  - repeat split; auto.
  - repeat split; auto. discriminate.
  - repeat split; auto; [congruence|discriminate].
Qed.

(** X4.  The 500 of a registration with an ASCII user name and e-mail
    address is never the unique index: when [registerUser] answers 500, its
    own lookup has seen that user name and e-mail address are free, and
    the password was not a string (bcrypt throws), or the body lacked a
    path the schema requires, or the document was refused by a validator. *)
Theorem register_error_is_validation (E : Env) (b : RegisterBody) (w w' : World) (r : Reply) :
  asciiAccount b ->
  registerUser E b w = (Ok r, w') ->
  code r = 500 ->
  findOneByEmailOrUsername (reg_email b) (reg_username b) (users w) = None
  /\ (reg_password b = None
      \/ exists p,
           reg_password b = Some p
           /\ let h := bcryptHash E p (genSalt E (randomReads w)) in
              documentOf b h = None
              \/ exists d, documentOf b h = Some d
                   /\ validate (applyDefaults (clock E (dateReads w)) (applySetters d))
                      = false).
Proof.
  intros _ H Hc.
  destruct (registerUser_cases E b w)
    as [(_ & _ & _ & H1)|[(Hf & Hd & w1 & _ & _ & H1)
                         |(_ & p & d & w1 & _ & _ & _ & _ & _ & H1)]];
    rewrite H1 in H; injection H as <- <-; try discriminate Hc.
  split; [exact Hf|]. destruct Hd as [Hp|(p & Hp & Hd)]; [left; exact Hp|].
  right. exists p. split; [exact Hp|]. cbv zeta.
  destruct (documentOf b _) as [d|].
  - right. exists d. split; [reflexivity|exact Hd].
  - left. reflexivity.
Qed.

(** X5.  An optional enumerated field sent as the empty string (what a form
    sends for a selection not made) is refused by the [enum] validator:
    the registration is answered 400 or 500, never 201, and no record is
    created, whatever the rest of the body. *)
Theorem register_unselected_enum_refused (E : Env) (b : RegisterBody) (w : World) :
  reg_educationalQualification b = Some EmptyString
  \/ reg_languagePreference b = Some EmptyString
  \/ reg_communicationMethod b = Some EmptyString
  \/ reg_maritalStatus b = Some EmptyString ->
  exists r w',
    registerUser E b w = (Ok r, w')
    /\ (code r = 400 \/ code r = 500)
    /\ users w' = users w.
Proof.
  intros Hb.
  destruct (registerUser_cases E b w)
    as [(_ & _ & _ & H1)|[(_ & _ & w1 & Hu & _ & H1)
                         |(_ & p & d & w1 & _ & Hd & Hv & _ & _ & H1)]].
  - rewrite H1. eexists _, _. split; [reflexivity|]. cbn. auto.
  - rewrite H1. eexists _, _. split; [reflexivity|]. cbn. auto.
  - exfalso.
    destruct (documentOf_account _ _ _ Hd) as (_ & _ & _ & _ & _ & Q1 & Q2 & Q3 & Q4).
    destruct (validate_optional _ Hv) as (V1 & V2 & V3 & V4).
    cbn in V1, V2, V3, V4. rewrite Q1 in V1. rewrite Q2 in V2.
    rewrite Q3 in V3. rewrite Q4 in V4.
    destruct Hb as [Hb|[Hb|[Hb|Hb]]]; rewrite Hb in *; discriminate.
Qed.

(** ** Password login *)

Section Login.

Variable E : Env.

Opaque perform.

(** [loginUser], run. *)
Lemma run_loginUser (req : LoginRequest) (w : World) :
  run E (loginUser req) w =
  let w1 := logged EvFindOne w in
  let denied := json 400 (ErrorBody "Invalid credentials") in
  match findOneByUsername (body_username req) (users w) with
  | None => (Returns denied, w1)
  | Some u =>
      if bcryptCompare E (body_password req) (passwordHash (doc u)) then
        match JWT_SECRET E with
        | None => (Returns (json 500 (ErrorBody "Server error")), w1)
        | Some key =>
            if isEmpty key then (Returns (json 500 (ErrorBody "Server error")), w1)
            else (Returns (json 200 (LoginBody
                             (sessionToken (loginClaims u) (clock E (dateReads w)) 3600 key)
                             u)),
                  logged (EvJwtSign (_id u)) (tickDate w1))
        end
      else (Returns denied, w1)
  end.
Proof.
  unfold loginUser. simpl. call_step.
  destruct (findOneByUsername _ _) as [u|]; simpl; [|reflexivity].
  call_step. destruct (bcryptCompare E _ _); simpl; [|reflexivity].
  rewrite perform_JwtSign. change (ms "1h") with (Some 3600000%Z).
  destruct (JWT_SECRET E) as [key|]; [destruct (isEmpty key)|]; reflexivity.
Qed.

Lemma loginUser_sameStore (req : LoginRequest) (w : World) :
  sameStore w (snd (run E (loginUser req) w)).
Proof.
  rewrite run_loginUser. cbv zeta.
  destruct (findOneByUsername _ _) as [u|]; [|split; reflexivity].
  destruct (bcryptCompare E _ _); [|split; reflexivity].
  destruct (JWT_SECRET E) as [key|]; [destruct (isEmpty key)|]; split; reflexivity.
Qed.

Transparent perform.

End Login.

(** X6.  Register, then log in: when [bcrypt.compare] accepts the hash
    that [bcrypt.hash] made of the password, and there is a signing secret,
    the ASCII user name and the password of a registration answered 201 log
    in at once; the login is answered 200 with the very record the
    registration returned and a token for its key, user name and e-mail
    address. *)
Theorem register_then_login (E : Env) (b : RegisterBody) (w w' : World) (r : Reply) :
  asciiAccount b ->
  bcryptCompare E (passwordOf b)
    (bcryptHash E (passwordOf b) (genSalt E (randomReads w))) = true ->
  signable E ->
  registerUser E b w = (Ok r, w') ->
  code r = 201 ->
  exists tok u w'',
    run E (loginUser (loginOf b)) w' = (Returns (json 200 (LoginBody tok u)), w'')
    /\ payload r = PRegistered "User registered successfully" u
    /\ tokUserId tok = _id u
    /\ tokUsername tok = trim (reg_username b)
    /\ tokEmail tok = toLowerCase (reg_email b)
    /\ users w'' = users w'.
Proof.
  intros _ Hb (key & Hk & Hne) H Hc.
  destruct (registerUser_cases E b w)
    as [(_ & _ & _ & H1)|[(_ & _ & w1 & _ & _ & H1)
                         |(Hf & p & d & w1 & Hp & Hd & Hv & Hu & _ & H1)]];
    rewrite H1 in H; injection H as <- <-; try discriminate Hc.
  destruct (documentOf_account _ _ _ Hd) as (Hn & He & Hh & _).
  unfold passwordOf in Hb. rewrite Hp in Hb.
  rewrite run_loginUser. cbv zeta.
  unfold loginOf, passwordOf. rewrite Hp. cbn [body_username body_password].
  cbv zeta in Hu. rewrite Hu.
  unfold findOneByUsername. rewrite find_app_new.
  - cbn [doc].
    replace (passwordHash (applyDefaults _ (applySetters d))) with (passwordHash d)
      by reflexivity.
    rewrite Hh, Hb, Hk, Hne.
    eexists _, _, _. split; [reflexivity|].
    cbn. rewrite Hn, He. repeat split. rewrite Hu. reflexivity.
  - destruct (find _ (users w)) as [v|] eqn:Hx; [|reflexivity].
    apply find_some in Hx as [Hin Hx].
    pose proof (find_none _ _ Hf v Hin) as Hy. cbv beta in Hy.
    apply orb_false_iff in Hy as [_ Hy]. congruence.
  - cbn. rewrite Hn. apply String.eqb_refl.
Qed.

(** X7.  A login with an unknown user name and a login with a wrong
    password cannot be told apart: same response (400 "Invalid
    credentials"), same world afterwards. *)
Theorem login_failures_alike (E : Env) (w : World) (unknown wrong : LoginRequest) (u : User) :
  findOneByUsername (body_username unknown) (users w) = None ->
  findOneByUsername (body_username wrong) (users w) = Some u ->
  bcryptCompare E (body_password wrong) (passwordHash (doc u)) = false ->
  run E (loginUser unknown) w = run E (loginUser wrong) w
  /\ fst (run E (loginUser unknown) w) = Returns (json 400 (ErrorBody "Invalid credentials")).
Proof.
  intros H1 H2 H3. rewrite !run_loginUser. cbv zeta. rewrite H1, H2, H3.
  split; reflexivity.
Qed.

(** X8.  A login with an ASCII user name that is answered 200 found a
    stored record under the trimmed user name whose hash [bcrypt.compare]
    accepted for the password; the response carries that record whole, its
    password hash included, and a token for its key, user name and e-mail
    address with no wallet address; the collection is not changed. *)
Theorem login_returns_stored_record (E : Env) (req : LoginRequest) (w w' : World)
    (r : Response) :
  isAscii (body_username req) = true ->
  run E (loginUser req) w = (Returns r, w') ->
  status r = 200 ->
  exists tok u,
    body r = LoginBody tok u
    /\ In u (users w)
    /\ username (doc u) = trim (body_username req)
    /\ bcryptCompare E (body_password req) (passwordHash (doc u)) = true
    /\ tokUserId tok = _id u
    /\ tokUsername tok = username (doc u)
    /\ tokEmail tok = email (doc u)
    /\ tokWalletAddress tok = None
    /\ users w' = users w.
Proof.
  intros _. rewrite run_loginUser. cbv zeta.
  destruct (findOneByUsername _ _) as [u|] eqn:Hf.
  2:{ intros H Hs. injection H as <- _. discriminate Hs. }
  destruct (bcryptCompare E _ _) eqn:Hb.
  2:{ intros H Hs. injection H as <- _. discriminate Hs. }
  apply find_some in Hf as [Hin Hu]. apply String.eqb_eq in Hu.
  destruct (JWT_SECRET E) as [key|]; [destruct (isEmpty key)|];
    intros H Hs; injection H as <- <-; try discriminate Hs.
  eexists _, u. repeat split; try reflexivity; assumption.
Qed.
(** ** Lookup, update and deletion by key *)

Section ByKey.

(** Where [findById] finds a record, and what [replaceById] and
    [removeById] do there. *)
Lemma findById_split (id : ObjectId) (us : list User) (u : User) :
  findById id us = Some u ->
  exists l1 l2,
    us = (l1 ++ u :: l2)%list /\ _id u = id
    /\ (forall v, In v l1 -> _id v <> id)
    /\ (forall f, replaceById id f us
                  = (l1 ++ {| _id := _id u; doc := f (doc u) |} :: l2)%list)
    /\ removeById id us = (l1 ++ l2)%list.
Proof.
  unfold findById. induction us as [|x us IH]; [discriminate|].
  cbn [find replaceById removeById]. destruct (N.eqb (_id x) id) eqn:Hx.
  - intros H; injection H as ->. apply N.eqb_eq in Hx.
    exists [], us. split; [reflexivity|]. split; [exact Hx|].
    split; [intros v []|]. split; reflexivity.
  - intros H. destruct (IH H) as (l1 & l2 & -> & Hid & Hl & Hr & Hd).
    apply N.eqb_neq in Hx.
    exists (x :: l1), l2. split; [reflexivity|]. split; [exact Hid|].
    split; [|split].
    + intros v [<-|Hv]; auto.
    + intros f. rewrite Hr. reflexivity.
    + rewrite Hd. reflexivity.
Qed.

Lemma findById_none (id : ObjectId) (us : list User) :
  findById id us = None ->
  (forall v, In v us -> _id v <> id)
  /\ (forall f, replaceById id f us = us) /\ removeById id us = us.
Proof.
  unfold findById. induction us as [|x us IH]; [repeat split; auto; intros v []|].
  cbn [find replaceById removeById]. destruct (N.eqb (_id x) id) eqn:Hx; [discriminate|].
  intros H. destruct (IH H) as (Hl & Hr & Hd). apply N.eqb_neq in Hx.
  split; [|split].
  - intros v [<-|Hv]; auto.
  - intros f. rewrite Hr. reflexivity.
  - rewrite Hd. reflexivity.
Qed.

(** With unique keys, the record [findById] finds is the only one with
    the key. *)
Lemma findById_unique (id : ObjectId) (l1 l2 : list User) (u v : User) :
  NoDup (map _id (l1 ++ u :: l2)) -> In v (l1 ++ l2) -> _id v <> _id u.
Proof.
  rewrite map_app. cbn [map]. intros Hn Hv Heq.
  apply NoDup_remove_2 in Hn. apply Hn. rewrite <- map_app, <- Heq.
  apply in_map. exact Hv.
Qed.

Lemma findById_In (id : ObjectId) (us : list User) (u : User) :
  NoDup (map _id us) -> In u us -> findById (_id u) us = Some u.
Proof.
  unfold findById. induction us as [|x us IH]; [intros _ []|].
  cbn [map find]. intros Hn [->|Hin].
  - rewrite N.eqb_refl. reflexivity.
  - inversion Hn as [|? ? Hx Hn']; subst.
    destruct (N.eqb (_id x) (_id u)) eqn:He; [|auto].
    apply N.eqb_eq in He. exfalso. apply Hx. rewrite He. apply in_map. exact Hin.
Qed.

(** The handlers, run. *)
Lemma getUsers_eq (q : option string) (w : World) :
  getUsers q w =
  (Ok match q with
      | Some (String c s) =>
          match findOneByUsername (String c s) (users w) with
          | None => reply 404 (PError "User not found")
          | Some u => reply 200 (PUserObject (eraseHash u))
          end
      | _ => reply 200 (PUsers (map eraseHash (users w)))
      end, w).
Proof.
  unfold getUsers, attempt, andThen. destruct q as [[|c s]|]; try reflexivity.
  destruct (findOneByUsername _ _); reflexivity.
Qed.

Lemma getUserById_eq (id : option ObjectId) (w : World) :
  getUserById id w =
  (Ok match id with
      | None => reply 500 (PError "Server error")
      | Some i =>
          match findById i (users w) with
          | None => reply 404 (PError "User not found")
          | Some u => reply 200 (PUser (eraseHash u))
          end
      end, w).
Proof.
  unfold getUserById, attempt, andThen. destruct id as [i|]; [|reflexivity].
  cbn. destruct (findById _ _); reflexivity.
Qed.

Lemma updateUser_eq (id : option ObjectId) (b : UpdateBody) (w : World) :
  updateUser id b w =
  match id with
  | None => (Ok (reply 500 (PError "Server error")), w)
  | Some i =>
      match findById i (users w) with
      | None => (Ok (reply 404 (PError "User not found")), w)
      | Some u =>
          let d' := applyUpdate (upd_username b) (upd_email b) (doc u) in
          if updateClashes u d' (users w)
          then (Ok (reply 500 (PError "Server error")), w)
          else (Ok (reply 200 (PUpdated "User updated" (eraseHash {| _id := _id u; doc := d' |}))),
                withUsers (replaceById i (applyUpdate (upd_username b) (upd_email b))
                             (users w)) w)
      end
  end.
Proof.
  unfold updateUser, attempt, andThen, findByIdAndUpdate.
  destruct id as [i|]; [|reflexivity]. cbn [castId done].
  destruct (findById _ _); [|reflexivity]. cbv zeta.
  destruct (updateClashes _ _ _); reflexivity.
Qed.

Lemma deleteUser_eq (id : option ObjectId) (w : World) :
  deleteUser id w =
  match id with
  | None => (Ok (reply 500 (PError "Server error")), w)
  | Some i =>
      match findById i (users w) with
      | None => (Ok (reply 404 (PError "User not found")), w)
      | Some u => (Ok (reply 200 (PMessage "User deleted")),
                   withUsers (removeById i (users w)) w)
      end
  end.
Proof.
  unfold deleteUser, attempt, andThen, findByIdAndDelete.
  destruct id as [i|]; [|reflexivity]. cbn [castId done].
  destruct (findById _ _); reflexivity.
Qed.

End ByKey.
Lemma findById_absent (id : ObjectId) (us : list User) :
  (forall v, In v us -> _id v <> id) -> findById id us = None.
Proof.
  intros H. unfold findById. destruct (find _ us) as [v|] eqn:Hf; [|reflexivity].
  apply find_some in Hf as [Hin Hv]. apply N.eqb_eq in Hv. destruct (H v Hin Hv).
Qed.

(** X9.  The endpoints that read ([loginUser], [getUsers], [getUserById])
    leave every record and the key generator as they were, whatever they
    answer. *)
Theorem reads_change_nothing (E : Env) (r : ApiRequest) (w : World) :
  readOnly r = true ->
  users (serve E r w) = users w /\ nextId (serve E r w) = nextId w.
Proof.
  destruct r as [b|b|b|q|id|id b|id]; try discriminate; intros _; cbn [serve].
  - apply loginUser_sameStore.
  - rewrite getUsers_eq. split; reflexivity.
  - rewrite getUserById_eq. split; reflexivity.
Qed.

(** X10.  No response of [getUsers], [getUserById] or [updateUser] shows a
    password hash: every record in their bodies has the field removed. *)
Theorem lookups_hide_hash (q : option string) (id : option ObjectId) (b : UpdateBody)
    (w : World) (r : Reply) (u : User) :
  fst (getUsers q w) = Ok r \/ fst (getUserById id w) = Ok r
  \/ fst (updateUser id b w) = Ok r ->
  In u (exposed (payload r)) ->
  passwordHash (doc u) = EmptyString.
Proof.
  rewrite getUsers_eq, getUserById_eq, updateUser_eq. cbn [fst].
  intros [H|[H|H]].
  - injection H as <-. destruct q as [[|c s]|]; cbn.
    + intros Hin. apply in_map_iff in Hin as (v & <- & _). reflexivity.
    + destruct (findOneByUsername _ _); cbn; [intros [<-|[]]; reflexivity|intros []].
    + intros Hin. apply in_map_iff in Hin as (v & <- & _). reflexivity.
  - injection H as <-. destruct id as [i|]; cbn; [|intros []].
    destruct (findById _ _); cbn; [intros [<-|[]]; reflexivity|intros []].
  - destruct id as [i|]; [|injection H as <-; intros []].
    destruct (findById _ _) as [v|]; [|injection H as <-; intros []].
    cbv zeta in H. destruct (updateClashes _ _ _); injection H as <-; cbn;
      [intros []|intros [<-|[]]; reflexivity].
Qed.

(** X11.  Register, then look up: after a registration answered 201,
    [GET /api/users?username=] with the user name of the body finds the
    new record and shows it without its hash, and changes nothing. *)
Theorem register_then_lookup (E : Env) (b : RegisterBody) (w w' : World) (r : Reply) :
  registerUser E b w = (Ok r, w') ->
  code r = 201 ->
  exists u,
    payload r = PRegistered "User registered successfully" u
    /\ getUsers (Some (reg_username b)) w'
       = (Ok (reply 200 (PUserObject (withoutPasswordHash u))), w').
Proof.
  intros H Hc.
  destruct (registerUser_cases E b w)
    as [(_ & _ & _ & H1)|[(_ & _ & w1 & _ & _ & H1)
                         |(Hf & p & d & w1 & _ & Hd & Hv & Hu & _ & H1)]];
    rewrite H1 in H; injection H as <- <-; try discriminate Hc.
  destruct (documentOf_account _ _ _ Hd) as (Hn & _).
  pose proof (validate_account _ Hv) as (Hne & _).
  eexists. split; [reflexivity|]. rewrite getUsers_eq.
  cbn in Hne. rewrite Hn in Hne.
  destruct (reg_username b) as [|c s] eqn:Hb; [discriminate Hne|].
  cbv zeta in Hu. rewrite Hu. unfold findOneByUsername. rewrite find_app_new.
  - reflexivity.
  - destruct (find _ (users w)) as [v|] eqn:Hx; [|reflexivity].
    apply find_some in Hx as [Hin Hx].
    pose proof (find_none _ _ Hf v Hin) as Hy. cbv beta in Hy.
    apply orb_false_iff in Hy as [_ Hy]. congruence.
  - cbn. rewrite Hn. apply String.eqb_refl.
Qed.

(** X12.  [updateUser] changes at most the user name and the e-mail address
    of the record it is addressed to: every record keeps its key, its
    place and every other field (the [aadhaarNumber] of the body reaches no
    field), the records under other keys stay as they are, and no key is
    drawn. *)
Theorem update_changes_names_only (id : option ObjectId) (b : UpdateBody) (w : World) :
  let w' := snd (updateUser id b w) in
  map forgetNames (users w') = map forgetNames (users w)
  /\ nextId w' = nextId w
  /\ forall v, In v (users w) -> Some (_id v) <> id -> In v (users w').
Proof.
  rewrite updateUser_eq. destruct id as [i|]; [|repeat split; auto].
  destruct (findById i (users w)) as [u|] eqn:Hf; [|repeat split; auto].
  cbv zeta. destruct (updateClashes _ _ _); [repeat split; auto|].
  destruct (findById_split _ _ _ Hf) as (l1 & l2 & Hus & Hid & _ & Hr & _).
  cbn [snd users withUsers nextId]. rewrite Hr, Hus.
  split; [|split; [reflexivity|]].
  - rewrite !map_app. reflexivity.
  - intros v Hin Hv. apply in_elt_inv in Hin as [->|Hin].
    + congruence.
    + apply in_app_iff in Hin as [Hin|Hin]; apply in_app_iff;
        [left|right; right]; exact Hin.
Qed.

(** X13.  An update whose user name and e-mail address are ASCII strings,
    to a user name or an e-mail address that another record holds, is
    refused by the unique index: the answer is 500 "Server error", and the
    world is as it was. *)
Theorem update_conflict_refused (i : ObjectId) (b : UpdateBody) (w : World) (u v : User) :
  asciiUpdate b ->
  findById i (users w) = Some u ->
  In v (users w) -> _id v <> _id u ->
  (exists n, upd_username b = Some n
     /\ username (doc v) = trim n /\ username (doc u) <> trim n)
  \/ (exists e, upd_email b = Some e
        /\ email (doc v) = toLowerCase e /\ email (doc u) <> toLowerCase e) ->
  updateUser (Some i) b w = (Ok (reply 500 (PError "Server error")), w).
Proof.
  intros _ Hf Hin Hid Hc. rewrite updateUser_eq, Hf. cbv zeta.
  replace (updateClashes _ _ _) with true; [reflexivity|].
  symmetry. apply existsb_exists. exists v. split; [exact Hin|].
  apply andb_true_iff. split; [apply negb_true_iff, N.eqb_neq; exact Hid|].
  apply orb_true_iff.
  destruct Hc as [(n & Hb & Hv & Hu)|(e & Hb & Hv & Hu)]; [left|right];
    rewrite Hb; cbn; apply andb_true_iff; split;
    try (apply negb_true_iff, String.eqb_neq; congruence);
    apply String.eqb_eq; exact Hv.
Qed.

(** X15.  With unique keys, [deleteUser] under the key of a stored record
    answers 200 "User deleted" and removes that record and no other; the
    key is then unknown to [getUserById] and to a second [deleteUser],
    which answer 404. *)
Theorem delete_removes_record (i : ObjectId) (w : World) (u : User) :
  NoDup (map _id (users w)) ->
  findById i (users w) = Some u ->
  exists w',
    deleteUser (Some i) w = (Ok (reply 200 (PMessage "User deleted")), w')
    /\ (forall v, In v (users w') <-> In v (users w) /\ _id v <> i)
    /\ nextId w' = nextId w
    /\ getUserById (Some i) w' = (Ok (reply 404 (PError "User not found")), w')
    /\ deleteUser (Some i) w' = (Ok (reply 404 (PError "User not found")), w').
Proof.
  intros Hn Hf. rewrite deleteUser_eq, Hf.
  destruct (findById_split _ _ _ Hf) as (l1 & l2 & Hus & Hid & Hl & _ & Hd).
  eexists. split; [reflexivity|]. rewrite Hd.
  assert (Hrest : forall v, In v (l1 ++ l2) -> _id v <> i).
  { intros v Hv. rewrite <- Hid. rewrite Hus in Hn.
    apply (findById_unique i l1 l2 u v Hn Hv). }
  split; [|split; [reflexivity|]].
  - intros v. cbn [users withUsers]. rewrite Hus. split.
    + intros Hv. split; [|auto]. apply in_app_iff in Hv as [Hv|Hv];
        apply in_app_iff; [left|right; right]; exact Hv.
    + intros [Hv Hne]. apply in_elt_inv in Hv as [->|Hv]; [congruence|exact Hv].
  - rewrite getUserById_eq, deleteUser_eq. cbn [users withUsers].
    rewrite (findById_absent _ _ Hrest). split; reflexivity.
Qed.
(** ** What every request keeps of the collection *)

Section Collection.

Lemma in_wallets (a : string) (us : list User) :
  In a (wallets us) <-> exists v, In v us /\ walletAddress (doc v) = Some a.
Proof.
  unfold wallets. rewrite in_flat_map. split; intros (v & Hin & H); exists v; split; auto.
  - destruct (walletAddress (doc v)) as [x|]; [destruct H as [->|[]]; reflexivity|destruct H].
  - rewrite H. left; reflexivity.
Qed.

Lemma NoDup_swap_elt {B} (l1 l2 : list B) (x y : B) :
  NoDup (l1 ++ x :: l2) -> y = x \/ ~ In y (l1 ++ l2) -> NoDup (l1 ++ y :: l2).
Proof.
  intros Hn [->|Hy]; [exact Hn|]. apply NoDup_remove_1 in Hn.
  apply (NoDup_Add (Add_app y l1 l2)). split; assumption.
Qed.

Lemma NoDup_map_swap {B} (g : User -> B) (l1 l2 : list User) (x y : User) :
  NoDup (map g (l1 ++ x :: l2)) ->
  g y = g x \/ (forall v, In v (l1 ++ l2) -> g v <> g y) ->
  NoDup (map g (l1 ++ y :: l2)).
Proof.
  rewrite !map_app. cbn [map]. intros Hn Hy.
  apply (NoDup_swap_elt _ _ (g x)); [exact Hn|].
  destruct Hy as [Hy|Hy]; [left; exact Hy|right].
  rewrite <- map_app. intros Hin. apply in_map_iff in Hin as (v & Hv & Hin).
  exact (Hy v Hin Hv).
Qed.

Lemma NoDup_map_snoc {B} (g : User -> B) (us : list User) (u : User) :
  NoDup (map g us) -> (forall v, In v us -> g v <> g u) ->
  NoDup (map g (us ++ [u])).
Proof.
  intros Hn Hu. rewrite map_app. cbn [map].
  apply (NoDup_Add (Add_app (g u) (map g us) [])). rewrite app_nil_r.
  split; [exact Hn|]. intros Hin. apply in_map_iff in Hin as (v & Hv & Hin).
  exact (Hu v Hin Hv).
Qed.

Lemma uniqueNames_replace (l1 l2 : list User) (x y : User) :
  uniqueNames (l1 ++ x :: l2) ->
  walletAddress (doc y) = walletAddress (doc x) ->
  username (doc y) = username (doc x)
  \/ (forall v, In v (l1 ++ l2) -> username (doc v) <> username (doc y)) ->
  email (doc y) = email (doc x)
  \/ (forall v, In v (l1 ++ l2) -> email (doc v) <> email (doc y)) ->
  uniqueNames (l1 ++ y :: l2).
Proof.
  intros (Hu & He & Hw) Hwy Hny Hey. split; [|split].
  - apply (NoDup_map_swap _ _ _ x); assumption.
  - apply (NoDup_map_swap _ _ _ x); assumption.
  - unfold wallets in *. rewrite flat_map_app in *. cbn [flat_map] in *.
    rewrite Hwy. exact Hw.
Qed.

Lemma uniqueNames_remove (l1 l2 : list User) (x : User) :
  uniqueNames (l1 ++ x :: l2) -> uniqueNames (l1 ++ l2).
Proof.
  intros (Hu & He & Hw). split; [|split].
  - rewrite map_app in *. exact (NoDup_remove_1 _ _ _ Hu).
  - rewrite map_app in *. exact (NoDup_remove_1 _ _ _ He).
  - unfold wallets in *. rewrite flat_map_app in *. cbn [flat_map] in Hw.
    destruct (walletAddress (doc x)) as [a|]; cbn [app] in Hw.
    + exact (NoDup_remove_1 _ _ _ Hw).
    + exact Hw.
Qed.

(** What a document that meets no unique index differs in. *)
Lemma duplicateKey_false (us : list User) (d : UserDoc) (v : User) :
  duplicateKey us d = false -> In v us ->
  username (doc v) <> username d /\ email (doc v) <> email d
  /\ (forall a, walletAddress d = Some a -> walletAddress (doc v) <> Some a).
Proof.
  intros Hd Hin.
  assert (Hc : clashes d v = false).
  { destruct (clashes d v) eqn:Hc; [|reflexivity].
    assert (duplicateKey us d = true) by (apply existsb_exists; exists v; auto).
    congruence. }
  unfold clashes in Hc.
  apply orb_false_iff in Hc as [Hc Hw]. apply orb_false_iff in Hc as [Hn He].
  apply String.eqb_neq in Hn, He. repeat split; try assumption.
  intros a Ha Hv. rewrite Ha, Hv in Hw. cbn in Hw. rewrite String.eqb_refl in Hw.
  discriminate Hw.
Qed.

Lemma uniqueNames_append (us : list User) (u : User) :
  uniqueNames us -> duplicateKey us (doc u) = false -> uniqueNames (us ++ [u]).
Proof.
  intros (Hu & He & Hw) Hd. split; [|split].
  - apply NoDup_map_snoc; [exact Hu|]. intros v Hin.
    apply (duplicateKey_false _ _ _ Hd Hin).
  - apply NoDup_map_snoc; [exact He|]. intros v Hin.
    apply (duplicateKey_false _ _ _ Hd Hin).
  - unfold wallets. rewrite flat_map_app. cbn [flat_map].
    destruct (walletAddress (doc u)) as [a|] eqn:Ha; cbn [app].
    + apply (NoDup_Add (Add_app a (wallets us) [])). rewrite app_nil_r.
      split; [exact Hw|]. intros Hin. apply in_wallets in Hin as (v & Hin & Hv).
      destruct (duplicateKey_false _ _ _ Hd Hin) as (_ & _ & Hx).
      exact (Hx a Ha Hv).
    + rewrite app_nil_r. exact Hw.
Qed.

Lemma setActivity_split (id : ObjectId) (t : option Date) (us us' : list User) :
  setActivity id t us = Some us' ->
  exists l1 x l2, us = (l1 ++ x :: l2)%list /\ us' = (l1 ++ withActivity t x :: l2)%list.
Proof.
  revert us'; induction us as [|v us IH]; intros us'; [discriminate|].
  unfold setActivity; fold setActivity. destruct (N.eqb (_id v) id).
  - intros H; injection H as <-. exists [], v, us. split; reflexivity.
  - destruct (setActivity id t us) as [us''|]; [|discriminate].
    intros H; injection H as <-.
    destruct (IH _ eq_refl) as (l1 & x & l2 & -> & ->).
    exists (v :: l1), x, l2. split; reflexivity.
Qed.

(** How the invariant is kept by the four things a request can do to the
    collection. *)
Lemma collectionInvariant_idle (w w' : World) :
  collectionInvariant w -> users w' = users w -> (nextId w <= nextId w')%N ->
  collectionInvariant w'.
Proof.
  intros ((Hn & Hlt) & Hu & Hw & Hh) Hus Hid. unfold collectionInvariant, storeInvariant.
  rewrite Hus. split; [split; [exact Hn|]|split; [exact Hu|split; assumption]].
  eapply Forall_impl; [|exact Hlt]. intros u Hl. cbv beta in *. lia.
Qed.

Lemma collectionInvariant_replace (w w' : World) (l1 l2 : list User) (x y : User) :
  collectionInvariant w ->
  users w = (l1 ++ x :: l2)%list -> users w' = (l1 ++ y :: l2)%list ->
  nextId w' = nextId w ->
  _id y = _id x ->
  walletAddress (doc y) = walletAddress (doc x) ->
  passwordHash (doc y) = passwordHash (doc x) ->
  username (doc y) = username (doc x)
  \/ (forall v, In v (l1 ++ l2) -> username (doc v) <> username (doc y)) ->
  email (doc y) = email (doc x)
  \/ (forall v, In v (l1 ++ l2) -> email (doc v) <> email (doc y)) ->
  collectionInvariant w'.
Proof.
  intros ((Hn & Hlt) & Hu & Hw & Hh) Hus Hus' Hid Hy Hwy Hhy Hny Hey.
  unfold collectionInvariant, storeInvariant. rewrite Hus in *. rewrite Hus', Hid.
  split; [split|split; [|split]].
  - rewrite map_app in *. cbn [map] in *. rewrite Hy. exact Hn.
  - apply Forall_app in Hlt as [H1 H2]. apply Forall_app. split; [exact H1|].
    inversion H2 as [|? ? Hx H3]; subst. constructor; [rewrite Hy; exact Hx|exact H3].
  - apply (uniqueNames_replace _ _ x); assumption.
  - apply Forall_app in Hw as [H1 H2]. apply Forall_app. split; [exact H1|].
    inversion H2 as [|? ? Hx H3]; subst. constructor; [|exact H3].
    unfold normalWallet in *. rewrite Hwy. exact Hx.
  - apply Forall_app in Hh as [H1 H2]. apply Forall_app. split; [exact H1|].
    inversion H2 as [|? ? Hx H3]; subst. constructor; [|exact H3].
    unfold hasHash in *. rewrite Hhy. exact Hx.
Qed.

Lemma collectionInvariant_remove (w w' : World) (l1 l2 : list User) (x : User) :
  collectionInvariant w ->
  users w = (l1 ++ x :: l2)%list -> users w' = (l1 ++ l2)%list ->
  nextId w' = nextId w ->
  collectionInvariant w'.
Proof.
  intros ((Hn & Hlt) & Hu & Hw & Hh) Hus Hus' Hid.
  unfold collectionInvariant, storeInvariant. rewrite Hus in *. rewrite Hus', Hid.
  split; [split|split; [|split]].
  - rewrite map_app in *. exact (NoDup_remove_1 _ _ _ Hn).
  - apply Forall_app in Hlt as [H1 H2]. apply Forall_app. split; [exact H1|].
    inversion H2; assumption.
  - exact (uniqueNames_remove _ _ _ Hu).
  - apply Forall_app in Hw as [H1 H2]. apply Forall_app. split; [exact H1|].
    inversion H2; assumption.
  - apply Forall_app in Hh as [H1 H2]. apply Forall_app. split; [exact H1|].
    inversion H2; assumption.
Qed.

Lemma collectionInvariant_append (w w' : World) (u : User) :
  collectionInvariant w ->
  users w' = (users w ++ [u])%list -> nextId w' = N.succ (nextId w) ->
  _id u = nextId w ->
  duplicateKey (users w) (doc u) = false ->
  normalWallet u -> hasHash u ->
  collectionInvariant w'.
Proof.
  intros (Hs & Hu & Hw & Hh) Hus Hid Hk Hd Hnw Hhh.
  split; [|split; [|split]].
  - exact (storeInvariant_create w w' u Hs Hk Hus Hid).
  - rewrite Hus. exact (uniqueNames_append _ _ Hu Hd).
  - rewrite Hus. apply Forall_app. split; [exact Hw|]. constructor; [exact Hnw|constructor].
  - rewrite Hus. apply Forall_app. split; [exact Hh|]. constructor; [exact Hhh|constructor].
Qed.

End Collection.
Section Serving.

Variable E : Env.

Opaque perform validate.

(** What [issue] can do to the collection: nothing, a new activity
    timestamp on one record, or one wallet record more. *)
Lemma issue_effect (a : string) (w : World) :
  wellFormedAddress a ->
  let w' := snd (run E (issue a) w) in
  (users w' = users w /\ (nextId w <= nextId w')%N)
  \/ (exists id t, setActivity id t (users w) = Some (users w') /\ nextId w' = nextId w)
  \/ (exists h t1 t2 now,
        let u := walletRecord (nextId w) a h t1 t2 now in
        users w' = (users w ++ [u])%list /\ nextId w' = N.succ (nextId w)
        /\ duplicateKey (users w) (doc u) = false /\ isEmpty h = false).
Proof.
  intros Ha. cbv zeta.
  destruct (findOneByWallet (toLowerCase a) (users w)) as [u|] eqn:Hf.
  - rewrite (run_issue_found E a u w Hf). cbv zeta.
    destruct (negb (validate _)); [left; split; [reflexivity|cbn [snd nextId logged tickDate tickRandom tickId withUsers]; lia]|].
    destruct (setActivity _ _ _) as [us|] eqn:Hs; [|left; split; [reflexivity|cbn [snd nextId logged tickDate tickRandom tickId withUsers]; lia]].
    destruct (finish E _ _) as [o w'] eqn:Hfin.
    destruct (finish_sameStore E _ _ _ _ Hfin) as [Hu Hn].
    right; left. eexists _, _. cbn [snd]. rewrite Hu, Hn. split; [exact Hs|reflexivity].
  - rewrite (run_issue_missing E a w Hf). cbv zeta.
    rewrite (create_walletUser E _ _ _ _ _ Ha). cbv zeta.
    destruct (isEmpty _) eqn:Hh; [left; split; [reflexivity|cbn [snd nextId logged tickDate tickRandom tickId withUsers]; lia]|].
    cbn [users nextId dateReads tickDate tickRandom logged tickId].
    destruct (duplicateKey _ _) eqn:Hd; [left; split; [reflexivity|cbn [snd nextId logged tickDate tickRandom tickId withUsers]; lia]|].
    destruct (finish E _ _) as [o w'] eqn:Hfin.
    destruct (finish_sameStore E _ _ _ _ Hfin) as [Hu Hn].
    right; right. eexists _, _, _, _. cbn [snd]. rewrite Hu, Hn.
    split; [reflexivity|]. split; [reflexivity|]. split; [exact Hd|exact Hh].
Qed.

Lemma walletAuth_effect (req : Request) (w : World) :
  let w' := snd (run E (walletAuth req) w) in
  (users w' = users w /\ (nextId w <= nextId w')%N)
  \/ (exists id t, setActivity id t (users w) = Some (users w') /\ nextId w' = nextId w)
  \/ (exists a h t1 t2 now,
        let u := walletRecord (nextId w) a h t1 t2 now in
        wellFormedAddress a
        /\ users w' = (users w ++ [u])%list /\ nextId w' = N.succ (nextId w)
        /\ duplicateKey (users w) (doc u) = false /\ isEmpty h = false).
Proof.
  cbv zeta. rewrite run_walletAuth.
  destruct (falsy _ || falsy _ || falsy _); [left; split; [reflexivity|cbn [snd]; lia]|].
  cbv zeta. destruct (test walletAddressPattern _) eqn:Ht; cbn [negb];
    [|left; split; [reflexivity|cbn [snd]; lia]].
  apply walletAddressPattern_spec in Ht.
  assert (Hi : forall w0, users w0 = users w -> nextId w0 = nextId w ->
    let w' := snd (run E (issue (str (body_walletAddress req))) w0) in
    (users w' = users w /\ (nextId w <= nextId w')%N)
    \/ (exists id t, setActivity id t (users w) = Some (users w') /\ nextId w' = nextId w)
    \/ (exists a h t1 t2 now,
          let u := walletRecord (nextId w) a h t1 t2 now in
          wellFormedAddress a
          /\ users w' = (users w ++ [u])%list /\ nextId w' = N.succ (nextId w)
          /\ duplicateKey (users w) (doc u) = false /\ isEmpty h = false)).
  { intros w0 Hu Hn. cbv zeta.
    destruct (issue_effect _ w0 Ht) as [H|[(id & t & H)|(h & t1 & t2 & now & H)]];
      cbv zeta in H; rewrite Hu, Hn in H.
    - left. exact H.
    - right; left. exists id, t. exact H.
    - right; right. eexists _, h, t1, t2, now. split; [exact Ht|exact H]. }
  destruct (verifyMessage E _ _) as [rec|].
  - destruct (negb _); [left; split; [reflexivity|cbn [snd nextId logged tickDate tickRandom tickId withUsers]; lia]|].
    apply Hi; reflexivity.
  - apply Hi; reflexivity.
Qed.

(** Every request keeps the invariant of the collection. *)
Lemma serve_invariant (r : ApiRequest) (w : World) :
  collectionInvariant w -> collectionInvariant (serve E r w).
Proof.
  intros Hinv. destruct r as [b|b|b|q|id|id b|id]; cbn [serve].
  - (* registerUser *)
    destruct (registerUser_cases E b w)
      as [(_ & _ & _ & H1)|[(_ & _ & w1 & Hu & Hn & H1)
                           |(Hf & p & d & w1 & _ & Hd & Hv & Hu & Hn & H1)]];
      rewrite H1; cbn [snd].
    + exact Hinv.
    + apply (collectionInvariant_idle w); [exact Hinv|exact Hu|lia].
    + cbv zeta in Hu.
      destruct (documentOf_account _ _ _ Hd) as (Qn & Qe & _ & Qw & _).
      pose proof (validate_account _ Hv) as (_ & _ & _ & Hp).
      apply (collectionInvariant_append w _ _ Hinv Hu Hn); [reflexivity| | |].
      * apply (noAccount_free (reg_email b) (reg_username b)); try assumption;
          cbn; rewrite ?Qn, ?Qe, ?Qw; reflexivity.
      * intros a Ha. cbn in Ha. rewrite Qw in Ha. discriminate Ha.
      * exact Hp.
  - (* loginUser *)
    destruct (loginUser_sameStore E b w) as [Hu Hn].
    apply (collectionInvariant_idle w); [exact Hinv|exact Hu|lia].
  - (* walletAuth *)
    destruct (walletAuth_effect b w)
      as [[Hu Hn]|[(id & t & Hs & Hn)|(a & h & t1 & t2 & now & Ha & Hu & Hn & Hd & Hh)]].
    + apply (collectionInvariant_idle w); assumption.
    + destruct (setActivity_split _ _ _ _ Hs) as (l1 & x & l2 & Hus & Hus').
      apply (collectionInvariant_replace w _ l1 l2 x (withActivity t x)); auto.
    + apply (collectionInvariant_append w _ _ Hinv Hu Hn); [reflexivity|exact Hd| |exact Hh].
      intros x Hx. cbn in Hx. injection Hx as <-.
      split; [apply wellFormedAddress_lower; exact Ha|apply toLowerCase_idem].
  - (* getUsers *)
    rewrite getUsers_eq. exact Hinv.
  - (* getUserById *)
    rewrite getUserById_eq. exact Hinv.
  - (* updateUser *)
    rewrite updateUser_eq. destruct id as [i|]; [|exact Hinv].
    destruct (findById i (users w)) as [u|] eqn:Hf; [|exact Hinv].
    cbv zeta. destruct (updateClashes _ _ _) eqn:Hc; [exact Hinv|].
    destruct (findById_split _ _ _ Hf) as (l1 & l2 & Hus & Hid & _ & Hr & _).
    cbn [snd].
    assert (Hother : forall v, In v (l1 ++ l2) ->
              (negb (String.eqb (username (applyUpdate (upd_username b) (upd_email b) (doc u)))
                      (username (doc u)))
               && String.eqb (username (doc v))
                    (username (applyUpdate (upd_username b) (upd_email b) (doc u))))
              || (negb (String.eqb (email (applyUpdate (upd_username b) (upd_email b) (doc u)))
                         (email (doc u)))
                  && String.eqb (email (doc v))
                       (email (applyUpdate (upd_username b) (upd_email b) (doc u))))
              = false).
    { intros v Hv.
      assert (Hne : _id v <> _id u).
      { destruct Hinv as ((Hnd & _) & _). rewrite Hus in Hnd.
        exact (findById_unique i l1 l2 u v Hnd Hv). }
      assert (Hin : In v (users w)).
      { rewrite Hus. apply in_app_iff in Hv as [Hv|Hv]; apply in_app_iff;
          [left|right; right]; exact Hv. }
      unfold updateClashes in Hc.
      destruct (_ || _) eqn:Hx; [|reflexivity].
      assert (Ht : existsb
                (fun v0 => negb (N.eqb (_id v0) (_id u))
                   && ((negb (String.eqb (username (applyUpdate (upd_username b) (upd_email b) (doc u)))
                          (username (doc u)))
                       && String.eqb (username (doc v0))
                            (username (applyUpdate (upd_username b) (upd_email b) (doc u))))
                      || (negb (String.eqb (email (applyUpdate (upd_username b) (upd_email b) (doc u)))
                                 (email (doc u)))
                          && String.eqb (email (doc v0))
                               (email (applyUpdate (upd_username b) (upd_email b) (doc u))))))
                (users w) = true).
      { apply existsb_exists. exists v. split; [exact Hin|].
        rewrite Hx. apply N.eqb_neq in Hne. rewrite Hne. reflexivity. }
      congruence. }
    apply (collectionInvariant_replace w _ l1 l2 u
             {| _id := _id u; doc := applyUpdate (upd_username b) (upd_email b) (doc u) |}
             Hinv Hus); try reflexivity.
    + cbn [users withUsers]. apply Hr.
    + cbn [_id doc].
      destruct (String.eqb (username (applyUpdate (upd_username b) (upd_email b) (doc u)))
                  (username (doc u))) eqn:He.
      * left. apply String.eqb_eq. exact He.
      * right. intros v Hv. specialize (Hother v Hv). rewrite ?He in Hother.
        apply orb_false_iff in Hother as [Ho _]. cbn [negb andb] in Ho.
        apply String.eqb_neq. exact Ho.
    + cbn [_id doc].
      destruct (String.eqb (email (applyUpdate (upd_username b) (upd_email b) (doc u)))
                  (email (doc u))) eqn:He.
      * left. apply String.eqb_eq. exact He.
      * right. intros v Hv. specialize (Hother v Hv). rewrite ?He in Hother.
        apply orb_false_iff in Hother as [_ Ho]. cbn [negb andb] in Ho.
        apply String.eqb_neq. exact Ho.
  - (* deleteUser *)
    rewrite deleteUser_eq. destruct id as [i|]; [|exact Hinv].
    destruct (findById i (users w)) as [u|] eqn:Hf; [|exact Hinv].
    destruct (findById_split _ _ _ Hf) as (l1 & l2 & Hus & _ & _ & _ & Hd).
    cbn [snd]. apply (collectionInvariant_remove w _ l1 l2 u Hinv Hus); [|reflexivity].
    cbn [users withUsers]. exact Hd.
Qed.

Lemma serveAll_invariant (rs : list ApiRequest) (w : World) :
  collectionInvariant w -> collectionInvariant (serveAll E rs w).
Proof.
  unfold serveAll. revert w. induction rs as [|r rs IH]; intros w Hinv; [exact Hinv|].
  cbn [fold_left]. apply IH, serve_invariant, Hinv.
Qed.

Transparent perform validate.

End Serving.
(** ** How the endpoints compose *)

Section Composition.

Variable E : Env.

Opaque perform validate.

Lemma find_replace (P : User -> bool) (l1 l2 : list User) (x y : User) :
  NoDup (map _id (l1 ++ x :: l2)) -> find P (l1 ++ x :: l2) = Some x -> P y = P x ->
  find P (l1 ++ y :: l2) = Some y.
Proof.
  induction l1 as [|a l1 IH]; cbn [app map find]; intros Hn Hf Hy.
  - rewrite Hy. destruct (P x); [reflexivity|].
    apply find_some in Hf as [Hin _]. inversion Hn as [|? ? Hx _]; subst.
    exfalso. apply Hx. apply in_map. exact Hin.
  - inversion Hn as [|? ? Ha Hn']; subst. destruct (P a).
    + injection Hf as ->. exfalso. apply Ha. rewrite map_app.
      apply in_or_app. right. left. reflexivity.
    + apply IH; assumption.
Qed.

Lemma accepted_issue (req : Request) (a : string) (w : World) :
  accepted E req a ->
  wellFormedAddress a
  /\ exists w0, sameButLog w w0 /\ run E (walletAuth req) w = run E (issue a) w0.
Proof.
  intros (m & s & Ha & Hm & Hs & Hme & Hse & Hwf & Hv). split; [exact Hwf|].
  exact (walletAuth_accepted E req w a m s Ha Hm Hs Hme Hse Hwf Hv).
Qed.

(** A record whose e-mail address no validator would accept cannot be
    saved. *)
Lemma validate_bad_email (d : UserDoc) :
  matches emailPattern (email d) = false -> validate d = false.
Proof.
  intros Hm. destruct (validate d) eqn:Hv; [|reflexivity].
  apply validate_account in Hv as (_ & _ & Hx & _). congruence.
Qed.

(** The wallet authentication of an account whose stored e-mail address is
    not one. *)
Lemma issue_bad_email (a : string) (u : User) (w : World) :
  findOneByWallet (toLowerCase a) (users w) = Some u ->
  matches emailPattern (email (doc u)) = false ->
  exists w', run E (issue a) w = (Returns fail500, w') /\ users w' = users w.
Proof.
  intros Hf Hm. rewrite (run_issue_found E a u w Hf). cbv zeta.
  rewrite validate_bad_email; [|exact Hm]. cbn [negb].
  eexists. split; reflexivity.
Qed.

(** The wallet authentication of an address no record has, without a
    signing secret. *)
Lemma issue_unsigned (a : string) (w : World) :
  wellFormedAddress a ->
  findOneByWallet (toLowerCase a) (users w) = None ->
  ~ signable E ->
  let h := bcryptHash E (randomPassword E (randomReads w)) (genSalt E (S (randomReads w))) in
  let u := walletRecord (nextId w) a h (clock E (dateReads w)) (clock E (S (dateReads w)))
             (clock E (S (S (dateReads w)))) in
  isEmpty h = false ->
  duplicateKey (users w) (doc u) = false ->
  exists w', run E (issue a) w = (Returns fail500, w')
             /\ users w' = (users w ++ [u])%list.
Proof.
  intros Ha Hf Hk h u Hh Hd. rewrite (run_issue_missing E a w Hf). cbv zeta.
  rewrite (create_walletUser E _ _ _ _ _ Ha). cbv zeta.
  cbn [users nextId dateReads randomReads tickDate tickRandom logged tickId].
  fold h. rewrite Hh. fold u. rewrite Hd.
  unfold finish. rewrite perform_JwtSign.
  destruct (JWT_SECRET E) as [key|] eqn:Hs; [destruct (isEmpty key) eqn:He|].
  - eexists. split; reflexivity.
  - destruct Hk. exists key. split; assumption.
  - eexists. split; reflexivity.
Qed.

(** What a 200 of [issue] says of token and user object. *)
Lemma issue_200_consistent (a : string) (w w' : World) (r : Response) :
  wellFormedAddress a ->
  run E (issue a) w = (Returns r, w') -> status r = 200 ->
  exists tok u,
    r = json 200 (WalletAuthBody tok (walletView u))
    /\ walletAddress (doc u) = Some (toLowerCase a)
    /\ tokUserId tok = _id u /\ tokUsername tok = username (doc u)
    /\ tokEmail tok = email (doc u) /\ tokWalletAddress tok = walletAddress (doc u)
    /\ signable E.
Proof.
  intros Ha Hrun Hs.
  destruct (findOneByWallet (toLowerCase a) (users w)) as [u0|] eqn:Hf.
  - rewrite (run_issue_found E a u0 w Hf) in Hrun. cbv zeta in Hrun.
    destruct (negb (validate _)); [injection Hrun as <- _; discriminate Hs|].
    destruct (setActivity _ _ _) as [us|]; [|injection Hrun as <- _; discriminate Hs].
    destruct (finish_200 E _ _ _ _ Hrun Hs) as (tok & -> & _ & _ & _ & Hsig & key & _ & ->).
    destruct (findOneByWallet_address _ _ _ Hf) as [_ Hw].
    rewrite toLowerCase_idem in Hw.
    eexists _, _. split; [reflexivity|]. split; [exact Hw|]. repeat split. exact Hsig.
  - rewrite (run_issue_missing E a w Hf) in Hrun. cbv zeta in Hrun.
    rewrite (create_walletUser E _ _ _ _ _ Ha) in Hrun. cbv zeta in Hrun.
    destruct (isEmpty _); [injection Hrun as <- _; discriminate Hs|].
    destruct (duplicateKey _ _); [injection Hrun as <- _; discriminate Hs|].
    destruct (finish_200 E _ _ _ _ Hrun Hs) as (tok & -> & _ & _ & _ & Hsig & key & _ & ->).
    eexists _, _. split; [reflexivity|]. repeat split. exact Hsig.
Qed.

Transparent perform validate.

End Composition.

(** X14.  [updateUser] runs no validator, [walletAuth] does when it saves:
    an update that puts an ASCII string that is no e-mail address into the
    record of a wallet account is answered 200 and stored (in lower case),
    and from then on every accepted wallet authentication of that address
    is answered 500, the record found but never saved. *)
Theorem update_skips_validation (E : Env) (req : Request) (a e : string) (u : User)
    (b : UpdateBody) (w w1 : World) (r1 : Reply) :
  accepted E req a ->
  asciiUpdate b ->
  NoDup (map _id (users w)) ->
  findOneByWallet (toLowerCase a) (users w) = Some u ->
  upd_email b = Some e ->
  matches emailPattern (toLowerCase e) = false ->
  updateUser (Some (_id u)) b w = (Ok r1, w1) ->
  code r1 = 200 ->
  (exists v, In v (users w1) /\ _id v = _id u /\ email (doc v) = toLowerCase e)
  /\ exists w2, run E (walletAuth req) w1 = (Returns fail500, w2)
                /\ users w2 = users w1.
Proof.
  intros Hacc _ Hn Hf He Hbad Hup Hc.
  destruct (findOneByWallet_address _ _ _ Hf) as [Hin _].
  pose proof (findById_In (_id u) _ _ Hn Hin) as Hk.
  rewrite updateUser_eq, Hk in Hup. cbv zeta in Hup.
  destruct (updateClashes _ _ _); injection Hup as <- <-; [discriminate Hc|].
  destruct (findById_split _ _ _ Hk) as (l1 & l2 & Hus & _ & _ & Hr & _).
  set (u' := {| _id := _id u;
                doc := applyUpdate (upd_username b) (upd_email b) (doc u) |}).
  set (w1 := withUsers (replaceById (_id u) (applyUpdate (upd_username b) (upd_email b))
                          (users w)) w).
  assert (Hu1 : users w1 = (l1 ++ u' :: l2)%list) by apply Hr.
  assert (Hm : email (doc u') = toLowerCase e) by (cbn; rewrite He; reflexivity).
  split.
  { exists u'. rewrite Hu1. split; [apply in_elt|]. split; [reflexivity|exact Hm]. }
  destruct (accepted_issue E req a w1 Hacc) as (_ & w0 & (Hu0 & _) & ->).
  rewrite Hu1 in Hu0.
  destruct (issue_bad_email E a u' w0) as (w2 & Hrun & Hu2).
  - rewrite Hu0. unfold findOneByWallet. apply (find_replace _ l1 l2 u u').
    + rewrite <- Hus. exact Hn.
    + rewrite <- Hus. exact Hf.
    + reflexivity.
  - rewrite Hm. exact Hbad.
  - exists w2. split; [exact Hrun|]. rewrite Hu2, Hu0, Hu1. reflexivity.
Qed.

(** X16.  Delete, then authenticate: after [deleteUser] removed the record
    of a wallet, an accepted wallet authentication of the same address is a
    first-time one.  When no other record holds the placeholder name and
    e-mail address it is answered 200 for a new record under a new primary
    key, and no record is left under the old key. *)
Theorem delete_then_wallet_auth (E : Env) (req : Request) (a : string) (u : User)
    (w : World) :
  accepted E req a ->
  collectionInvariant w ->
  findOneByWallet (toLowerCase a) (users w) = Some u ->
  (forall v, In v (users w) -> _id v <> _id u ->
     username (doc v) <> walletUsername a /\ email (doc v) <> walletEmail a) ->
  isEmpty (bcryptHash E (randomPassword E (randomReads w)) (genSalt E (S (randomReads w))))
  = false ->
  signable E ->
  exists tok view w2,
    run E (walletAuth req) (snd (deleteUser (Some (_id u)) w))
    = (Returns (json 200 (WalletAuthBody tok view)), w2)
    /\ view_id view = nextId w
    /\ view_id view <> _id u
    /\ viewWalletAddress view = Some (toLowerCase a)
    /\ forall v, In v (users w2) -> _id v <> _id u.
Proof.
  intros Hacc ((Hn & Hlt) & (_ & _ & Hw) & _) Hf Hfree Hh Hsig.
  destruct (findOneByWallet_address _ _ _ Hf) as [Hin Hwa].
  rewrite toLowerCase_idem in Hwa.
  pose proof (findById_In (_id u) _ _ Hn Hin) as Hk.
  rewrite deleteUser_eq, Hk. cbn [snd].
  destruct (findById_split _ _ _ Hk) as (l1 & l2 & Hus & _ & _ & _ & Hd).
  rewrite Hd.
  assert (Hids : forall v, In v (l1 ++ l2) -> _id v <> _id u).
  { intros v Hv. rewrite Hus in Hn. exact (findById_unique (_id u) l1 l2 u v Hn Hv). }
  assert (Hsub : forall v, In v (l1 ++ l2) -> In v (users w)).
  { intros v Hv. rewrite Hus. apply in_app_iff in Hv as [Hv|Hv]; apply in_app_iff;
      [left|right; right]; exact Hv. }
  assert (Hnew : forall v, In v (l1 ++ l2) ->
                           walletAddress (doc v) <> Some (toLowerCase a)).
  { intros v Hv Hx. rewrite Hus in Hw. unfold wallets in Hw.
    rewrite flat_map_app in Hw. cbn [flat_map] in Hw. rewrite Hwa in Hw.
    cbn [app] in Hw. apply NoDup_remove_2 in Hw. apply Hw.
    rewrite <- flat_map_app. apply in_wallets. exists v. split; assumption. }
  destruct Hacc as (m & s & Ha & Hm & Hs & Hme & Hse & Hwf & Hv).
  destruct (run_first_time E req (withUsers (l1 ++ l2)%list w) a m s
              Ha Hm Hs Hme Hse Hwf Hv Hnew Hh Hsig) as (w2 & Hrun).
  cbn [users nextId dateReads randomReads withUsers] in Hrun.
  rewrite duplicateKey_free in Hrun.
  - destruct Hrun as (tok & Hrun & Hu2).
    eexists tok, _, w2. split; [exact Hrun|].
    assert (Hlt' : (_id u < nextId w)%N).
    { rewrite Forall_forall in Hlt. exact (Hlt u Hin). }
    split; [reflexivity|]. split; [change (nextId w <> _id u); lia|].
    split; [reflexivity|].
    intros v Hv2. rewrite Hu2 in Hv2. apply in_app_iff in Hv2 as [Hv2|[<-|[]]].
    + exact (Hids v Hv2).
    + change (nextId w <> _id u). lia.
  - intros v Hv2. destruct (Hfree v (Hsub v Hv2) (Hids v Hv2)) as [H1 H2].
    split; [exact H1|]. split; [exact H2|].
    intros x Hx. cbn in Hx. injection Hx as <-. exact (Hnew v Hv2).
Qed.

(** X17.  Whatever requests are served, one after the other, the unique
    indexes and the handlers keep the keys of the collection unique:
    primary keys (all below the generator), user names, e-mail addresses
    and wallet addresses. *)
Theorem keys_stay_unique (E : Env) (rs : list ApiRequest) (w : World) :
  collectionInvariant w ->
  let w' := serveAll E rs w in
  NoDup (map _id (users w'))
  /\ Forall (fun u => (_id u < nextId w')%N) (users w')
  /\ NoDup (map (fun u => username (doc u)) (users w'))
  /\ NoDup (map (fun u => email (doc u)) (users w'))
  /\ NoDup (wallets (users w')).
Proof.
  intros Hinv.
  destruct (serveAll_invariant E rs w Hinv) as ((H1 & H2) & (H3 & H4 & H5) & _).
  repeat split; assumption.
Qed.

(** X18.  Whatever requests are served, every stored wallet address is
    [0x] and forty hex digits in lower case, and every record has a
    password hash: no endpoint stores an address as the client spelled it
    or an account without a credential. *)
Theorem stored_records_stay_normal (E : Env) (rs : list ApiRequest) (w : World) (u : User) :
  collectionInvariant w ->
  In u (users (serveAll E rs w)) ->
  isEmpty (passwordHash (doc u)) = false
  /\ forall a, walletAddress (doc u) = Some a ->
               wellFormedAddress a /\ toLowerCase a = a.
Proof.
  intros Hinv Hin.
  destruct (serveAll_invariant E rs w Hinv) as (_ & _ & Hw & Hh).
  rewrite Forall_forall in Hw, Hh. split; [exact (Hh u Hin)|exact (Hw u Hin)].
Qed.

(** X19.  In every 200 of [walletAuth] the token and the user object agree
    and are about the address of the request: both carry that address in
    lower case, and the token's user id, user name and e-mail address are
    those of the user object. *)
Theorem wallet_response_is_consistent (E : Env) (req : Request) (w w' : World)
    (r : Response) :
  run E (walletAuth req) w = (Returns r, w') ->
  status r = 200 ->
  exists a tok view,
    body_walletAddress req = Str a
    /\ body r = WalletAuthBody tok view
    /\ viewWalletAddress view = Some (toLowerCase a)
    /\ tokWalletAddress tok = Some (toLowerCase a)
    /\ tokUserId tok = view_id view
    /\ tokUsername tok = viewUsername view
    /\ tokEmail tok = viewEmail view.
Proof.
  intros H Hs.
  destruct (walletAuth_200_inv E _ _ _ _ H Hs) as (a & w0 & Hreq & Ha & _ & Hrun).
  destruct (issue_200_consistent E a w0 w' r Ha Hrun Hs)
    as (tok & u & -> & Hw & Hi & Hn & He & Hta & _).
  exists a, tok, (walletView u). rewrite Hta. cbn. repeat split; assumption.
Qed.

(** X20.  Without a signing secret nobody gets a session, yet accounts are
    made: no request to [walletAuth] or [loginUser] is answered 200, and
    an accepted first-time wallet authentication is answered 500 after its
    record was stored. *)
Theorem no_secret_no_session (E : Env) :
  ~ signable E ->
  (forall req w r w', run E (walletAuth req) w = (Returns r, w') -> status r <> 200)
  /\ (forall req w r w', run E (loginUser req) w = (Returns r, w') -> status r <> 200)
  /\ (forall req a w,
        accepted E req a ->
        (forall v, In v (users w) -> walletAddress (doc v) <> Some (toLowerCase a)) ->
        let h := bcryptHash E (randomPassword E (randomReads w))
                   (genSalt E (S (randomReads w))) in
        let u := walletRecord (nextId w) a h (clock E (dateReads w))
                   (clock E (S (dateReads w))) (clock E (S (S (dateReads w)))) in
        isEmpty h = false ->
        duplicateKey (users w) (doc u) = false ->
        exists w', run E (walletAuth req) w = (Returns fail500, w')
                   /\ users w' = (users w ++ [u])%list).
Proof.
  intros Hk. split; [|split].
  - intros req w r w' H Hs.
    destruct (walletAuth_200_inv E _ _ _ _ H Hs) as (a & w0 & _ & Ha & _ & Hrun).
    destruct (issue_200_consistent E a w0 w' r Ha Hrun Hs) as (_ & _ & _ & _ & _ & _ & _ & _ & Hsig).
    exact (Hk Hsig).
  - intros req w r w'. rewrite run_loginUser. cbv zeta.
    destruct (findOneByUsername _ _) as [u|]; [|intros H; injection H as <- _; discriminate].
    destruct (bcryptCompare E _ _); [|intros H; injection H as <- _; discriminate].
    destruct (JWT_SECRET E) as [key|] eqn:Hs; [destruct (isEmpty key) eqn:He|];
      intros H; injection H as <- _; try discriminate.
    intros _. apply Hk. exists key. split; assumption.
  - intros req a w Hacc Hnew h u Hh Hd.
    destruct (accepted_issue E req a w Hacc) as (Ha & w0 & (Hu0 & Hn0 & Hd0 & Hr0) & ->).
    destruct (issue_unsigned E a w0 Ha) as (w' & Hrun & Hu').
    + rewrite Hu0. apply findOneByWallet_none. rewrite toLowerCase_idem. exact Hnew.
    + exact Hk.
    + rewrite Hr0. exact Hh.
    + rewrite Hu0, Hn0, Hd0, Hr0. exact Hd.
    + exists w'. split; [exact Hrun|]. rewrite Hu', Hu0, Hn0, Hd0, Hr0. reflexivity.
Qed.
(** ** The properties on the fixtures *)

Lemma emptyWorld_collection : collectionInvariant Fixture.emptyWorld.
Proof. repeat split; constructor. Defined.

Lemma walletAuth_invariant (E : Env) (req : Request) (w : World) :
  collectionInvariant w -> collectionInvariant (snd (run E (walletAuth req) w)).
Proof. exact (serve_invariant E (PostWalletAuth req) w). Qed.

Lemma aliceWorld_collection : collectionInvariant Fixture.aliceWorld.
Proof.
  unfold Fixture.aliceWorld.
  exact (walletAuth_invariant Fixture.env Fixture.aliceRequest Fixture.emptyWorld
           emptyWorld_collection).
Qed.

Lemma alice_accepted : accepted Fixture.env Fixture.aliceRequest Fixture.alice.
Proof.
  exists Fixture.challenge, (Fixture.signatureOf Fixture.alice).
  repeat (split; [reflexivity|]). split; [exact alice_wellFormed|].
  exact alice_signature_accepted.
Defined.

Lemma dave_ascii : asciiAccount Desk.dave.
Proof. split; reflexivity. Defined.

Lemma squat_ascii : asciiUpdate Desk.squat.
Proof. split; intros x H; [injection H as <-; reflexivity|discriminate H]. Defined.

Lemma brokenMail_ascii : asciiUpdate Desk.brokenMail.
Proof. split; intros x H; injection H as <-; reflexivity. Defined.

Lemma rename_ascii : asciiUpdate Desk.rename.
Proof. split; intros x H; [injection H as <-; reflexivity|discriminate H]. Defined.

Lemma alice_accepted_unconfigured :
  accepted Desk.unconfigured Fixture.aliceRequest Fixture.alice.
Proof.
  exists Fixture.challenge, (Fixture.signatureOf Fixture.alice).
  repeat (split; [reflexivity|]). split; [exact alice_wellFormed|].
  exact alice_signature_accepted.
Defined.

Lemma register_refuses_taken_names_witness :
  registerUser Fixture.env Desk.dave Desk.daveWorld
  = (Ok (reply 400 (PError "Username or Email already exists")), Desk.daveWorld).
Proof.
  apply (register_refuses_taken_names Fixture.env Desk.dave Desk.daveWorld Desk.daveRecord).
  - exact dave_ascii.
  - vm_compute. right. left. reflexivity.
  - left. vm_compute. reflexivity.
Defined.

Lemma register_creates_account_witness :
  exists u,
    users Desk.daveWorld = (users Fixture.aliceWorld ++ [u])%list
    /\ _id u = nextId Fixture.aliceWorld
    /\ username (doc u) = trim (reg_username Desk.dave)
    /\ email (doc u) = toLowerCase (reg_email Desk.dave)
    /\ walletAddress (doc u) = None.
Proof.
  destruct (register_creates_account Fixture.env Desk.dave Fixture.aliceWorld
              Desk.daveWorld (replyOf (registerUser Fixture.env Desk.dave Fixture.aliceWorld)))
    as (u & p & _ & Hu & Hid & Hn & He & _ & _ & _ & Hw & _).
  - exact dave_ascii.
  - vm_compute. reflexivity.
  - vm_compute. reflexivity.
  - exists u. split; [exact Hu|]. split; [exact Hid|]. split; [exact Hn|].
    split; [exact He|exact Hw].
Defined.

Lemma register_error_is_validation_witness :
  findOneByEmailOrUsername (reg_email Desk.noScore) (reg_username Desk.noScore)
    (users Fixture.aliceWorld) = None
  /\ exists p, reg_password Desk.noScore = Some p
       /\ documentOf Desk.noScore
            (bcryptHash Fixture.env p
               (genSalt Fixture.env (randomReads Fixture.aliceWorld))) = None.
Proof.
  destruct (register_error_is_validation Fixture.env Desk.noScore Fixture.aliceWorld
              (snd (registerUser Fixture.env Desk.noScore Fixture.aliceWorld))
              (replyOf (registerUser Fixture.env Desk.noScore Fixture.aliceWorld)))
    as (Hf & [H|(p & Hp & [H|(d & H & _)])]).
  - split; reflexivity.
  - vm_compute. reflexivity.
  - vm_compute. reflexivity.
  - discriminate H.
  - split; [exact Hf|]. exists p. split; [exact Hp|exact H].
  - injection Hp as <-. vm_compute in H. discriminate H.
Defined.

Lemma register_unselected_enum_refused_witness :
  exists r w',
    registerUser Fixture.env Desk.unselected Fixture.aliceWorld = (Ok r, w')
    /\ (code r = 400 \/ code r = 500)
    /\ users w' = users Fixture.aliceWorld.
Proof.
  apply (register_unselected_enum_refused Fixture.env Desk.unselected Fixture.aliceWorld).
  right. right. right. reflexivity.
Defined.

Lemma register_then_login_witness :
  exists tok u w'',
    run Fixture.env (loginUser (loginOf Desk.dave)) Desk.daveWorld
    = (Returns (json 200 (LoginBody tok u)), w'')
    /\ tokUserId tok = _id u
    /\ tokUsername tok = trim (reg_username Desk.dave).
Proof.
  destruct (register_then_login Fixture.env Desk.dave Fixture.aliceWorld
              Desk.daveWorld (replyOf (registerUser Fixture.env Desk.dave Fixture.aliceWorld)))
    as (tok & u & w'' & Hrun & _ & Hid & Hn & _).
  - exact dave_ascii.
  - vm_compute. reflexivity.
  - exact fixture_signable.
  - vm_compute. reflexivity.
  - vm_compute. reflexivity.
  - exists tok, u, w''. split; [exact Hrun|]. split; [exact Hid|exact Hn].
Defined.

Lemma login_failures_alike_witness :
  run Fixture.env (loginUser Desk.nobody) Desk.daveWorld
  = run Fixture.env (loginUser Desk.wrongPassword) Desk.daveWorld.
Proof.
  destruct (login_failures_alike Fixture.env Desk.daveWorld Desk.nobody
              Desk.wrongPassword Desk.daveRecord) as [H _].
  - vm_compute. reflexivity.
  - vm_compute. reflexivity.
  - vm_compute. reflexivity.
  - exact H.
Defined.

Lemma login_returns_stored_record_witness :
  exists tok u,
    body (answer (run Fixture.env (loginUser (loginOf Desk.dave)) Desk.daveWorld))
    = LoginBody tok u
    /\ In u (users Desk.daveWorld)
    /\ tokUserId tok = _id u.
Proof.
  destruct (login_returns_stored_record Fixture.env (loginOf Desk.dave) Desk.daveWorld
              (snd (run Fixture.env (loginUser (loginOf Desk.dave)) Desk.daveWorld))
              (answer (run Fixture.env (loginUser (loginOf Desk.dave)) Desk.daveWorld)))
    as (tok & u & Hb & Hin & _ & _ & Hid & _).
  - reflexivity.
  - vm_compute. reflexivity.
  - vm_compute. reflexivity.
  - exists tok, u. split; [exact Hb|]. split; [exact Hin|exact Hid].
Defined.

Lemma reads_change_nothing_witness :
  users (serve Fixture.env (PostLogin (loginOf Desk.dave)) Desk.daveWorld)
  = users Desk.daveWorld
  /\ nextId (serve Fixture.env (PostLogin (loginOf Desk.dave)) Desk.daveWorld)
     = nextId Desk.daveWorld.
Proof.
  apply (reads_change_nothing Fixture.env (PostLogin (loginOf Desk.dave)) Desk.daveWorld).
  reflexivity.
Defined.

Lemma lookups_hide_hash_witness :
  passwordHash (doc (withoutPasswordHash Desk.daveRecord)) = EmptyString.
Proof.
  apply (lookups_hide_hash None None Desk.squat Desk.daveWorld
           (replyOf (getUsers None Desk.daveWorld))
           (withoutPasswordHash Desk.daveRecord)).
  - left. vm_compute. reflexivity.
  - vm_compute. right. left. reflexivity.
Defined.

Lemma register_then_lookup_witness :
  exists u,
    getUsers (Some (reg_username Desk.dave)) Desk.daveWorld
    = (Ok (reply 200 (PUserObject (withoutPasswordHash u))), Desk.daveWorld).
Proof.
  destruct (register_then_lookup Fixture.env Desk.dave Fixture.aliceWorld
              Desk.daveWorld (replyOf (registerUser Fixture.env Desk.dave Fixture.aliceWorld)))
    as (u & _ & H).
  - vm_compute. reflexivity.
  - vm_compute. reflexivity.
  - exists u. exact H.
Defined.

Lemma update_conflict_refused_witness :
  updateUser (Some 2%N) Desk.squat Desk.daveWorld
  = (Ok (reply 500 (PError "Server error")), Desk.daveWorld).
Proof.
  apply (update_conflict_refused 2%N Desk.squat Desk.daveWorld
           Desk.daveRecord Desk.aliceRecord).
  - exact squat_ascii.
  - vm_compute. reflexivity.
  - vm_compute. left. reflexivity.
  - vm_compute. discriminate.
  - left. exists "wallet_e4169ee7". split; [reflexivity|].
    split; [vm_compute; reflexivity|vm_compute; discriminate].
Defined.

Lemma update_skips_validation_witness :
  exists w2,
    run Fixture.env (walletAuth Fixture.aliceRequest) Desk.brokenWorld
    = (Returns fail500, w2)
    /\ users w2 = users Desk.brokenWorld.
Proof.
  destruct (update_skips_validation Fixture.env Fixture.aliceRequest Fixture.alice
              "no address" Desk.aliceRecord Desk.brokenMail Fixture.aliceWorld
              Desk.brokenWorld
              (replyOf (updateUser (Some 1%N) Desk.brokenMail Fixture.aliceWorld)))
    as (_ & H).
  - exact alice_accepted.
  - exact brokenMail_ascii.
  - vm_compute. repeat constructor. intros [].
  - vm_compute. reflexivity.
  - reflexivity.
  - vm_compute. reflexivity.
  - vm_compute. reflexivity.
  - vm_compute. reflexivity.
  - exact H.
Defined.

Lemma delete_removes_record_witness :
  exists w',
    deleteUser (Some 1%N) Desk.daveWorld = (Ok (reply 200 (PMessage "User deleted")), w')
    /\ getUserById (Some 1%N) w' = (Ok (reply 404 (PError "User not found")), w').
Proof.
  destruct (delete_removes_record 1%N Desk.daveWorld Desk.aliceRecord)
    as (w' & H1 & _ & _ & H2 & _).
  - vm_compute. repeat constructor.
    + intros [H|[]]. discriminate H.
    + intros [].
  - vm_compute. reflexivity.
  - exists w'. split; assumption.
Defined.

Lemma delete_then_wallet_auth_witness :
  exists tok view w2,
    run Fixture.env (walletAuth Fixture.aliceRequest) Desk.deletedWorld
    = (Returns (json 200 (WalletAuthBody tok view)), w2)
    /\ view_id view = nextId Fixture.aliceWorld
    /\ view_id view <> 1%N.
Proof.
  destruct (delete_then_wallet_auth Fixture.env Fixture.aliceRequest Fixture.alice
              Desk.aliceRecord Fixture.aliceWorld)
    as (tok & view & w2 & H1 & H2 & H3 & _).
  - exact alice_accepted.
  - exact aliceWorld_collection.
  - vm_compute. reflexivity.
  - intros v Hin Hne. vm_compute in Hin. destruct Hin as [<-|[]].
    destruct Hne. reflexivity.
  - vm_compute. reflexivity.
  - exact fixture_signable.
  - exists tok, view, w2. split; [exact H1|]. split; [exact H2|exact H3].
Defined.

Lemma keys_stay_unique_witness :
  NoDup (map _id (users (serveAll Fixture.env Desk.day Fixture.emptyWorld)))
  /\ NoDup (wallets (users (serveAll Fixture.env Desk.day Fixture.emptyWorld))).
Proof.
  destruct (keys_stay_unique Fixture.env Desk.day Fixture.emptyWorld emptyWorld_collection)
    as (H1 & _ & _ & _ & H2).
  split; assumption.
Defined.

Lemma stored_records_stay_normal_witness :
  isEmpty (passwordHash (doc Desk.aliceRecord)) = false
  /\ forall a, walletAddress (doc Desk.aliceRecord) = Some a ->
               wellFormedAddress a /\ toLowerCase a = a.
Proof.
  apply (stored_records_stay_normal Fixture.env [PostWalletAuth Fixture.aliceRequest]
           Fixture.emptyWorld Desk.aliceRecord emptyWorld_collection).
  vm_compute. left. reflexivity.
Defined.

Lemma wallet_response_is_consistent_witness :
  exists a tok view,
    body_walletAddress Fixture.aliceRequest = Str a
    /\ body (answer (run Fixture.env (walletAuth Fixture.aliceRequest) Fixture.emptyWorld))
       = WalletAuthBody tok view
    /\ viewWalletAddress view = Some (toLowerCase a)
    /\ tokUserId tok = view_id view.
Proof.
  destruct (wallet_response_is_consistent Fixture.env Fixture.aliceRequest
              Fixture.emptyWorld Fixture.aliceWorld
              (answer (run Fixture.env (walletAuth Fixture.aliceRequest) Fixture.emptyWorld)))
    as (a & tok & view & Ha & Hb & Hv & _ & Hi & _).
  - vm_compute. reflexivity.
  - vm_compute. reflexivity.
  - exists a, tok, view. split; [exact Ha|]. split; [exact Hb|].
    split; [exact Hv|exact Hi].
Defined.

Lemma no_secret_no_session_witness :
  exists w',
    run Desk.unconfigured (walletAuth Fixture.aliceRequest) Fixture.emptyWorld
    = (Returns fail500, w')
    /\ length (users w') = 1.
Proof.
  destruct (no_secret_no_session Desk.unconfigured) as (_ & _ & H).
  - intros (key & Hk & _). discriminate Hk.
  - destruct (H Fixture.aliceRequest Fixture.alice Fixture.emptyWorld
                alice_accepted_unconfigured) as (w' & Hrun & Hu).
    + intros v [].
    + vm_compute. reflexivity.
    + vm_compute. reflexivity.
    + exists w'. split; [exact Hrun|]. rewrite Hu. reflexivity.
Defined.

(** ** Renaming *)

Lemma find_app_hit (P : User -> bool) (l1 l2 : list User) (y : User) :
  (forall v, In v l1 -> P v = false) -> P y = true ->
  find P (l1 ++ y :: l2) = Some y.
Proof.
  induction l1 as [|a l1 IH]; cbn [app find]; intros Hl Hy.
  - rewrite Hy. reflexivity.
  - rewrite (Hl a (or_introl eq_refl)). apply IH; [|exact Hy].
    intros v Hv. apply Hl. right. exact Hv.
Qed.

(** What the unique indexes let through on an update. *)
Lemma updateClashes_false (u : User) (d' : UserDoc) (l1 l2 : list User) (v : User) :
  NoDup (map _id (l1 ++ u :: l2)) ->
  updateClashes u d' (l1 ++ u :: l2) = false ->
  In v (l1 ++ l2) ->
  (username d' = username (doc u) \/ username (doc v) <> username d')
  /\ (email d' = email (doc u) \/ email (doc v) <> email d').
Proof.
  intros Hn Hc Hv.
  assert (Hne : _id v <> _id u) by exact (findById_unique (_id u) l1 l2 u v Hn Hv).
  assert (Hin : In v (l1 ++ u :: l2)).
  { apply in_app_iff in Hv as [Hv|Hv]; apply in_app_iff; [left|right; right]; exact Hv. }
  unfold updateClashes in Hc.
  assert (Hx : negb (N.eqb (_id v) (_id u))
               && ((negb (String.eqb (username d') (username (doc u)))
                    && String.eqb (username (doc v)) (username d'))
                   || (negb (String.eqb (email d') (email (doc u)))
                       && String.eqb (email (doc v)) (email d'))) = false).
  { destruct (negb (N.eqb (_id v) (_id u)) && _) eqn:Hx; [|reflexivity].
    rewrite <- Hc. symmetry. apply existsb_exists. exists v. split; [exact Hin|exact Hx]. }
  apply N.eqb_neq in Hne. rewrite Hne in Hx. cbn [negb andb] in Hx.
  apply orb_false_iff in Hx as [H1 H2]. split.
  - destruct (String.eqb (username d') (username (doc u))) eqn:He.
    + left. apply String.eqb_eq. exact He.
    + right. cbn [negb andb] in H1. apply String.eqb_neq. exact H1.
  - destruct (String.eqb (email d') (email (doc u))) eqn:He.
    + left. apply String.eqb_eq. exact He.
    + right. cbn [negb andb] in H2. apply String.eqb_neq. exact H2.
Qed.

(** X21.  Rename, then look up: on a collection with unique keys and user
    names, after [updateUser] answered 200 to a body with an ASCII user
    name, [GET /api/users?username=] with that name finds the record of
    the updated key, the one the update returned, under the trimmed name. *)
Theorem update_then_lookup (i : ObjectId) (b : UpdateBody) (n : string)
    (w w' : World) (r : Reply) :
  collectionInvariant w ->
  asciiUpdate b ->
  upd_username b = Some n ->
  isEmpty n = false ->
  updateUser (Some i) b w = (Ok r, w') ->
  code r = 200 ->
  exists u',
    payload r = PUpdated "User updated" (withoutPasswordHash u')
    /\ In u' (users w')
    /\ _id u' = i
    /\ username (doc u') = trim n
    /\ getUsers (Some n) w'
       = (Ok (reply 200 (PUserObject (withoutPasswordHash u'))), w').
Proof.
  intros ((Hn & _) & (Hu & _) & _) _ Hb Hne Hup Hc.
  rewrite updateUser_eq in Hup.
  destruct (findById i (users w)) as [u|] eqn:Hf;
    [|injection Hup as <- _; discriminate Hc].
  cbv zeta in Hup.
  destruct (updateClashes _ _ _) eqn:Hcl; injection Hup as <- <-; [discriminate Hc|].
  destruct (findById_split _ _ _ Hf) as (l1 & l2 & Hus & Hid & _ & Hr & _).
  set (u' := {| _id := _id u;
                doc := applyUpdate (upd_username b) (upd_email b) (doc u) |}).
  assert (Hname : username (doc u') = trim n) by (cbn; rewrite Hb; reflexivity).
  set (w1 := withUsers (replaceById i (applyUpdate (upd_username b) (upd_email b))
                          (users w)) w).
  assert (Hu1 : users w1 = (l1 ++ u' :: l2)%list) by apply Hr.
  exists u'. split; [reflexivity|]. rewrite Hu1.
  split; [apply in_elt|]. split; [exact Hid|]. split; [exact Hname|].
  rewrite getUsers_eq. destruct n as [|c s]; [discriminate Hne|].
  rewrite Hu1.
  unfold findOneByUsername. rewrite find_app_hit; [reflexivity| |].
  - intros v Hv. apply String.eqb_neq. rewrite <- Hname.
    assert (Hv' : In v (l1 ++ l2)) by (apply in_app_iff; left; exact Hv).
    rewrite Hus in Hn, Hcl, Hu.
    destruct (updateClashes_false u _ l1 l2 v Hn Hcl Hv') as [[He|He] _].
    + change (username (doc u')) with
        (username (applyUpdate (upd_username b) (upd_email b) (doc u))).
      rewrite He. rewrite map_app in Hu. cbn [map] in Hu.
      apply NoDup_remove_2 in Hu. intros Heq. apply Hu. rewrite <- Heq.
      rewrite <- map_app. apply (in_map (fun x => username (doc x))). exact Hv'.
    + exact He.
  - rewrite Hname. apply String.eqb_refl.
Qed.

Lemma registerUser_invariant (E : Env) (b : RegisterBody) (w : World) :
  collectionInvariant w -> collectionInvariant (snd (registerUser E b w)).
Proof. exact (serve_invariant E (PostRegister b) w). Qed.

Lemma daveWorld_collection : collectionInvariant Desk.daveWorld.
Proof.
  unfold Desk.daveWorld.
  exact (registerUser_invariant Fixture.env Desk.dave Fixture.aliceWorld
           aliceWorld_collection).
Qed.

Lemma update_then_lookup_witness :
  exists u',
    _id u' = 2%N
    /\ getUsers (Some " hal ") (snd (updateUser (Some 2%N) Desk.rename Desk.daveWorld))
       = (Ok (reply 200 (PUserObject (withoutPasswordHash u'))),
          snd (updateUser (Some 2%N) Desk.rename Desk.daveWorld)).
Proof.
  destruct (update_then_lookup 2%N Desk.rename " hal " Desk.daveWorld
              (snd (updateUser (Some 2%N) Desk.rename Desk.daveWorld))
              (replyOf (updateUser (Some 2%N) Desk.rename Desk.daveWorld)))
    as (u' & _ & _ & Hid & _ & H).
  - exact daveWorld_collection.
  - exact rename_ascii.
  - reflexivity.
  - reflexivity.
  - vm_compute. reflexivity.
  - vm_compute. reflexivity.
  - exists u'. split; [exact Hid|exact H].
Defined.
